(** * Schema-adaptive GitHub -> Notion issue synchronisation

    A shallow embedding of the payload builders and diff functions of
    [issue-import/notion_sync.py] (the full-repository sweep) and
    [issue-import/issue_to_notion.py] (the single-issue webhook tool),
    together with the properties their specification states about them,
    and of the repository list and the issue listing of the sweep and the
    repository naming of [issue-import/github_issue_importer.py].

    Python values are embedded as a JSON-like inductive type, Python
    dictionaries as insertion-ordered association lists, exceptions as an
    error monad, and the module-level globals [DB_SCHEMA],
    [NOTION_PEOPLE_MAP] and [PROJECT_MAP] as section variables.

    Conventions of the embedding:
    - an issue and a destination page are what [json] decodes: [None],
      booleans, integers, strings, lists and string-keyed dictionaries
      (JSON numbers with a fraction do not occur in the fields read here);
    - [DB_SCHEMA] maps a property name to its type string; a property whose
      type is missing reads as [None] in Python and as an absent key here,
      which the scripts cannot tell apart ([DB_SCHEMA.get(p) == "..."]);
    - [NOTION_PEOPLE_MAP] and [PROJECT_MAP] hold strings, as the header of
      [notion_sync.py] documents them;
    - the HTTP calls (lookup by GitHub id, create, update) are outside the
      model: what the lookup returned is an input of a pass, and what a
      pass asks of the destination is its result. *)

From Stdlib Require Import String Ascii ZArith List Bool Lia.
From stdpp Require Import base option list gmap strings pretty.

Local Open Scope string_scope.
Local Open Scope list_scope.

(** ** Python strings

    A Python [str] is embedded as a [string]; a character is a code point
    below 256.  The functions below are the [str] methods the scripts call. *)

Module PyStr.

(** [str.lower] on one code point: A-Z and the Latin-1 capitals. *)
Definition lower_char (c : ascii) : ascii :=
  let n := nat_of_ascii c in
  if ((65 <=? n) && (n <=? 90))%nat then ascii_of_nat (n + 32)
  else if ((192 <=? n) && (n <=? 222) && negb (n =? 215))%nat
       then ascii_of_nat (n + 32)
       else c.

Fixpoint lower (s : string) : string :=
  match s with
  | EmptyString => EmptyString
  | String c r => String (lower_char c) (lower r)
  end.

(** [str.isspace] on one code point. *)
Definition is_space (c : ascii) : bool :=
  let n := nat_of_ascii c in
  (((9 <=? n) && (n <=? 13)) || ((28 <=? n) && (n <=? 32))
   || (n =? 133) || (n =? 160))%nat.

(** [prefix.startswith] is [String.prefix]; [c in s] for a one-character
    needle: *)
Fixpoint contains (c : ascii) (s : string) : bool :=
  match s with
  | EmptyString => false
  | String a r => if Ascii.eqb a c then true else contains c r
  end.

(** [s.split(c, 1)]: one part when [c] does not occur, otherwise the
    text before and after its first occurrence. *)
Fixpoint split_once (c : ascii) (s : string) : option (string * string) :=
  match s with
  | EmptyString => None
  | String a r =>
      if Ascii.eqb a c then Some (EmptyString, r)
      else match split_once c r with
           | Some (k, v) => Some (String a k, v)
           | None => None
           end
  end.

Definition split1 (c : ascii) (s : string) : list string :=
  match split_once c s with
  | Some (k, v) => [k; v]
  | None => [s]
  end.

(** [s.split(c)]: all the parts, never an empty list. *)
Fixpoint split (c : ascii) (s : string) : list string :=
  match s with
  | EmptyString => [EmptyString]
  | String a r =>
      if Ascii.eqb a c then EmptyString :: split c r
      else match split c r with
           | p :: ps => String a p :: ps
           | [] => [String a EmptyString]
           end
  end.

(** [s.lstrip()], [s.rstrip()], [s.strip()] and [s.rstrip(c)]. *)
Fixpoint lstrip (s : string) : string :=
  match s with
  | EmptyString => EmptyString
  | String a r => if is_space a then lstrip r else s
  end.

Fixpoint rstrip_by (p : ascii -> bool) (s : string) : string :=
  match s with
  | EmptyString => EmptyString
  | String a r =>
      match rstrip_by p r with
      | EmptyString => if p a then EmptyString else String a EmptyString
      | r' => String a r'
      end
  end.

Definition rstrip : string -> string := rstrip_by is_space.
Definition strip (s : string) : string := rstrip (lstrip s).
Definition rstrip_char (c : ascii) : string -> string := rstrip_by (Ascii.eqb c).

(** [s[:n]]. *)
Fixpoint take (n : nat) (s : string) : string :=
  match n, s with
  | S n', String a r => String a (take n' r)
  | _, _ => EmptyString
  end.

(** [sep.join(parts)]. *)
Fixpoint join (sep : string) (parts : list string) : string :=
  match parts with
  | [] => EmptyString
  | [p] => p
  | p :: ps => p +:+ sep +:+ join sep ps
  end.

(** The characters of a string, as one-character strings (iteration). *)
Fixpoint chars (s : string) : list string :=
  match s with
  | EmptyString => []
  | String a r => String a EmptyString :: chars r
  end.

End PyStr.

(** ** Python dictionaries

    A [dict] with string keys is an association list in insertion order in
    which a key occurs once. *)

Module Dict.
Section Ops.
Context {V : Type}.

(** [d.get(k)], as an option. *)
Fixpoint dict_get (k : string) (d : list (string * V)) : option V :=
  match d with
  | [] => None
  | (k', v) :: r => if String.eqb k' k then Some v else dict_get k r
  end.

(** [d[k] = v]: an existing key keeps its place. *)
Fixpoint dict_set (d : list (string * V)) (k : string) (v : V)
  : list (string * V) :=
  match d with
  | [] => [(k, v)]
  | (k', v') :: r =>
      if String.eqb k' k then (k, v) :: r else (k', v') :: dict_set r k v
  end.

(** [d.update(e)]. *)
Definition dict_update (d e : list (string * V)) : list (string * V) :=
  fold_left (fun acc kv => dict_set acc (fst kv) (snd kv)) e d.

(** [k in d]. *)
Definition dict_mem (k : string) (d : list (string * V)) : bool :=
  match dict_get k d with Some _ => true | None => false end.

(** [d.keys()]. *)
Definition dict_keys (d : list (string * V)) : list string := map fst d.
End Ops.
End Dict.
Export Dict.

(** ** Python values and exceptions *)

#[warnings="-register-all"]
Inductive pyval : Type :=
| PNone
| PBool (b : bool)
| PInt (z : Z)
| PStr (s : string)
| PList (l : list pyval)
| PDict (d : list (string * pyval)).

Inductive exn : Type :=
  TypeError | AttributeError | KeyError | IndexError | ValueError.

Inductive result (A : Type) : Type :=
| Ok (a : A)
| Raise (e : exn).
Arguments Ok {A} a.
Arguments Raise {A} e.

Global Instance result_ret : MRet result := fun A a => Ok a.
Global Instance result_bind : MBind result := fun A B f m =>
  match m with
  | Ok a => f a
  | Raise e => Raise e
  end.

(** [for x in xs: f x], collecting the results, stopping at the first raise. *)
Fixpoint mapR {A B : Type} (f : A -> result B) (xs : list A) : result (list B) :=
  match xs with
  | [] => Ok []
  | x :: r => y ← f x; ys ← mapR f r; Ok (y :: ys)
  end.

(** A loop that threads an accumulator. *)
Fixpoint foldR {A S : Type} (f : S -> A -> result S) (xs : list A) (s : S) : result S :=
  match xs with
  | [] => Ok s
  | x :: r => s' ← f s x; foldR f r s'
  end.

(** [if c: <statement on d>], for a statement that updates a dictionary. *)
Definition when {D : Type} (c : bool) (f : D -> D) (d : D) : D :=
  if c then f d else d.

(** The same for a statement that can raise. *)
Definition whenR {D : Type} (c : bool) (f : D -> result D) (d : D) : result D :=
  if c then f d else Ok d.

(** [if o: <statement on d using the value of o>], for an optional [o]. *)
Definition when_some {A D : Type} (o : option A) (f : A -> D -> D) (d : D) : D :=
  match o with
  | Some a => f a d
  | None => d
  end.

Module Py.

(** Truth value of an object ([if v:], [v or d], [not v]). *)
Definition truthy (v : pyval) : bool :=
  match v with
  | PNone => false
  | PBool b => b
  | PInt z => negb (z =? 0)%Z
  | PStr s => negb (String.eqb s "")
  | PList l => match l with [] => false | _ => true end
  | PDict d => match d with [] => false | _ => true end
  end.

(** [a or b]. *)
Definition or_else (a b : pyval) : pyval := if truthy a then a else b.

(** [d.get(k)] and [d.get(k, dflt)] on a dictionary. *)
Definition get (d : list (string * pyval)) (k : string) : pyval :=
  default PNone (dict_get k d).
Definition get_or (d : list (string * pyval)) (k : string) (dflt : pyval) : pyval :=
  default dflt (dict_get k d).

(** [v.get(k, dflt)] on an arbitrary object: only dictionaries have [get]. *)
Definition vget (v : pyval) (k : string) (dflt : pyval) : result pyval :=
  match v with
  | PDict d => Ok (get_or d k dflt)
  | _ => Raise AttributeError
  end.

(** [d[k]] on a dictionary. *)
Definition index (d : list (string * pyval)) (k : string) : result pyval :=
  match dict_get k d with
  | Some v => Ok v
  | None => Raise KeyError
  end.

(** [for x in v]: lists yield their elements, strings their characters,
    dictionaries their keys; the other objects are not iterable. *)
Definition iter (v : pyval) : result (list pyval) :=
  match v with
  | PList l => Ok l
  | PStr s => Ok (map PStr (PyStr.chars s))
  | PDict d => Ok (map (fun kv => PStr (fst kv)) d)
  | _ => Raise TypeError
  end.

(** A method of [str] called on an arbitrary object. *)
Definition as_str (v : pyval) : result string :=
  match v with
  | PStr s => Ok s
  | _ => Raise AttributeError
  end.

(** An operand that must be a [str] ([a + "..."], [", ".join(...)]). *)
Definition str_operand (v : pyval) : result string :=
  match v with
  | PStr s => Ok s
  | _ => Raise TypeError
  end.

(** [v == w].  [True == 1]; dictionaries compare without regard to order. *)
Fixpoint eq (a b : pyval) {struct a} : bool :=
  match a, b with
  | PNone, PNone => true
  | PBool x, PBool y => Bool.eqb x y
  | PBool x, PInt y => ((if x then 1 else 0) =? y)%Z
  | PInt x, PBool y => (x =? (if y then 1 else 0))%Z
  | PInt x, PInt y => (x =? y)%Z
  | PStr x, PStr y => String.eqb x y
  | PList xs, PList ys =>
      (fix go (xs ys : list pyval) {struct xs} : bool :=
         match xs, ys with
         | [], [] => true
         | x :: xs', y :: ys' => eq x y && go xs' ys'
         | _, _ => false
         end) xs ys
  | PDict d, PDict e =>
      (length d =? length e)%nat &&
      (fix go (d : list (string * pyval)) {struct d} : bool :=
         match d with
         | [] => true
         | (k, v) :: r =>
             match dict_get k e with
             | Some w => eq v w
             | None => false
             end && go r
         end) d
  | _, _ => false
  end.

(** [c in v] for a one-character string [c]: substring test on a string,
    membership on a list, key test on a dictionary. *)
Definition char_in (c : ascii) (v : pyval) : result bool :=
  match v with
  | PStr s => Ok (PyStr.contains c s)
  | PList l => Ok (existsb (fun x => eq x (PStr (String c EmptyString))) l)
  | PDict d => Ok (dict_mem (String c EmptyString) d)
  | _ => Raise TypeError
  end.

(** Only [None], booleans, numbers and strings can be dictionary keys or
    set members. *)
Definition hashable (v : pyval) : bool :=
  match v with
  | PList _ | PDict _ => false
  | _ => true
  end.

(** [set(xs)] and [s != t] on sets, kept as the list of their members. *)
Definition to_set (xs : list pyval) : result (list pyval) :=
  if forallb hashable xs then Ok xs else Raise TypeError.
Definition set_incl (s t : list pyval) : bool :=
  forallb (fun x => existsb (eq x) t) s.
Definition set_ne (s t : list pyval) : bool :=
  negb (set_incl s t && set_incl t s).

(** [f"{v}"] for the objects that can be dictionary keys.  Containers are
    unhashable: wherever the scripts format a value it has been looked up
    in a dictionary first, which raises [TypeError] for them. *)
Definition format (v : pyval) : result string :=
  match v with
  | PNone => Ok "None"
  | PBool true => Ok "True"
  | PBool false => Ok "False"
  | PInt z => Ok (pretty z)
  | PStr s => Ok s
  | PList _ | PDict _ => Raise TypeError
  end.

(** [v[:n]]: strings and lists can be sliced. *)
Definition slice_to (n : nat) (v : pyval) : result pyval :=
  match v with
  | PStr s => Ok (PStr (PyStr.take n s))
  | PList l => Ok (PList (firstn n l))
  | _ => Raise TypeError
  end.

(** [xs[i]] on a list of strings. *)
Definition nth_str (xs : list string) (i : nat) : result string :=
  match nth_error xs i with
  | Some s => Ok s
  | None => Raise IndexError
  end.

End Py.

(** ** Notion property names

    Both scripts declare the same fourteen names. *)

Definition PROP_TITLE : string := "Task".
Definition PROP_GH_ID : string := "GitHub ID".
Definition PROP_REPO : string := "Repo".
Definition PROP_PROJECT : string := "Project".
Definition PROP_TYPE : string := "Type".
Definition PROP_PRIORITY : string := "Priority".
Definition PROP_SPRINT : string := "Sprint".
Definition PROP_LABELS : string := "Labels".
Definition PROP_STATUS : string := "Status".
Definition PROP_ASSIGNEE : string := "Assigned To".
Definition PROP_BODY : string := "Notes".
Definition PROP_ISSUE_URL : string := "GitHub Link".
Definition PROP_CREATED : string := "Created At".
Definition PROP_UPDATED : string := "Updated At".

(** The line break of the Python literals ["\n\nLabels: "] and
    ["\n\nGitHub assignee: "]. *)
Definition nl : string := String "010"%char EmptyString.

(** Wire shapes shared by the payload builders. *)
Definition rich_text (content : pyval) : pyval :=
  PDict [("rich_text", PList [PDict [("text", PDict [("content", content)])]])].
Definition select_value (name : pyval) : pyval :=
  PDict [("select", PDict [("name", name)])].
Definition multi_select_value (names : list pyval) : pyval :=
  PDict [("multi_select", PList (map (fun v => PDict [("name", v)]) names))].
Definition people_value (ids : list pyval) : pyval :=
  PDict [("people", PList (map (fun i => PDict [("id", i)]) ids))].
Definition title_value (content : pyval) : pyval :=
  PDict [("title", PList [PDict [("text", PDict [("content", content)])]])].
Definition date_value (start : pyval) : pyval :=
  PDict [("date", PDict [("start", start)])].

(** [props[PROP_BODY]["rich_text"][0]["text"]["content"]]. *)
Definition notes_content (props : list (string * pyval)) : result pyval :=
  b ← Py.index props PROP_BODY;
  match b with
  | PDict bd =>
      rt ← Py.index bd "rich_text";
      match rt with
      | PList (PDict first :: _) =>
          t ← Py.index first "text";
          match t with
          | PDict td => Py.index td "content"
          | _ => Raise TypeError
          end
      | PList [] | PStr EmptyString => Raise IndexError
      | PDict _ => Raise KeyError
      | _ => Raise TypeError
      end
  | _ => Raise TypeError
  end.

(** ["".join(p.get("text",{}).get("content","") for p in
    container.get(prop,{}).get(field,[]))]: the text of a title or of a
    rich-text value, as both diff functions read it. *)
Definition joined_text (container : pyval) (prop field : string) : result string :=
  a ← Py.vget container prop (PDict []);
  l ← Py.vget a field (PList []);
  ps ← Py.iter l;
  cs ← mapR (fun p => t ← Py.vget p "text" (PDict []);
                      Py.vget t "content" (PStr "")) ps;
  ss ← mapR Py.str_operand cs;
  Ok (String.concat "" ss).

(** [container.get(prop,{}).get("select",{}).get("name", dflt)]. *)
Definition select_name (container : pyval) (prop : string) (dflt : pyval)
  : result pyval :=
  a ← Py.vget container prop (PDict []);
  s ← Py.vget a "select" (PDict []);
  Py.vget s "name" dflt.

(** [set([m.get("name") for m in container.get(prop,{}).get("multi_select",[])])]. *)
Definition label_set (container : pyval) (prop : string) : result (list pyval) :=
  a ← Py.vget container prop (PDict []);
  l ← Py.vget a "multi_select" (PList []);
  ms ← Py.iter l;
  ns ← mapR (fun m => Py.vget m "name" PNone) ms;
  Py.to_set ns.

(** [[l.get("name") for l in issue.get("labels",[])] if issue.get("labels")
    else []]: the label names of an issue, as both builders read them. *)
Definition label_names (issue : list (string * pyval)) : result (list pyval) :=
  if Py.truthy (Py.get issue "labels") then
    ls ← Py.iter (Py.get_or issue "labels" (PList []));
    mapR (fun l => Py.vget l "name" PNone) ls
  else Ok [].

(** [issue.get("assignee", {}).get("login") if issue.get("assignee") else
    None], as both builders read it. *)
Definition assignee_login (issue : list (string * pyval)) : result pyval :=
  if Py.truthy (Py.get issue "assignee")
  then Py.vget (Py.get_or issue "assignee" (PDict [])) "login" PNone
  else Ok PNone.

(** [repo_full.split("/",1)[1] if "/" in repo_full else repo_full]. *)
Definition short_name (repo_full : string) : string :=
  if PyStr.contains "/" repo_full
  then nth 1 (PyStr.split1 "/" repo_full) repo_full
  else repo_full.

(** The comparisons of the diff functions.  Each one answers whether the
    field differs ([if ...: return True]); both scripts write them with the
    same expressions. *)

(** [e_title.strip() != n_title.strip()], also used for the body. *)
Definition text_differs (props new_props : pyval) (prop field : string)
  : result bool :=
  e ← joined_text props prop field;
  n ← joined_text new_props prop field;
  Ok (negb (String.eqb (PyStr.strip e) (PyStr.strip n))).

(** [e_v != n_v] on the names of a select property. *)
Definition select_differs (props new_props : pyval) (prop : string)
  : result bool :=
  e ← select_name props prop (PStr "");
  n ← select_name new_props prop (PStr "");
  Ok (negb (Py.eq e n)).

(** [e_labels != n_labels]. *)
Definition labels_differ (props new_props : pyval) : result bool :=
  e ← label_set props PROP_LABELS;
  n ← label_set new_props PROP_LABELS;
  Ok (Py.set_ne e n).

(** [n_status == "Done" and e_status != "Done"]. *)
Definition status_differs (props new_props : pyval) : result bool :=
  e ← select_name props PROP_STATUS (PStr "");
  n ← select_name new_props PROP_STATUS (PStr "");
  Ok (Py.eq n (PStr "Done") && negb (Py.eq e (PStr "Done"))).

(** [try: ... except Exception: return True]. *)
Definition except_true (r : result bool) : bool :=
  match r with
  | Ok b => b
  | Raise _ => true
  end.

(** What one pass over an issue asks of the destination. *)
Inductive decision : Type :=
| Create (payload : list (string * pyval))
| Update (page_id : pyval) (payload : list (string * pyval))
| NoOp
| Skipped
| Failed (e : exn).

(** ** [notion_sync.py]: the full-repository sweep *)

Module NotionSync.
Section Globals.
(** [DB_SCHEMA]: property name -> Notion type, fetched once per run. *)
Variable DB_SCHEMA : gmap string string.
(** [NOTION_PEOPLE_MAP]: GitHub login -> Notion user id. *)
Variable NOTION_PEOPLE_MAP : gmap string string.
(** [PROJECT_MAP]: short repository name -> project name, in the order
    of the configured JSON object. *)
Variable PROJECT_MAP : list (string * string).

(** [DB_SCHEMA.get(prop_name) == kind]. *)
Definition schema_is (prop_name kind : string) : bool :=
  match DB_SCHEMA !! prop_name with
  | Some t => String.eqb t kind
  | None => false
  end.

Definition select_payload (prop_name value : string) : list (string * pyval) :=
  if schema_is prop_name "select" then
    [(prop_name, select_value (PStr value))]
  else if schema_is prop_name "multi_select" then
    [(prop_name, multi_select_value [PStr value])]
  else [(prop_name, rich_text (PStr value))].

Definition multi_select_payload (prop_name : string) (values : list pyval)
  : option (list (string * pyval)) :=
  match values with
  | [] =>
      if schema_is prop_name "multi_select"
      then Some [(prop_name, multi_select_value [])]
      else None
  | _ =>
      if schema_is prop_name "multi_select"
      then Some [(prop_name, multi_select_value values)]
      else None
  end.

(** [NOTION_PEOPLE_MAP.get(gh_login)]: the keys are strings, so another
    hashable object finds nothing and a container raises. *)
Definition people_map_get (gh_login : pyval) : result (option string) :=
  match gh_login with
  | PStr s => Ok (NOTION_PEOPLE_MAP !! s)
  | PList _ | PDict _ => Raise TypeError
  | _ => Ok None
  end.

Definition people_payload (prop_name : string) (gh_login : pyval)
  : result (list (string * pyval)) :=
  if schema_is prop_name "people" then
    if Py.truthy gh_login then
      notion_id ← people_map_get gh_login;
      match notion_id with
      | Some i =>
          if Py.truthy (PStr i)
          then Ok [(prop_name, people_value [PStr i])]
          else Ok [(prop_name, people_value [])]
      | None => Ok [(prop_name, people_value [])]
      end
    else Ok [(prop_name, people_value [])]
  else Ok [(prop_name, rich_text (Py.or_else gh_login (PStr "")))].

(** [o is not None]. *)
Definition is_Some_bool {A : Type} (o : option A) : bool :=
  match o with Some _ => true | None => false end.

(** One turn of the loop of [parse_label_map]. *)
Definition parse_label_step (m : list (string * string)) (l : pyval)
  : result (list (string * string)) :=
  has ← Py.char_in ":" l;
  if has : bool then
    s ← Py.as_str l;
    match PyStr.split1 ":" s with
    | [k; v] => Ok (dict_set m (PyStr.lower k) v)
    | _ => Raise ValueError
    end
  else Ok m.

Definition parse_label_map (labels : list pyval)
  : result (list (string * string)) :=
  foldR parse_label_step labels [].

(** The case-insensitive scan over [PROJECT_MAP.items()]. *)
Fixpoint project_scan (short : string) (items : list (string * string))
  : option string :=
  match items with
  | [] => None
  | (k, v) :: r =>
      if String.eqb (PyStr.lower k) (PyStr.lower short) then Some v
      else project_scan short r
  end.

Definition resolve_project_name_from_repo (repo_full : string) : string :=
  let short := short_name repo_full in
  match dict_get short PROJECT_MAP with
  | Some v => v
  | None => default "All" (project_scan short PROJECT_MAP)
  end.

(** The label loop of [resolve_sprint_from_issue]: a label with a blank
    value is passed over and the scan goes on. *)
Fixpoint sprint_from_labels (labels : list pyval) : result (option string) :=
  match labels with
  | [] => Ok None
  | l :: r =>
      s ← Py.as_str l;
      if String.prefix "sprint:" (PyStr.lower s) then
        v ← Py.nth_str (PyStr.split1 ":" s) 1;
        let val := PyStr.strip v in
        if Py.truthy (PStr val) then Ok (Some ("Sprint " +:+ val))
        else sprint_from_labels r
      else sprint_from_labels r
  end.

(** The milestone fallback of [resolve_sprint_from_issue]. *)
Definition sprint_from_milestone (milestone : pyval) : result (option string) :=
  if Py.truthy milestone then
    t ← Py.vget milestone "title" PNone;
    if Py.truthy t then
      s ← Py.as_str t;
      let title := PyStr.strip s in
      if Py.truthy (PStr title) then
        if String.prefix "sprint" (PyStr.lower title) then Ok (Some title)
        else Ok (Some title)
      else Ok None
    else Ok None
  else Ok None.

Definition resolve_sprint_from_issue (labels : list pyval) (milestone : pyval)
  : result (option string) :=
  from_label ← sprint_from_labels labels;
  match from_label with
  | Some v => Ok (Some v)
  | None => sprint_from_milestone milestone
  end.

(** The first lines of [build_properties]: [owner/name] from the last two
    segments of the issue's [repository_url], ["unknown/unknown"] when
    there is none. *)
Definition repo_full_of_issue (issue : list (string * pyval)) : result string :=
  let repo_text := Py.get_or issue "repository_url" (PStr "") in
  if Py.truthy repo_text then
    s ← Py.as_str repo_text;
    let parts := PyStr.split "/" (PyStr.rstrip_char "/" s) in
    if (2 <=? length parts)%nat then
      match rev parts with
      | last :: before :: _ => Ok (before +:+ "/" +:+ last)
      | _ => Raise IndexError
      end
    else Ok "unknown/unknown"
  else Ok "unknown/unknown".

Definition build_properties (issue : list (string * pyval))
  : result (list (string * pyval)) :=
  let gh_id := Py.get issue "id" in
  repo_full ← repo_full_of_issue issue;
  let short_repo := short_name repo_full in
  title ← Py.slice_to 200 (Py.get_or issue "title" (PStr ""));
  let body := Py.or_else (Py.get issue "body") (PStr "") in
  labels ← label_names issue;
  label_map ← parse_label_map labels;
  gh_assignee ← assignee_login issue;
  let milestone := Py.get issue "milestone" in
  let created := Py.get issue "created_at" in
  let updated := Py.get issue "updated_at" in
  let gh_state := Py.get_or issue "state" (PStr "open") in
  let props := [] in
  let props := dict_set props PROP_TITLE (title_value title) in
  let props := dict_set props PROP_GH_ID (PDict [("number", gh_id)]) in
  let props := dict_update props (select_payload PROP_REPO short_repo) in
  let project_val := resolve_project_name_from_repo short_repo in
  let props := dict_update props (select_payload PROP_PROJECT project_val) in
  let props :=
    dict_set props PROP_ISSUE_URL (PDict [("url", Py.get issue "html_url")]) in
  let status_val :=
    if Py.eq gh_state (PStr "closed") then "Done" else "Backlog" in
  let props := dict_update props (select_payload PROP_STATUS status_val) in
  let lbl_payload := multi_select_payload PROP_LABELS labels in
  let props :=
    when_some lbl_payload
      (fun d => when (Py.truthy (PDict d)) (fun p => dict_update p d)) props in
  let props :=
    when_some (dict_get "type" label_map)
      (fun v p => dict_update p (select_payload PROP_TYPE v)) props in
  let props :=
    when_some (dict_get "priority" label_map)
      (fun v p => dict_update p (select_payload PROP_PRIORITY v)) props in
  sprint_val ← resolve_sprint_from_issue labels milestone;
  let props :=
    when_some sprint_val
      (fun v => when (Py.truthy (PStr v))
                  (fun p => dict_update p (select_payload PROP_SPRINT v))) props in
  assignee_payload ← people_payload PROP_ASSIGNEE gh_assignee;
  let props := dict_update props assignee_payload in
  let props := dict_set props PROP_BODY (rich_text body) in
  let props :=
    when (Py.truthy created)
      (fun p => dict_set p PROP_CREATED (date_value created)) props in
  let props :=
    when (Py.truthy updated)
      (fun p => dict_set p PROP_UPDATED (date_value updated)) props in
  props ←
    whenR (negb (schema_is PROP_LABELS "multi_select") && Py.truthy (PList labels))
      (fun p =>
         existing ← notes_content p;
         e ← Py.str_operand existing;
         names ← mapR Py.str_operand labels;
         Ok (dict_set p PROP_BODY
               (rich_text (PStr (e +:+ nl +:+ nl +:+ "Labels: "
                                 +:+ PyStr.join ", " names))))) props;
  unmapped ←
    (if schema_is PROP_ASSIGNEE "people" && Py.truthy gh_assignee
     then o ← people_map_get gh_assignee; Ok (negb (is_Some_bool o))
     else Ok false);
  whenR unmapped
    (fun p =>
       existing ← notes_content p;
       e ← Py.str_operand existing;
       a ← Py.format gh_assignee;
       Ok (dict_set p PROP_BODY
             (rich_text (PStr (e +:+ nl +:+ nl +:+ "GitHub assignee: " +:+ a)))))
    props.

Definition properties_differ (existing : pyval) (new_props : list (string * pyval))
  : bool :=
  except_true (
    props ← Py.vget existing "properties" (PDict []);
    let np := PDict new_props in
    d ← text_differs props np PROP_TITLE "title";
    if d : bool then Ok true else
    d ← (if schema_is PROP_PROJECT "select"
         then select_differs props np PROP_PROJECT else Ok false);
    if d : bool then Ok true else
    d ← (if schema_is PROP_TYPE "select"
         then select_differs props np PROP_TYPE else Ok false);
    if d : bool then Ok true else
    d ← (if schema_is PROP_PRIORITY "select"
         then select_differs props np PROP_PRIORITY else Ok false);
    if d : bool then Ok true else
    d ← (if schema_is PROP_SPRINT "select"
         then select_differs props np PROP_SPRINT else Ok false);
    if d : bool then Ok true else
    d ← (if schema_is PROP_LABELS "multi_select"
         then labels_differ props np else Ok false);
    if d : bool then Ok true else
    d ← text_differs props np PROP_BODY "rich_text";
    if d : bool then Ok true else
    d ← status_differs props np;
    if d : bool then Ok true else
    Ok false).

(** [if p in new_props and DB_SCHEMA.get(p) == "select":
    update_payload[p] = new_props[p]]. *)
Definition copy_select (new_props update_payload : list (string * pyval))
    (p : string) : list (string * pyval) :=
  match dict_get p new_props with
  | Some v => if schema_is p "select" then dict_set update_payload p v
              else update_payload
  | None => update_payload
  end.

(** The update payload that [sync_repo] assembles once the diff has
    answered [True]. *)
Definition update_payload (new_props : list (string * pyval))
  : result (list (string * pyval)) :=
  let up := [] in
  t ← Py.index new_props PROP_TITLE;
  let up := dict_set up PROP_TITLE t in
  b ← Py.index new_props PROP_BODY;
  let up := dict_set up PROP_BODY b in
  let up := copy_select new_props up PROP_PROJECT in
  let up := copy_select new_props up PROP_TYPE in
  let up := copy_select new_props up PROP_PRIORITY in
  let up := copy_select new_props up PROP_SPRINT in
  let up :=
    if schema_is PROP_LABELS "multi_select" && dict_mem PROP_LABELS new_props
    then dict_set up PROP_LABELS
           (Py.get_or new_props PROP_LABELS (multi_select_value []))
    else up in
  n ← select_name (PDict new_props) PROP_STATUS PNone;
  if Py.eq n (PStr "Done")
  then Ok (dict_set up PROP_STATUS (select_value (PStr "Done")))
  else Ok up.

(** The body of the loop of [sync_repo] for one issue [it], given what
    the lookup by GitHub id returned ([PNone] when no page was found).
    The [try]/[except] around the body turns a raise into a failure of
    this issue only. *)
Definition sync_issue (existing : pyval) (it : list (string * pyval))
  : decision :=
  if negb (Py.truthy (Py.get it "id")) then Skipped
  else
    match build_properties it with
    | Raise e => Failed e
    | Ok new_props =>
        if Py.truthy existing then
          if properties_differ existing new_props then
            match update_payload new_props with
            | Raise e => Failed e
            | Ok up =>
                match Py.vget existing "id" PNone with
                | Ok page_id => Update page_id up
                | Raise e => Failed e
                end
            end
          else NoOp
        else Create new_props
    end.
End Globals.
End NotionSync.

(** ** [issue_to_notion.py]: the single-issue webhook tool *)

Module IssueToNotion.
Section Globals.
Variable DB_SCHEMA : gmap string string.
Variable NOTION_PEOPLE_MAP : gmap string string.
Variable PROJECT_MAP : list (string * string).

(** [DB_SCHEMA.get(prop_name) == kind]. *)
Definition schema_is (prop_name kind : string) : bool :=
  match DB_SCHEMA !! prop_name with
  | Some t => String.eqb t kind
  | None => false
  end.

Definition select_payload (prop_name value : string) : list (string * pyval) :=
  if schema_is prop_name "select" then
    [(prop_name, select_value (PStr value))]
  else if schema_is prop_name "multi_select" then
    [(prop_name, multi_select_value [PStr value])]
  else [(prop_name, rich_text (PStr value))].

Definition multi_select_payload (prop_name : string) (values : list pyval)
  : option (list (string * pyval)) :=
  if negb (Py.truthy (PList values)) then
    if schema_is prop_name "multi_select"
    then Some [(prop_name, multi_select_value [])]
    else None
  else if schema_is prop_name "multi_select" then
    Some [(prop_name, multi_select_value values)]
  else None.

(** [gh_login in NOTION_PEOPLE_MAP], with [NOTION_PEOPLE_MAP[gh_login]]
    when it is: a container is unhashable and raises. *)
Definition people_map_find (gh_login : pyval) : result (option string) :=
  match gh_login with
  | PStr s => Ok (NOTION_PEOPLE_MAP !! s)
  | PList _ | PDict _ => Raise TypeError
  | _ => Ok None
  end.

Definition people_payload (prop_name : string) (gh_login : pyval)
  : result (list (string * pyval)) :=
  if schema_is prop_name "people" then
    if Py.truthy gh_login then
      found ← people_map_find gh_login;
      match found with
      | Some i => Ok [(prop_name, people_value [PStr i])]
      | None => Ok [(prop_name, people_value [])]
      end
    else Ok [(prop_name, people_value [])]
  else Ok [(prop_name, rich_text (Py.or_else gh_login (PStr "")))].

(** One turn of the loop of [parse_label_map]. *)
Definition parse_label_step (m : list (string * string)) (s : pyval)
  : result (list (string * string)) :=
  has ← Py.char_in ":" s;
  if has : bool then
    str ← Py.as_str s;
    match PyStr.split1 ":" str with
    | [k; v] => Ok (dict_set m (PyStr.lower k) v)
    | _ => Raise ValueError
    end
  else Ok m.

Definition parse_label_map (labels : list pyval)
  : result (list (string * string)) :=
  foldR parse_label_step labels [].

(** The case-insensitive scan over [PROJECT_MAP.items()]. *)
Fixpoint project_scan (short : string) (items : list (string * string))
  : option string :=
  match items with
  | [] => None
  | (k, v) :: r =>
      if String.eqb (PyStr.lower k) (PyStr.lower short) then Some v
      else project_scan short r
  end.

Definition resolve_project (repo_full : string) : string :=
  let short := short_name repo_full in
  match dict_get short PROJECT_MAP with
  | Some v => v
  | None => default "All" (project_scan short PROJECT_MAP)
  end.

(** The label loop inside [build_properties]: the first label that
    starts with ["sprint:"] decides and ends the loop. *)
Fixpoint sprint_from_labels (labels : list pyval) : result (option string) :=
  match labels with
  | [] => Ok None
  | l :: r =>
      s ← Py.as_str l;
      if String.prefix "sprint:" (PyStr.lower s) then
        v ← Py.nth_str (PyStr.split1 ":" s) 1;
        Ok (Some ("Sprint " +:+ PyStr.strip v))
      else sprint_from_labels r
  end.

(** [issue["milestone"].get("title","").strip()], when the issue has a
    milestone. *)
Definition sprint_from_milestone (issue : list (string * pyval))
  : result (option string) :=
  if Py.truthy (Py.get issue "milestone") then
    m ← Py.index issue "milestone";
    t ← Py.vget m "title" (PStr "");
    s ← Py.as_str t;
    let mtitle := PyStr.strip s in
    if Py.truthy (PStr mtitle) then Ok (Some mtitle) else Ok None
  else Ok None.

Definition build_properties (issue : list (string * pyval)) (repo_full : string)
  : result (list (string * pyval)) :=
  let gh_id := Py.get issue "id" in
  let short_repo := short_name repo_full in
  title ← Py.slice_to 200 (Py.get_or issue "title" (PStr ""));
  let body := Py.or_else (Py.get issue "body") (PStr "") in
  labels ← label_names issue;
  label_map ← parse_label_map labels;
  gh_assignee ← assignee_login issue;
  let created := Py.get issue "created_at" in
  let updated := Py.get issue "updated_at" in
  let state := Py.get_or issue "state" (PStr "open") in
  let props := [] in
  let props := dict_set props PROP_TITLE (title_value title) in
  let props := dict_set props PROP_GH_ID (PDict [("number", gh_id)]) in
  let props := dict_update props (select_payload PROP_REPO short_repo) in
  let props :=
    dict_update props (select_payload PROP_PROJECT (resolve_project short_repo)) in
  let props :=
    dict_set props PROP_ISSUE_URL (PDict [("url", Py.get issue "html_url")]) in
  let props :=
    dict_update props
      (select_payload PROP_STATUS
         (if Py.eq state (PStr "closed") then "Done" else "Backlog")) in
  let lbl_payload := multi_select_payload PROP_LABELS labels in
  let props :=
    when_some lbl_payload
      (fun d => when (Py.truthy (PDict d)) (fun p => dict_update p d)) props in
  let props :=
    when_some (dict_get "type" label_map)
      (fun v p => dict_update p (select_payload PROP_TYPE v)) props in
  let props :=
    when_some (dict_get "priority" label_map)
      (fun v p => dict_update p (select_payload PROP_PRIORITY v)) props in
  from_label ← sprint_from_labels labels;
  sprint_val ←
    match from_label with
    | Some v => if Py.truthy (PStr v) then Ok (Some v)
                else sprint_from_milestone issue
    | None => sprint_from_milestone issue
    end;
  let props :=
    when_some sprint_val
      (fun v => when (Py.truthy (PStr v))
                  (fun p => dict_update p (select_payload PROP_SPRINT v))) props in
  assignee_payload ← people_payload PROP_ASSIGNEE gh_assignee;
  let props := dict_update props assignee_payload in
  let props := dict_set props PROP_BODY (rich_text body) in
  let props :=
    when (Py.truthy created)
      (fun p => dict_set p PROP_CREATED (date_value created)) props in
  let props :=
    when (Py.truthy updated)
      (fun p => dict_set p PROP_UPDATED (date_value updated)) props in
  props ←
    whenR (negb (schema_is PROP_LABELS "multi_select") && Py.truthy (PList labels))
      (fun p =>
         existing ← notes_content p;
         e ← Py.str_operand existing;
         names ← mapR Py.str_operand labels;
         Ok (dict_set p PROP_BODY
               (rich_text (PStr (e +:+ nl +:+ nl +:+ "Labels: "
                                 +:+ PyStr.join ", " names))))) props;
  unmapped ←
    (if schema_is PROP_ASSIGNEE "people" && Py.truthy gh_assignee
     then found ← people_map_find gh_assignee;
          Ok (match found with Some _ => false | None => true end)
     else Ok false);
  whenR unmapped
    (fun p =>
       existing ← notes_content p;
       e ← Py.str_operand existing;
       a ← Py.format gh_assignee;
       Ok (dict_set p PROP_BODY
             (rich_text (PStr (e +:+ nl +:+ nl +:+ "GitHub assignee: " +:+ a)))))
    props.

(** The loop [for prop in (PROP_PROJECT, PROP_TYPE, PROP_PRIORITY,
    PROP_SPRINT)] of [properties_differ]. *)
Fixpoint selects_differ (props np : pyval) (names : list string) : result bool :=
  match names with
  | [] => Ok false
  | prop :: r =>
      d ← (if schema_is prop "select"
           then select_differs props np prop else Ok false);
      if d : bool then Ok true else selects_differ props np r
  end.

Definition properties_differ (existing : pyval) (new_props : list (string * pyval))
  : bool :=
  except_true (
    props ← Py.vget existing "properties" (PDict []);
    let np := PDict new_props in
    d ← text_differs props np PROP_TITLE "title";
    if d : bool then Ok true else
    d ← status_differs props np;
    if d : bool then Ok true else
    d ← text_differs props np PROP_BODY "rich_text";
    if d : bool then Ok true else
    d ← selects_differ props np
          [PROP_PROJECT; PROP_TYPE; PROP_PRIORITY; PROP_SPRINT];
    if d : bool then Ok true else
    d ← (if schema_is PROP_LABELS "multi_select"
         then labels_differ props np else Ok false);
    if d : bool then Ok true else
    Ok false).

(** The loop [for p in (PROP_PROJECT, PROP_TYPE, PROP_PRIORITY,
    PROP_SPRINT)] of [main]. *)
Definition copy_selects (new_props update_payload : list (string * pyval))
    (names : list string) : list (string * pyval) :=
  fold_left
    (fun up p =>
       match dict_get p new_props with
       | Some v => if schema_is p "select" then dict_set up p v else up
       | None => up
       end)
    names update_payload.

(** The "minimal update payload" of [main]. *)
Definition update_payload (new_props : list (string * pyval))
  : result (list (string * pyval)) :=
  let up := [] in
  t ← Py.index new_props PROP_TITLE;
  let up := dict_set up PROP_TITLE t in
  b ← Py.index new_props PROP_BODY;
  let up := dict_set up PROP_BODY b in
  let up :=
    copy_selects new_props up
      [PROP_PROJECT; PROP_TYPE; PROP_PRIORITY; PROP_SPRINT] in
  let up :=
    if schema_is PROP_LABELS "multi_select" && dict_mem PROP_LABELS new_props
    then dict_set up PROP_LABELS
           (Py.get_or new_props PROP_LABELS (multi_select_value []))
    else up in
  n ← select_name (PDict new_props) PROP_STATUS PNone;
  if Py.eq n (PStr "Done")
  then Ok (dict_set up PROP_STATUS (select_value (PStr "Done")))
  else Ok up.

(** [main] after the event has been read: [issue] is the issue object of
    the event and [page] what the lookup by GitHub id returned ([PNone]
    when no page was found).  An event without an issue, or with an empty
    one ([if not issue: return]), ends the run before any lookup or
    write. *)
Definition sync_issue (page : pyval) (issue : list (string * pyval))
    (repo_full : string) : decision :=
  if negb (Py.truthy (PDict issue)) then Skipped
  else
    match build_properties issue repo_full with
    | Raise e => Failed e
    | Ok new_props =>
        if Py.truthy page then
          if properties_differ page new_props then
            match update_payload new_props with
            | Raise e => Failed e
            | Ok up =>
                match Py.vget page "id" PNone with
                | Ok page_id => Update page_id up
                | Raise e => Failed e
                end
            end
          else NoOp
        else Create new_props
    end.
End Globals.
End IssueToNotion.


(** ** [notion_sync.py]: the repository list and the issue listing *)

(** [s.replace(a, b)] for one-character [a] and [b]. *)
Fixpoint replace_char (a b : ascii) (s : string) : string :=
  match s with
  | EmptyString => EmptyString
  | String c r => String (if Ascii.eqb c a then b else c) (replace_char a b r)
  end.

(** [normalize_repo_list]: the entries of [REPOS], separated by commas or
    line breaks, without their surrounding white space; empty entries and
    entries without a slash are dropped. *)
Definition normalize_repo_list (raw : string) : list string :=
  let items := map PyStr.strip (PyStr.split "," (replace_char "010" "," raw)) in
  List.filter (fun r => negb (String.eqb r "") && PyStr.contains "/" r) items.

(** [gh_get_issues], over the answers of the source to the requests for
    page 1, 2, ... of the listing (a page after the last one is empty, and
    every request is taken to succeed): an empty page ends the loop, pull
    requests are left out, and a page of fewer than 100 records ends the
    loop after it has been read. *)
Fixpoint gh_get_issues (pages : list (list (list (string * pyval))))
  : list (list (string * pyval)) :=
  match pages with
  | [] => []
  | batch :: rest =>
      match batch with
      | [] => []
      | _ =>
          List.filter (fun it => negb (dict_mem "pull_request" it)) batch
          ++ (if (length batch <? 100)%nat then [] else gh_get_issues rest)
      end
  end.

(** [owner, repo = repo_full.split("/",1)], the first statement of
    [sync_repo]: unpacking needs exactly two parts. *)
Definition owner_and_repo (repo_full : string) : result (string * string) :=
  match PyStr.split1 "/" repo_full with
  | [owner; repo] => Ok (owner, repo)
  | _ => Raise ValueError
  end.

(** ** [github_issue_importer.py]: the repository of an issue to import *)

Module GithubIssueImporter.

(** [build_repo_full]: [default_owner] is [None] or the [OWNER] of the
    environment. *)
Definition build_repo_full (repo_field : string) (default_owner : option string)
  : result string :=
  let repo_field := PyStr.strip repo_field in
  if PyStr.contains "/" repo_field then Ok repo_field
  else
    match default_owner with
    | None => Raise ValueError
    | Some o =>
        if negb (Py.truthy (PStr o)) then Raise ValueError
        else Ok (o +:+ "/" +:+ repo_field)
    end.

End GithubIssueImporter.
(** * Reference definitions

    The rules the properties below are stated against. *)

(** ** Label parsing *)

(** The entry a label contributes: the lowercased text before its first
    colon, and the text after it. *)
Definition label_entry (l : string) : option (string * string) :=
  match PyStr.split_once ":" l with
  | Some (k, v) => Some (PyStr.lower k, v)
  | None => None
  end.

Definition entry_value (key : string) (l : string) : option string :=
  match label_entry l with
  | Some (k, v) => if String.eqb k key then Some v else None
  | None => None
  end.

(** "The first matching label decides": the rule in the words of the
    specification. *)
Fixpoint first_label_value (key : string) (labels : list string) : option string :=
  match labels with
  | [] => None
  | l :: r =>
      match entry_value key l with
      | Some v => Some v
      | None => first_label_value key r
      end
  end.

(** "The last matching label decides". *)
Fixpoint last_label_value (key : string) (labels : list string) : option string :=
  match labels with
  | [] => None
  | l :: r =>
      match last_label_value key r with
      | Some v => Some v
      | None => entry_value key l
      end
  end.

(** ** Encoders *)

(** The value a single-valued encoder stores under the property. *)
Definition encoded_select (S : gmap string string) (p v : string) : pyval :=
  if NotionSync.schema_is S p "select" then select_value (PStr v)
  else if NotionSync.schema_is S p "multi_select" then multi_select_value [PStr v]
  else rich_text (PStr v).

(** ** Payload fields copied from the source *)

(** The external id and the link are stored as the source has them, [None]
    included; a timestamp is stored when the source has one. *)
Definition id_url_dates_copied (issue props : list (string * pyval)) : Prop :=
  dict_get PROP_GH_ID props = Some (PDict [("number", Py.get issue "id")]) ∧
  dict_get PROP_ISSUE_URL props = Some (PDict [("url", Py.get issue "html_url")]) ∧
  dict_get PROP_CREATED props =
    (if Py.truthy (Py.get issue "created_at")
     then Some (date_value (Py.get issue "created_at")) else None) ∧
  dict_get PROP_UPDATED props =
    (if Py.truthy (Py.get issue "updated_at")
     then Some (date_value (Py.get issue "updated_at")) else None).

(** "A field of the payload is there only when the source has it": the
    reading of the specification. *)
Definition only_when_at_source (issue props : list (string * pyval))
    (prop field : string) : Prop :=
  dict_get prop props ≠ None → dict_get field issue ≠ None.

(** ** Sprint *)

Fixpoint first_some {A B : Type} (f : A → option B) (xs : list A) : option B :=
  match xs with
  | [] => None
  | x :: r =>
      match f x with
      | Some b => Some b
      | None => first_some f r
      end
  end.

(** The [<value>] of a label of the form ["sprint:<value>"], and the rule
    in the words of the specification: the label value behind ["Sprint "],
    else a non-empty milestone title as it is, else nothing. *)
Definition sprint_label_literal (l : string) : option string :=
  match PyStr.split_once ":" l with
  | Some (k, v) => if String.eqb k "sprint" then Some v else None
  | None => None
  end.

Definition sprint_rule_as_specified (labels : list string)
    (milestone_title : option string) : option string :=
  match first_some sprint_label_literal labels with
  | Some v => Some ("Sprint " +:+ v)
  | None =>
      match milestone_title with
      | Some t => if String.eqb t "" then None else Some t
      | None => None
      end
  end.

(** The rule of the scripts.  A sprint label starts with ["sprint:"] in any
    letter case; its value is the text after the first colon without the
    surrounding white space. *)
Definition sprint_label (l : string) : option string :=
  if String.prefix "sprint:" (PyStr.lower l) then
    match PyStr.split_once ":" l with
    | Some (_, v) => Some (PyStr.strip v)
    | None => None
    end
  else None.

(** The value of the first sprint label whose value is not blank. *)
Definition non_blank_sprint_label (l : string) : option string :=
  match sprint_label l with
  | Some v => if String.eqb v "" then None else Some v
  | None => None
  end.

(** The title of the attached milestone, empty when there is none. *)
Definition milestone_title (milestone : pyval) : string :=
  match milestone with
  | PDict d =>
      match dict_get "title" d with
      | Some (PStr t) => t
      | _ => ""
      end
  | _ => ""
  end.

Definition sprint_rule (labels : list string) (milestone : pyval) : option string :=
  match first_some non_blank_sprint_label labels with
  | Some v => Some ("Sprint " +:+ v)
  | None =>
      let t := PyStr.strip (milestone_title milestone) in
      if String.eqb t "" then None else Some t
  end.

(** No label of the list is a sprint label with a blank value. *)
Definition no_blank_sprint (labels : list pyval) : bool :=
  forallb (fun l => match l with
                    | PStr s =>
                        match sprint_label s with
                        | Some v => negb (String.eqb v "")
                        | None => true
                        end
                    | _ => true
                    end) labels.

(** ** Update payloads *)

(** What an entry [k := v] of an update payload may be, given the payload
    [new_props] it was cut from. *)
Definition update_entry_allowed (S : gmap string string)
    (new_props : list (string * pyval)) (k : string) (v : pyval) : Prop :=
  (k = PROP_TITLE ∧ dict_get k new_props = Some v) ∨
  (k = PROP_BODY ∧ dict_get k new_props = Some v) ∨
  (k ∈ [PROP_PROJECT; PROP_TYPE; PROP_PRIORITY; PROP_SPRINT] ∧
   S !! k = Some "select" ∧ dict_get k new_props = Some v) ∨
  (k = PROP_LABELS ∧ S !! k = Some "multi_select" ∧
   dict_get k new_props = Some v) ∨
  (k = PROP_STATUS ∧ v = select_value (PStr "Done") ∧
   select_name (PDict new_props) PROP_STATUS PNone = Ok (PStr "Done")).

(** The fields an update never carries. *)
Definition never_updated : list string :=
  [PROP_ASSIGNEE; PROP_CREATED; PROP_UPDATED; PROP_ISSUE_URL; PROP_GH_ID; PROP_REPO].

(** ** The destination record over a run of syncs *)

(** The status of a destination page, as the diff functions read it. *)
Definition status_of (page : pyval) : result pyval :=
  props ← Py.vget page "properties" (PDict []);
  select_name props PROP_STATUS (PStr "").

Section Runs.
(** The destination's update call: the page as it is after the properties
    of a payload have been written to it. *)
Variable write : pyval → list (string * pyval) → pyval.

(** One pass of the sweep over the issue [it] while [page] is the record
    found for it; [written] tells whether the update call went through
    (it does not in a dry run, or when the destination refuses). *)
Definition sync_step (S P : gmap string string) (M : list (string * string))
    (page : pyval) (it : list (string * pyval)) (written : bool) : pyval :=
  match NotionSync.sync_issue S P M page it with
  | Update _ payload => if written then write page payload else page
  | _ => page
  end.

(** Successive passes, over successive versions of the source issue. *)
Fixpoint run_syncs (S P : gmap string string) (M : list (string * string))
    (page : pyval) (passes : list (list (string * pyval) * bool)) : pyval :=
  match passes with
  | [] => page
  | (it, written) :: r => run_syncs S P M (sync_step S P M page it written) r
  end.
End Runs.

(** A destination that stores what it is sent: the properties named in the
    payload are replaced, the others are kept, and a page without a
    property table is left alone. *)
Definition merge_properties (old new : list (string * pyval))
  : list (string * pyval) :=
  map (fun kv => (fst kv, default (snd kv) (dict_get (fst kv) new))) old
  ++ List.filter (fun kv => negb (dict_mem (fst kv) old)) new.

Definition notion_patch (page : pyval) (payload : list (string * pyval)) : pyval :=
  match page with
  | PDict d =>
      match Py.get_or d "properties" (PDict []) with
      | PDict ps => PDict (dict_set d "properties" (PDict (merge_properties ps payload)))
      | _ => page
      end
  | _ => page
  end.

(** ** The two scripts side by side *)

(** The title of the milestone is a string when it is there and empty. *)
Definition milestone_title_ok (milestone : pyval) : bool :=
  match milestone with
  | PDict d =>
      match dict_get "title" d with
      | Some (PStr _) | None => true
      | Some t => Py.truthy t
      end
  | _ => true
  end.

(** No login of the people map is mapped to the empty id. *)
Definition people_ids_non_empty (P : gmap string string) : Prop :=
  ∀ login id, P !! login = Some id → id ≠ "".

(** A comparison that answers "differs" or raises. *)
Definition differs_or_raises (c : result bool) : bool :=
  match c with
  | Ok false => false
  | _ => true
  end.

(** Comparisons tried in turn, up to the first that answers "differs". *)
Fixpoint first_difference (cs : list (result bool)) : result bool :=
  match cs with
  | [] => Ok false
  | c :: r => d ← c; if d : bool then Ok true else first_difference r
  end.

(** ** Records as the source shapes them *)

(** A field that is missing, [null] or a string. *)
Definition str_or_null (o : option pyval) : bool :=
  match o with
  | None | Some PNone | Some (PStr _) => true
  | _ => false
  end.

(** A field that is missing or a string. *)
Definition str_or_missing (o : option pyval) : bool :=
  match o with
  | None | Some (PStr _) => true
  | _ => false
  end.

(** A label entry: an object with a string [name]. *)
Definition label_shaped (l : pyval) : bool :=
  match l with
  | PDict d => match dict_get "name" d with Some (PStr _) => true | _ => false end
  | _ => false
  end.

(** An issue record whose fields, where it has them, are of the types the
    source API gives them: [repository_url] and [body] a string or [null],
    [title] a string, [labels] [null] or a list of label entries,
    [assignee] [null] or an object with a string or [null] [login],
    [milestone] [null] or an object whose [title], if any, is a string.
    The other fields are free. *)
Definition source_shaped (issue : list (string * pyval)) : bool :=
  str_or_null (dict_get "repository_url" issue)
  && str_or_missing (dict_get "title" issue)
  && str_or_null (dict_get "body" issue)
  && match dict_get "labels" issue with
     | None | Some PNone => true
     | Some (PList ls) => forallb label_shaped ls
     | _ => false
     end
  && match dict_get "assignee" issue with
     | None | Some PNone => true
     | Some (PDict d) => str_or_null (dict_get "login" d)
     | _ => false
     end
  && match dict_get "milestone" issue with
     | None | Some PNone => true
     | Some (PDict d) => str_or_missing (dict_get "title" d)
     | _ => false
     end.

(** An assignee login that is [null] or a string. *)
Definition scalar_login (v : pyval) : Prop := v = PNone ∨ ∃ s, v = PStr s.

(** A payload whose notes are a single text. *)
Definition has_notes (p : list (string * pyval)) : Prop :=
  ∃ b, dict_get PROP_BODY p = Some (rich_text (PStr b)).


(** ** The fields of the payload *)

(** The title and the body of a source record, empty when it has none. *)
Definition source_title (issue : list (string * pyval)) : string :=
  match dict_get "title" issue with
  | Some (PStr s) => s
  | _ => ""
  end.

Definition source_body (issue : list (string * pyval)) : string :=
  match dict_get "body" issue with
  | Some (PStr s) => s
  | _ => ""
  end.

(** The source record is closed: its [state] is the string ["closed"]. *)
Definition is_closed (issue : list (string * pyval)) : bool :=
  match dict_get "state" issue with
  | Some (PStr s) => String.eqb s "closed"
  | _ => false
  end.

(** The status a payload carries for a source record. *)
Definition status_name (issue : list (string * pyval)) : string :=
  if is_closed issue then "Done" else "Backlog".

(** The login of the assignee as text, empty when there is none. *)
Definition login_text (gh_assignee : pyval) : string :=
  match gh_assignee with
  | PStr a => a
  | _ => ""
  end.

(** The destination users an assignee is mapped to: the one the people map
    gives for a non-empty login, when its id is not empty. *)
Definition assignee_ids (P : gmap string string) (gh_assignee : pyval) : list pyval :=
  match gh_assignee with
  | PStr a =>
      if String.eqb a "" then []
      else match P !! a with
           | Some i => if String.eqb i "" then [] else [PStr i]
           | None => []
           end
  | _ => []
  end.

(** The value stored for the assignee. *)
Definition assignee_value (S P : gmap string string) (gh_assignee : pyval) : pyval :=
  if NotionSync.schema_is S PROP_ASSIGNEE "people"
  then people_value (assignee_ids P gh_assignee)
  else rich_text (PStr (login_text gh_assignee)).

(** The lines appended to the notes: the labels, when the destination
    cannot store them as a multi-valued choice, and the assignee, when the
    destination stores people and the login is not in the people map. *)
Definition labels_note (S : gmap string string) (names : list string) : string :=
  if negb (NotionSync.schema_is S PROP_LABELS "multi_select")
     && match names with [] => false | _ => true end
  then nl +:+ nl +:+ "Labels: " +:+ PyStr.join ", " names
  else "".

Definition assignee_note (S P : gmap string string) (gh_assignee : pyval) : string :=
  match gh_assignee with
  | PStr a =>
      if NotionSync.schema_is S PROP_ASSIGNEE "people"
         && negb (String.eqb a "")
         && negb (NotionSync.is_Some_bool (P !! a))
      then nl +:+ nl +:+ "GitHub assignee: " +:+ a
      else ""
  | _ => ""
  end.

(** [n] slashes. *)
Fixpoint slashes (n : nat) : string :=
  match n with
  | O => ""
  | Datatypes.S n' => String "/" (slashes n')
  end.

(** The fourteen properties a payload can hold, and the eight it always
    holds. *)
Definition payload_properties : list string :=
  [PROP_TITLE; PROP_GH_ID; PROP_REPO; PROP_PROJECT; PROP_ISSUE_URL; PROP_STATUS;
   PROP_LABELS; PROP_TYPE; PROP_PRIORITY; PROP_SPRINT; PROP_ASSIGNEE; PROP_BODY;
   PROP_CREATED; PROP_UPDATED].

Definition fixed_properties : list string :=
  [PROP_TITLE; PROP_GH_ID; PROP_REPO; PROP_PROJECT; PROP_ISSUE_URL; PROP_STATUS;
   PROP_ASSIGNEE; PROP_BODY].

(** The properties of a payload that the diff functions read. *)
Definition compared_properties : list string :=
  [PROP_TITLE; PROP_PROJECT; PROP_TYPE; PROP_PRIORITY; PROP_SPRINT; PROP_LABELS;
   PROP_BODY; PROP_STATUS].

(** One piece of a title or of a rich text, holding the text [s]. *)
Definition text_piece (s : string) : pyval :=
  PDict [("text", PDict [("content", PStr s)])].

(** The page after the update payload [up] has been stored [n] times by a
    destination that stores what it is sent. *)
Definition patched (n : nat) (page : pyval) (up : list (string * pyval)) : pyval :=
  Nat.iter n (fun pg => notion_patch pg up) page.

(** A page that still reads a non-empty choice under [p] on its way
    through updates that do not carry [p]. *)
Definition keeps_choice (page0 : list (string * pyval)) (props0 : list (string * pyval))
    (p : string) (pg : pyval) : Prop :=
  ∃ d ps, pg = PDict d ∧ dict_get "properties" d = Some (PDict ps) ∧
          dict_get p ps = dict_get p props0 ∧ Py.get d "id" = Py.get page0 "id".
(** * Properties *)

(** ** Dictionaries *)

Section DictFacts.
Context {V : Type}.
Implicit Types (d e : list (string * V)) (k : string) (v : V).

Lemma dict_get_set_eq d k v : dict_get k (dict_set d k v) = Some v.
Proof.
induction d as [|[k' v'] r IH]; simpl.
- by rewrite String.eqb_refl.
- destruct (String.eqb k' k) eqn:E; simpl.
  + by rewrite String.eqb_refl.
  + by rewrite E.
Qed.

Lemma dict_get_set_ne d k k' v :
k ≠ k' → dict_get k (dict_set d k' v) = dict_get k d.
Proof.
intros Hne. induction d as [|[k0 v0] r IH]; simpl.
- destruct (String.eqb k' k) eqn:E; [|done].
  apply String.eqb_eq in E. congruence.
- destruct (String.eqb k0 k') eqn:E; simpl.
  + apply String.eqb_eq in E. subst k0.
    destruct (String.eqb k' k) eqn:E'; [|done].
    apply String.eqb_eq in E'. congruence.
  + by rewrite IH.
Qed.

Lemma dict_get_set d k k' v :
dict_get k (dict_set d k' v) =
if String.eqb k' k then Some v else dict_get k d.
Proof.
destruct (String.eqb k' k) eqn:E.
- apply String.eqb_eq in E. subst. apply dict_get_set_eq.
- apply dict_get_set_ne. intros ->. by rewrite String.eqb_refl in E.
Qed.

Lemma dict_update_single d k v : dict_update d [(k, v)] = dict_set d k v.
Proof. reflexivity. Qed.

End DictFacts.

(** ** Strings *)

Lemma contains_split_once c s :
  PyStr.contains c s = match PyStr.split_once c s with Some _ => true | None => false end.
Proof.
  induction s as [|a r IH]; simpl; [done|].
  destruct (Ascii.eqb a c); [done|].
  rewrite IH. by destruct (PyStr.split_once c r) as [[? ?]|].
Qed.

(** Splitting [k ++ c ++ v] at the first [c], when [k] is free of [c]. *)
Lemma split_once_app c k v :
  PyStr.contains c k = false →
  PyStr.split_once c (k +:+ String c v) = Some (k, v).
Proof.
  induction k as [|a r IH]; simpl; intros H.
  - by rewrite Ascii.eqb_refl.
  - destruct (Ascii.eqb a c); [done|]. by rewrite IH.
Qed.

(** ** The error monad *)

Lemma bind_Ok {A B : Type} (m : result A) (f : A → result B) (b : B) :
  m ≫= f = Ok b → ∃ a, m = Ok a ∧ f a = Ok b.
Proof. destruct m as [a|e]; simpl; [eauto | discriminate]. Qed.

(** Splits a hypothesis [m ≫= f = Ok b] into the two runs it is made of. *)
Ltac inv_bind H :=
  let a := fresh "x" in
  let E := fresh "E" in
  apply bind_Ok in H as (a & E & H).

(** ** Reading a key back from a payload under construction *)

Section Frames.
Context {V : Type}.
Implicit Types (d : list (string * V)) (k : string).

Lemma dict_get_update_single_ne k k' d (v : V) :
  k ≠ k' → dict_get k (dict_update d [(k', v)]) = dict_get k d.
Proof. intros. by rewrite dict_update_single, dict_get_set_ne. Qed.

Lemma dict_get_when_frame k c (f : list (string * V) → list (string * V)) d :
  (∀ p, dict_get k (f p) = dict_get k p) →
  dict_get k (when c f d) = dict_get k d.
Proof. intros Hf. destruct c; simpl; [apply Hf | done]. Qed.

Lemma dict_get_when k c (f : list (string * V) → list (string * V)) d :
  dict_get k (when c f d) = if c then dict_get k (f d) else dict_get k d.
Proof. by destruct c. Qed.

Lemma dict_get_when_some_frame {A} k (o : option A)
    (f : A → list (string * V) → list (string * V)) d :
  (∀ a p, o = Some a → dict_get k (f a p) = dict_get k p) →
  dict_get k (when_some o f d) = dict_get k d.
Proof. intros Hf. destruct o; simpl; [by apply Hf | done]. Qed.

Lemma whenR_frame k c (f : list (string * V) → result (list (string * V))) p0 p1 :
  (∀ p p', f p = Ok p' → dict_get k p' = dict_get k p) →
  whenR c f p0 = Ok p1 → dict_get k p1 = dict_get k p0.
Proof. intros Hf. destruct c; simpl; [apply Hf | by intros [= ->]]. Qed.
End Frames.

(** The helpers of the two scripts that are written alike. *)
Lemma schema_is_same S p k : IssueToNotion.schema_is S p k = NotionSync.schema_is S p k.
Proof. reflexivity. Qed.

Lemma select_payload_same S p v :
  IssueToNotion.select_payload S p v = NotionSync.select_payload S p v.
Proof. reflexivity. Qed.

Lemma multi_select_payload_same S p vs :
  IssueToNotion.multi_select_payload S p vs = NotionSync.multi_select_payload S p vs.
Proof.
  unfold IssueToNotion.multi_select_payload, NotionSync.multi_select_payload.
  by destruct vs.
Qed.

Lemma resolve_project_same M r :
  IssueToNotion.resolve_project M r = NotionSync.resolve_project_name_from_repo M r.
Proof.
  unfold IssueToNotion.resolve_project, NotionSync.resolve_project_name_from_repo.
  assert (H : ∀ s, IssueToNotion.project_scan s M = NotionSync.project_scan s M).
  { intros s. induction M as [|[k v] r' IH]; simpl; [done|]. by rewrite IH. }
  by rewrite H.
Qed.

Lemma select_payload_single S p v :
  NotionSync.select_payload S p v = [(p, encoded_select S p v)].
Proof. unfold NotionSync.select_payload, encoded_select. by repeat case_match. Qed.

Lemma multi_select_payload_single S p vs d :
  NotionSync.multi_select_payload S p vs = Some d →
  d = [(p, multi_select_value vs)] ∧ NotionSync.schema_is S p "multi_select" = true.
Proof.
  unfold NotionSync.multi_select_payload. intros H.
  repeat case_match; by simplify_eq.
Qed.

Lemma people_payload_single S P p v d :
  NotionSync.people_payload S P p v = Ok d → ∃ x, d = [(p, x)].
Proof.
  unfold NotionSync.people_payload. intros H.
  repeat (case_match; try inv_bind H); simplify_eq; eauto.
Qed.

Lemma people_payload_single_webhook S P p v d :
  IssueToNotion.people_payload S P p v = Ok d → ∃ x, d = [(p, x)].
Proof.
  unfold IssueToNotion.people_payload. intros H.
  repeat (case_match; try inv_bind H); simplify_eq; eauto.
Qed.

(** Peels the layers of a payload that cannot hold the key looked up. *)
Ltac frame :=
  repeat first
    [ rewrite select_payload_same
    | rewrite select_payload_single
    | rewrite dict_get_set_ne by discriminate
    | rewrite dict_get_update_single_ne by discriminate
    | rewrite dict_get_when_frame by (intros; frame; reflexivity)
    | rewrite dict_get_when_some_frame by (intros; frame_opt; frame; reflexivity) ]
with frame_opt :=
  try match goal with
      | H : NotionSync.multi_select_payload _ _ _ = Some _ |- _ =>
          apply multi_select_payload_single in H as [-> _]
      | H : IssueToNotion.multi_select_payload _ _ _ = Some _ |- _ =>
          rewrite multi_select_payload_same in H;
          apply multi_select_payload_single in H as [-> _]
      end.

(** Frames the two appends to the notes: they write [PROP_BODY] only. *)
Ltac frame_notes k H :=
  apply (whenR_frame k) in H;
  [ | let p := fresh in let p' := fresh in let Hp := fresh in
      intros p p' Hp; repeat inv_bind Hp; simplify_eq;
      by rewrite dict_get_set_ne by discriminate ].

(** ** Label parsing *)

(** The two scripts parse labels with the same function. *)
Lemma parse_label_map_same labels :
  IssueToNotion.parse_label_map labels = NotionSync.parse_label_map labels.
Proof. reflexivity. Qed.

Lemma parse_label_step_str m l :
  NotionSync.parse_label_step m (PStr l) =
  Ok (match label_entry l with
      | Some (k, v) => dict_set m k v
      | None => m
      end).
Proof.
  unfold NotionSync.parse_label_step, label_entry, PyStr.split1. simpl.
  rewrite contains_split_once.
  by destruct (PyStr.split_once ":" l) as [[k v]|].
Qed.

(** The loop of [parse_label_map] started from any map [m0]: it ends, and
    a key reads the value of its last matching label, or what [m0] held. *)
Lemma parse_label_loop labels m0 :
  ∃ m, foldR NotionSync.parse_label_step (map PStr labels) m0 = Ok m ∧
       ∀ key, dict_get key m =
              match last_label_value key labels with
              | Some v => Some v
              | None => dict_get key m0
              end.
Proof.
  revert m0. induction labels as [|l r IH]; intros m0; simpl.
  - by exists m0.
  - rewrite parse_label_step_str. simpl.
    destruct (IH (match label_entry l with
                  | Some (k, v) => dict_set m0 k v
                  | None => m0
                  end)) as (m & Hm & Hget).
    exists m. split; [done|]. intros key. rewrite Hget.
    destruct (last_label_value key r); [done|].
    unfold entry_value. destruct (label_entry l) as [[k v]|]; [|done].
    rewrite dict_get_set. by destruct (String.eqb k key).
Qed.

Lemma last_label_value_app key xs ys :
  last_label_value key (xs ++ ys) =
  match last_label_value key ys with
  | Some v => Some v
  | None => last_label_value key xs
  end.
Proof.
  induction xs as [|x r IH]; simpl.
  - by destruct (last_label_value key ys).
  - rewrite IH. by destruct (last_label_value key ys).
Qed.

(** The map of [parse_label_map] on label strings. *)
Lemma parse_label_map_last_wins_aux (labels : list string) :
  ∃ m, NotionSync.parse_label_map (map PStr labels) = Ok m ∧
       ∀ key, dict_get key m = last_label_value key labels.
Proof.
  destruct (parse_label_loop labels []) as (m & Hm & Hget).
  exists m. split; [exact Hm|].
  intros key. rewrite Hget. by destruct (last_label_value key labels).
Qed.

(** C1 (as stated, refuted): with the labels ["type:bug"] then
    ["type:feature"], the first matching label holds ["bug"], yet the map
    built by [parse_label_map] reads ["feature"] under ["type"]. *)
Lemma parse_label_map_not_first_match :
  let labels := ["type:bug"; "type:feature"] in
  ∃ m, NotionSync.parse_label_map (map PStr labels) = Ok m ∧
       IssueToNotion.parse_label_map (map PStr labels) = Ok m ∧
       first_label_value "type" labels = Some "bug" ∧
       dict_get "type" m = Some "feature" ∧
       dict_get "type" m ≠ first_label_value "type" labels.
Proof.
  exists [("type", "feature")]. repeat split; try reflexivity. discriminate.
Qed.

(** C1 (amended): for every list of label strings, [parse_label_map] of
    either script returns a map in which each key reads the value of the
    LAST label whose lowercased text before the first colon is that key: a
    later label with the same key overwrites the earlier one. *)
Theorem parse_label_map_last_wins (labels : list string) :
  ∃ m, NotionSync.parse_label_map (map PStr labels) = Ok m ∧
       IssueToNotion.parse_label_map (map PStr labels) = Ok m ∧
       ∀ key, dict_get key m = last_label_value key labels.
Proof.
  destruct (parse_label_map_last_wins_aux labels) as (m & Hm & Hget).
  exists m. split; [exact Hm|]. split; [exact Hm|exact Hget].
Qed.

(** C10: a label [k:v], where [k] is free of colons, enters the map under
    the lowercased key [lower k]; its value is [v] unchanged, whatever its
    case and however many further colons it holds, and that is what the key
    reads when the label is the last of the list. *)
Theorem parse_label_map_key_lowered_value_verbatim
    (labels : list string) (k v : string) :
  PyStr.contains ":" k = false →
  label_entry (k +:+ ":" +:+ v) = Some (PyStr.lower k, v) ∧
  ∃ m, NotionSync.parse_label_map (map PStr (labels ++ [k +:+ ":" +:+ v])) = Ok m ∧
       IssueToNotion.parse_label_map (map PStr (labels ++ [k +:+ ":" +:+ v])) = Ok m ∧
       dict_get (PyStr.lower k) m = Some v.
Proof.
  intros Hk.
  assert (He : label_entry (k +:+ ":" +:+ v) = Some (PyStr.lower k, v)).
  { unfold label_entry. change (":" +:+ v) with (String ":" v).
    by rewrite split_once_app. }
  split; [done|].
  destruct (parse_label_map_last_wins_aux (labels ++ [k +:+ ":" +:+ v]))
    as (m & Hm & Hget).
  exists m. split; [exact Hm|]. split; [exact Hm|].
  rewrite Hget, last_label_value_app. simpl. unfold entry_value.
  by rewrite He, String.eqb_refl.
Qed.

Lemma parse_label_map_key_lowered_value_verbatim_witness :
  PyStr.contains ":" "Type" = false ∧
  ∃ m, NotionSync.parse_label_map
         (map PStr (["type:bug"] ++ ["Type" +:+ ":" +:+ "Feature:X"])) = Ok m ∧
       dict_get "type" m = Some "Feature:X".
Proof.
  split; [reflexivity|].
  destruct (parse_label_map_key_lowered_value_verbatim ["type:bug"] "Type" "Feature:X")
    as (_ & m & Hm & _ & Hget); [reflexivity|].
  exists m. split; [exact Hm | exact Hget].
Defined.

(** ** The payload builders, field by field *)

(** Splits a successful run of a builder into its steps and reduces the
    lookup of [k] in the result to a lookup in the payload as it stood
    before the appends to the notes. *)
Ltac build_steps H :=
  unfold NotionSync.build_properties, IssueToNotion.build_properties in H;
  cbv zeta in H;
  repeat inv_bind H;
  repeat match goal with
    | E : NotionSync.people_payload _ _ _ _ = Ok _ |- _ =>
        apply people_payload_single in E as [? ->]
    | E : IssueToNotion.people_payload _ _ _ _ = Ok _ |- _ =>
        apply people_payload_single_webhook in E as [? ->]
    end.

Ltac build_lookup k :=
  repeat match goal with
    | E : whenR _ _ _ = Ok _ |- _ => frame_notes k E
    end;
  repeat match goal with
    | E : dict_get k ?a = dict_get k _ |- context [dict_get k ?a] =>
        rewrite E; clear E
    end.

Lemma build_properties_fields_sweep S P M issue props :
  NotionSync.build_properties S P M issue = Ok props →
  id_url_dates_copied issue props.
Proof.
  intros H. build_steps H. repeat split.
  - build_lookup PROP_GH_ID. frame. apply dict_get_set_eq.
  - build_lookup PROP_ISSUE_URL. frame. apply dict_get_set_eq.
  - build_lookup PROP_CREATED. frame. rewrite dict_get_when.
    destruct (Py.truthy (Py.get issue "created_at")).
    + apply dict_get_set_eq.
    + frame. reflexivity.
  - build_lookup PROP_UPDATED. rewrite dict_get_when.
    destruct (Py.truthy (Py.get issue "updated_at")).
    + apply dict_get_set_eq.
    + frame. reflexivity.
Qed.

Lemma build_properties_fields_webhook S P M issue repo_full props :
  IssueToNotion.build_properties S P M issue repo_full = Ok props →
  id_url_dates_copied issue props.
Proof.
  intros H. build_steps H. repeat split.
  - build_lookup PROP_GH_ID. frame. apply dict_get_set_eq.
  - build_lookup PROP_ISSUE_URL. frame. apply dict_get_set_eq.
  - build_lookup PROP_CREATED. frame. rewrite dict_get_when.
    destruct (Py.truthy (Py.get issue "created_at")).
    + apply dict_get_set_eq.
    + frame. reflexivity.
  - build_lookup PROP_UPDATED. rewrite dict_get_when.
    destruct (Py.truthy (Py.get issue "updated_at")).
    + apply dict_get_set_eq.
    + frame. reflexivity.
Qed.

(** C7 (as stated, refuted): an issue that carries neither an id nor a
    link still gets the keys [GitHub ID] and [GitHub Link] in its payload,
    holding [None]; the sweep does the same for the link of an issue that
    has an id. *)
Lemma build_properties_emits_null_id_and_url :
  let issue := [("title", PStr "Fix crash")] in
  let swept := [("id", PInt 101); ("title", PStr "Fix crash")] in
  (∃ props, IssueToNotion.build_properties ∅ ∅ [] issue "o/r" = Ok props ∧
     dict_get PROP_GH_ID props = Some (PDict [("number", PNone)]) ∧
     dict_get PROP_ISSUE_URL props = Some (PDict [("url", PNone)]) ∧
     ¬ only_when_at_source issue props PROP_GH_ID "id" ∧
     ¬ only_when_at_source issue props PROP_ISSUE_URL "html_url") ∧
  (∃ props, NotionSync.build_properties ∅ ∅ [] swept = Ok props ∧
     dict_get PROP_ISSUE_URL props = Some (PDict [("url", PNone)]) ∧
     ¬ only_when_at_source swept props PROP_ISSUE_URL "html_url").
Proof.
  split.
  - eexists. split; [vm_compute; reflexivity|].
    repeat split; try reflexivity; intros Hc; by apply Hc.
  - eexists. split; [vm_compute; reflexivity|].
    repeat split; try reflexivity; intros Hc; by apply Hc.
Qed.

(** C7 (amended): whenever a builder returns a payload, the payload holds
    the external id and the link exactly as the source record has them
    ([None] when it has none, never another value), and it holds a created
    or updated timestamp exactly when the source has a non-empty one, with
    the source's value. *)
Theorem build_properties_copies_id_url_dates
    (S P : gmap string string) (M : list (string * string))
    (issue : list (string * pyval)) (repo_full : string)
    (props : list (string * pyval)) :
  NotionSync.build_properties S P M issue = Ok props ∨
  IssueToNotion.build_properties S P M issue repo_full = Ok props →
  id_url_dates_copied issue props.
Proof.
  intros [H|H].
  - by eapply build_properties_fields_sweep.
  - by eapply build_properties_fields_webhook.
Qed.

Lemma build_properties_copies_id_url_dates_witness :
  let issue := [("id", PInt 101); ("title", PStr "Fix crash");
                ("html_url", PStr "https://github.com/o/r/issues/1");
                ("created_at", PStr "2024-01-01T00:00:00Z")] in
  ∃ props, NotionSync.build_properties ∅ ∅ [] issue = Ok props ∧
           id_url_dates_copied issue props.
Proof.
  eexists. split; [vm_compute; reflexivity|].
  eapply (build_properties_copies_id_url_dates ∅ ∅ [] _ "o/r").
  left. vm_compute. reflexivity.
Defined.

(** ** Labels *)

Lemma empty_labels_builder_lookup S base :
  NotionSync.schema_is S PROP_LABELS "multi_select" = true →
  dict_get PROP_LABELS
    (when_some (NotionSync.multi_select_payload S PROP_LABELS [])
       (λ d, when (Py.truthy (PDict d)) (λ p, dict_update p d)) base) =
  Some (multi_select_value []).
Proof.
  intros HS. unfold NotionSync.multi_select_payload. rewrite HS. simpl.
  unfold when. simpl. apply dict_get_set_eq.
Qed.

Lemma no_labels issue (labels : list pyval) :
  Py.truthy (Py.get issue "labels") = false →
  label_names issue = Ok labels → labels = [].
Proof. unfold label_names. intros ->. by intros [= <-]. Qed.

(** C8: when the schema kind of [Labels] is multi-choice, the multi-valued
    encoder of either script answers an empty list of values with the
    explicit empty multi-choice value, and the payload built for an issue
    without labels holds that value under [Labels] instead of leaving the
    key out; read back as the diff functions read it, it is the empty
    set. *)
Theorem empty_labels_clear_multi_select
    (S P : gmap string string) (M : list (string * string))
    (issue : list (string * pyval)) (repo_full : string)
    (props : list (string * pyval)) :
  S !! PROP_LABELS = Some "multi_select" →
  Py.truthy (Py.get issue "labels") = false →
  NotionSync.build_properties S P M issue = Ok props ∨
  IssueToNotion.build_properties S P M issue repo_full = Ok props →
  NotionSync.multi_select_payload S PROP_LABELS [] =
    Some [(PROP_LABELS, PDict [("multi_select", PList [])])] ∧
  IssueToNotion.multi_select_payload S PROP_LABELS [] =
    Some [(PROP_LABELS, PDict [("multi_select", PList [])])] ∧
  dict_get PROP_LABELS props = Some (PDict [("multi_select", PList [])]) ∧
  label_set (PDict props) PROP_LABELS = Ok [].
Proof.
  intros HS Hl H.
  assert (HS' : NotionSync.schema_is S PROP_LABELS "multi_select" = true).
  { unfold NotionSync.schema_is. by rewrite HS. }
  assert (Hget : dict_get PROP_LABELS props = Some (multi_select_value [])).
  { destruct H as [H|H]; build_steps H;
      match goal with
      | E : label_names issue = Ok _ |- _ =>
          apply (no_labels _ _ Hl) in E; subst
      end.
    - build_lookup PROP_LABELS. frame. by apply empty_labels_builder_lookup.
    - build_lookup PROP_LABELS. frame. rewrite multi_select_payload_same.
      by apply empty_labels_builder_lookup. }
  split; [|split; [|split]].
  - unfold NotionSync.multi_select_payload. by rewrite HS'.
  - rewrite multi_select_payload_same.
    unfold NotionSync.multi_select_payload. by rewrite HS'.
  - exact Hget.
  - unfold label_set. simpl. unfold Py.get_or. by rewrite Hget.
Qed.

Lemma empty_labels_clear_multi_select_witness :
  let S : gmap string string := {[ PROP_LABELS := "multi_select" ]} in
  let issue := [("id", PInt 101); ("title", PStr "Fix crash"); ("labels", PList [])] in
  ∃ props, IssueToNotion.build_properties S ∅ [] issue "o/r" = Ok props ∧
           dict_get PROP_LABELS props = Some (PDict [("multi_select", PList [])]).
Proof.
  intros S issue. eexists. split; [vm_compute; reflexivity|].
  refine (proj1 (proj2 (proj2
    (empty_labels_clear_multi_select S ∅ [] issue "o/r" _ _ _ _))));
    [reflexivity | reflexivity | right; vm_compute; reflexivity].
Defined.

(** ** The kind-adaptive encoders *)

Lemma schema_is_false S p kind :
  S !! p ≠ Some kind → NotionSync.schema_is S p kind = false.
Proof.
  intros H. unfold NotionSync.schema_is.
  destruct (S !! p) as [t|] eqn:E; [|done].
  destruct (String.eqb t kind) eqn:Et; [|done].
  apply String.eqb_eq in Et. congruence.
Qed.

Lemma schema_is_true S p kind :
  NotionSync.schema_is S p kind = true ↔ S !! p = Some kind.
Proof.
  unfold NotionSync.schema_is. destruct (S !! p) as [t|]; [|done].
  rewrite String.eqb_eq. split; congruence.
Qed.

(** C2 (as stated, refuted): with a [Labels] property of kind
    [rich_text], or with no [Labels] property at all, the multi-valued
    encoder of either script answers a non-empty list of values with
    [None]: the field is left out, not encoded as text. *)
Lemma multi_select_payload_omits_non_empty_list :
  let S : gmap string string := {[ PROP_LABELS := "rich_text" ]} in
  NotionSync.multi_select_payload S PROP_LABELS [PStr "a"; PStr "b"] = None ∧
  IssueToNotion.multi_select_payload S PROP_LABELS [PStr "a"; PStr "b"] = None ∧
  NotionSync.multi_select_payload ∅ PROP_LABELS [PStr "a"; PStr "b"] = None ∧
  IssueToNotion.multi_select_payload ∅ PROP_LABELS [PStr "a"; PStr "b"] = None.
Proof. repeat split; vm_compute; reflexivity. Qed.

(** C2 (amended): the multi-valued encoder returns [None], the omitted
    result, for every list of values, empty or not, whenever the schema
    kind of the field is not multi-choice: single-choice, person-reference,
    any other kind, or a field absent from the schema.  When the kind is
    moreover neither single-choice nor person-reference, the single-valued
    encoder returns the free-text encoding of the value and the person
    encoder the free-text encoding of the login (of the empty string when
    there is none). *)
Theorem encoders_fall_back_to_text_except_multi_valued
    (S P : gmap string string) (prop value : string)
    (gh_login : pyval) (values : list pyval) :
  S !! prop ≠ Some "multi_select" →
  (NotionSync.multi_select_payload S prop values = None ∧
   IssueToNotion.multi_select_payload S prop values = None) ∧
  (S !! prop ≠ Some "select" →
   S !! prop ≠ Some "people" →
   NotionSync.select_payload S prop value = [(prop, rich_text (PStr value))] ∧
   IssueToNotion.select_payload S prop value = [(prop, rich_text (PStr value))] ∧
   NotionSync.people_payload S P prop gh_login =
     Ok [(prop, rich_text (Py.or_else gh_login (PStr "")))] ∧
   IssueToNotion.people_payload S P prop gh_login =
     Ok [(prop, rich_text (Py.or_else gh_login (PStr "")))]).
Proof.
  intros Hm. apply schema_is_false in Hm.
  split; [split|].
  - unfold NotionSync.multi_select_payload. rewrite Hm. by destruct values.
  - rewrite multi_select_payload_same.
    unfold NotionSync.multi_select_payload. rewrite Hm. by destruct values.
  - intros Hs Hp. apply schema_is_false in Hs, Hp.
    repeat split.
    + unfold NotionSync.select_payload. by rewrite Hs, Hm.
    + change (IssueToNotion.select_payload S prop value)
        with (NotionSync.select_payload S prop value).
      unfold NotionSync.select_payload. by rewrite Hs, Hm.
    + unfold NotionSync.people_payload. by rewrite Hp.
    + unfold IssueToNotion.people_payload.
      change (IssueToNotion.schema_is S prop "people")
        with (NotionSync.schema_is S prop "people").
      by rewrite Hp.
Qed.

Lemma encoders_fall_back_to_text_except_multi_valued_witness :
  let S : gmap string string :=
    {[ PROP_REPO := "rich_text"; PROP_LABELS := "select"; PROP_ASSIGNEE := "people" ]} in
  NotionSync.multi_select_payload S PROP_LABELS [PStr "a"] = None ∧
  IssueToNotion.multi_select_payload S PROP_ASSIGNEE [PStr "a"] = None ∧
  NotionSync.select_payload S PROP_REPO "r" = [(PROP_REPO, rich_text (PStr "r"))] ∧
  NotionSync.people_payload S ∅ PROP_ISSUE_URL (PStr "octocat") =
    Ok [(PROP_ISSUE_URL, rich_text (PStr "octocat"))].
Proof.
  intros S. split; [|split; [|split]].
  - refine (proj1 (proj1
      (encoders_fall_back_to_text_except_multi_valued S ∅ PROP_LABELS ""
         PNone [PStr "a"] _))); vm_compute; discriminate.
  - refine (proj2 (proj1
      (encoders_fall_back_to_text_except_multi_valued S ∅ PROP_ASSIGNEE ""
         PNone [PStr "a"] _))); vm_compute; discriminate.
  - refine (proj1 (proj2
      (encoders_fall_back_to_text_except_multi_valued S ∅ PROP_REPO "r"
         PNone [] _) _ _)); vm_compute; discriminate.
  - refine (proj1 (proj2 (proj2 (proj2
      (encoders_fall_back_to_text_except_multi_valued S ∅ PROP_ISSUE_URL ""
         (PStr "octocat") [] _) _ _)))); vm_compute; discriminate.
Defined.

(** ** Sprint *)

Lemma lower_char_colon c : PyStr.lower_char c = ":"%char → c = ":"%char.
Proof.
  destruct c as [[] [] [] [] [] [] [] []]; vm_compute; intros H;
    first [reflexivity | discriminate H].
Qed.

Lemma prefix_cons a p b s :
  String.prefix (String a p) (String b s) = true → a = b ∧ String.prefix p s = true.
Proof. simpl. destruct (ascii_dec a b); [by subst | discriminate]. Qed.

Lemma lower_contains_colon s :
  PyStr.contains ":" (PyStr.lower s) = true → PyStr.contains ":" s = true.
Proof.
  induction s as [|a r IH]; simpl; [done|].
  destruct (Ascii.eqb (PyStr.lower_char a) ":") eqn:E.
  - apply Ascii.eqb_eq, lower_char_colon in E. subst a. by intros _.
  - intros H. rewrite (IH H). by destruct (Ascii.eqb a ":").
Qed.

Lemma prefix_contains p s c :
  String.prefix p s = true → PyStr.contains c p = true → PyStr.contains c s = true.
Proof.
  revert s. induction p as [|a p IH]; intros s Hp Hc; simpl in Hc; [done|].
  destruct s as [|b s]; [simpl in Hp; discriminate|].
  apply prefix_cons in Hp as [-> Hp]. simpl.
  destruct (Ascii.eqb b c); [done|]. by apply IH.
Qed.

(** A label that starts with ["sprint:"] has a colon to split at. *)
Lemma sprint_prefix_split s :
  String.prefix "sprint:" (PyStr.lower s) = true →
  ∃ k v, PyStr.split_once ":" s = Some (k, v).
Proof.
  intros H.
  assert (Hc : PyStr.contains ":" s = true).
  { apply lower_contains_colon. by eapply prefix_contains. }
  rewrite contains_split_once in Hc.
  destruct (PyStr.split_once ":" s) as [[k v]|]; [eauto | discriminate].
Qed.

Lemma truthy_str v : Py.truthy (PStr v) = negb (String.eqb v "").
Proof. reflexivity. Qed.

(** The label loop of the sweep, on label strings: it always ends with the
    value of the first sprint label that is not blank. *)
Lemma sweep_sprint_from_labels (names : list string) :
  NotionSync.sprint_from_labels (map PStr names) =
  Ok ((λ v, "Sprint " +:+ v) <$> first_some non_blank_sprint_label names).
Proof.
  induction names as [|l r IH]; simpl; [done|].
  unfold non_blank_sprint_label, sprint_label.
  destruct (String.prefix "sprint:" (PyStr.lower l)) eqn:Hp; [|exact IH].
  destruct (sprint_prefix_split _ Hp) as (k & v & Hs).
  unfold PyStr.split1. rewrite Hs. simpl.
  destruct (String.eqb (PyStr.strip v) ""); simpl; [exact IH | done].
Qed.

(** The label loop of the webhook tool agrees with it when no sprint label
    is blank. *)
Lemma webhook_sprint_from_labels (labels : list pyval) :
  no_blank_sprint labels = true →
  IssueToNotion.sprint_from_labels labels = NotionSync.sprint_from_labels labels.
Proof.
  induction labels as [|l r IH]; simpl; [done|].
  intros [Hl Hr]%andb_prop. specialize (IH Hr).
  destruct l as [| | |s| |]; simpl; try done.
  unfold sprint_label in Hl.
  destruct (String.prefix "sprint:" (PyStr.lower s)) eqn:Hp; [|exact IH].
  destruct (sprint_prefix_split _ Hp) as (k & v & Hs).
  rewrite Hs in Hl. unfold PyStr.split1. rewrite Hs. simpl.
  by rewrite Hl.
Qed.

(** The milestone fallback of either script, when it returns. *)
Lemma sweep_sprint_from_milestone m r :
  NotionSync.sprint_from_milestone m = Ok r →
  r = (let t := PyStr.strip (milestone_title m) in
       if String.eqb t "" then None else Some t).
Proof.
  unfold NotionSync.sprint_from_milestone, milestone_title.
  destruct (Py.truthy m) eqn:Hm.
  - destruct m as [| | | | |d]; simpl; try discriminate.
    unfold Py.get_or. destruct (dict_get "title" d) as [t|]; simpl.
    + destruct (Py.truthy t) eqn:Ht.
      * destruct t as [| | |s| |]; simpl; try discriminate.
        rewrite ?truthy_str.
        destruct (String.eqb (PyStr.strip s) ""); simpl;
          [by intros [= <-]|].
        by destruct (String.prefix "sprint" (PyStr.lower (PyStr.strip s)));
          intros [= <-].
      * intros [= <-]. destruct t as [| | |s| |]; try done.
        simpl in Ht. apply negb_false_iff, String.eqb_eq in Ht. by subst s.
    + by intros [= <-].
  - intros [= <-]. destruct m as [| | | | |d]; try done.
    by destruct d.
Qed.

Lemma webhook_sprint_from_milestone issue r :
  IssueToNotion.sprint_from_milestone issue = Ok r →
  r = (let t := PyStr.strip (milestone_title (Py.get issue "milestone")) in
       if String.eqb t "" then None else Some t).
Proof.
  unfold IssueToNotion.sprint_from_milestone, milestone_title, Py.index, Py.get.
  destruct (dict_get "milestone" issue) as [m|]; simpl; [|by intros [= <-]].
  destruct (Py.truthy m) eqn:Hm.
  - destruct m as [| | | | |d]; simpl; try discriminate.
    unfold Py.get_or. destruct (dict_get "title" d) as [t|]; simpl.
    + destruct t as [| | |s| |]; simpl; try discriminate.
      rewrite ?truthy_str.
      by destruct (String.eqb (PyStr.strip s) ""); simpl; intros [= <-].
    + by intros [= <-].
  - intros [= <-]. destruct m as [| | | | |d]; try done.
    by destruct d.
Qed.

Lemma sprint_rule_truthy names m v :
  sprint_rule names m = Some v → Py.truthy (PStr v) = true.
Proof.
  unfold sprint_rule.
  destruct (first_some non_blank_sprint_label names) as [w|].
  - by intros [= <-].
  - simpl. destruct (String.eqb (PyStr.strip (milestone_title m)) "") eqn:E;
      [done|]. intros [= <-]. simpl. by rewrite E.
Qed.

Lemma sweep_resolve_sprint names m r :
  NotionSync.resolve_sprint_from_issue (map PStr names) m = Ok r →
  r = sprint_rule names m.
Proof.
  unfold NotionSync.resolve_sprint_from_issue, sprint_rule.
  rewrite sweep_sprint_from_labels. simpl.
  destruct (first_some non_blank_sprint_label names) as [v|]; simpl.
  - by intros [= <-].
  - apply sweep_sprint_from_milestone.
Qed.

Lemma webhook_resolve_sprint names issue from_label r :
  no_blank_sprint (map PStr names) = true →
  IssueToNotion.sprint_from_labels (map PStr names) = Ok from_label →
  match from_label with
  | Some v => if Py.truthy (PStr v) then Ok (Some v)
              else IssueToNotion.sprint_from_milestone issue
  | None => IssueToNotion.sprint_from_milestone issue
  end = Ok r →
  r = sprint_rule names (Py.get issue "milestone").
Proof.
  intros Hnb. rewrite (webhook_sprint_from_labels _ Hnb), sweep_sprint_from_labels.
  intros [= <-]. unfold sprint_rule.
  destruct (first_some non_blank_sprint_label names) as [v|]; simpl.
  - by intros [= <-].
  - apply webhook_sprint_from_milestone.
Qed.

(** Reading the [Sprint] key of a payload built with sprint value [o]. *)
Lemma sprint_layer_lookup S (o : option string) base :
  (∀ v, o = Some v → Py.truthy (PStr v) = true) →
  dict_get PROP_SPRINT base = None →
  dict_get PROP_SPRINT
    (when_some o
       (λ v, when (Py.truthy (PStr v))
               (λ p, dict_update p (NotionSync.select_payload S PROP_SPRINT v)))
       base) = encoded_select S PROP_SPRINT <$> o.
Proof.
  intros Ht Hb. destruct o as [v|]; [|done].
  unfold when_some. rewrite (Ht v eq_refl). unfold when. simpl.
  by rewrite select_payload_single, dict_update_single, dict_get_set_eq.
Qed.

(** C5 (as stated, refuted): a sprint label with an empty value does not
    give ["Sprint "] in the sweep, which falls through to the milestone;
    the value of a sprint label and the title of a milestone are not taken
    as they are but without their surrounding white space. *)
Lemma sprint_value_not_as_specified :
  let S : gmap string string := {[ PROP_SPRINT := "select" ]} in
  let issue :=
    [("id", PInt 101); ("title", PStr "Fix crash");
     ("labels", PList [PDict [("name", PStr "sprint:")]]);
     ("milestone", PDict [("title", PStr "M1")])] in
  (∃ props, NotionSync.build_properties S ∅ [] issue = Ok props ∧
     dict_get PROP_SPRINT props = Some (select_value (PStr "M1")) ∧
     sprint_rule_as_specified ["sprint:"] (Some "M1") = Some "Sprint ") ∧
  (NotionSync.resolve_sprint_from_issue [PStr "sprint: 3 "] PNone
     = Ok (Some "Sprint 3") ∧
   sprint_rule_as_specified ["sprint: 3 "] None = Some "Sprint  3 ") ∧
  (NotionSync.resolve_sprint_from_issue [] (PDict [("title", PStr " M1 ")])
     = Ok (Some "M1") ∧
   sprint_rule_as_specified [] (Some " M1 ") = Some " M1 ").
Proof.
  repeat split.
  eexists. split; [vm_compute; reflexivity|]. by split.
Qed.

(** C5 (amended): for every issue whose label names are strings and for
    which the builder returns a payload, the [Sprint] value is derived in
    this order: the first label that starts, in any letter case, with
    ["sprint:"] and whose text after the first colon is not blank gives
    ["Sprint <value>"], the value without its surrounding white space,
    whatever the milestone; otherwise a milestone whose title is not blank
    gives the title without its surrounding white space (also when it
    starts with "Sprint"); otherwise the field is left out.  The sweep
    follows this rule always, the webhook tool whenever no sprint label has
    a blank value. *)
Theorem sprint_field_follows_rule
    (S P : gmap string string) (M : list (string * string))
    (issue : list (string * pyval)) (repo_full : string)
    (props : list (string * pyval)) (names : list string) :
  label_names issue = Ok (map PStr names) →
  NotionSync.build_properties S P M issue = Ok props ∨
  (no_blank_sprint (map PStr names) = true ∧
   IssueToNotion.build_properties S P M issue repo_full = Ok props) →
  dict_get PROP_SPRINT props =
  encoded_select S PROP_SPRINT <$> sprint_rule names (Py.get issue "milestone").
Proof.
  intros Hn [H|[Hnb H]]; build_steps H;
    match goal with
    | E : label_names issue = Ok _ |- _ =>
        rewrite Hn in E; injection E as <-
    end.
  - match goal with
    | E : NotionSync.resolve_sprint_from_issue _ _ = Ok _ |- _ =>
        apply sweep_resolve_sprint in E; subst
    end.
    build_lookup PROP_SPRINT. frame.
    apply sprint_layer_lookup; [apply sprint_rule_truthy|].
    frame. reflexivity.
  - match goal with
    | E : IssueToNotion.sprint_from_labels _ = Ok _, E' : _ = Ok _ |- _ =>
        apply (webhook_resolve_sprint _ _ _ _ Hnb E) in E'; subst
    end.
    build_lookup PROP_SPRINT. frame.
    apply sprint_layer_lookup; [apply sprint_rule_truthy|].
    frame. reflexivity.
Qed.

Lemma sprint_field_follows_rule_witness :
  let S : gmap string string := {[ PROP_SPRINT := "select" ]} in
  let issue :=
    [("id", PInt 101); ("title", PStr "Fix crash");
     ("labels", PList [PDict [("name", PStr "type:feature")];
                       PDict [("name", PStr "Sprint: 3")]]);
     ("milestone", PDict [("title", PStr "Sprint 9")])] in
  ∃ props, IssueToNotion.build_properties S ∅ [] issue "o/r" = Ok props ∧
           dict_get PROP_SPRINT props = Some (select_value (PStr "Sprint 3")).
Proof.
  intros S issue. eexists. split; [vm_compute; reflexivity|].
  refine (sprint_field_follows_rule S ∅ [] issue "o/r" _
            ["type:feature"; "Sprint: 3"] _ _);
    [reflexivity | right; split; vm_compute; reflexivity].
Defined.

(** ** Update payloads *)

Lemma update_payload_same S new_props :
  IssueToNotion.update_payload S new_props = NotionSync.update_payload S new_props.
Proof. reflexivity. Qed.

Lemma py_eq_str n s : Py.eq n (PStr s) = true → n = PStr s.
Proof.
  destruct n; simpl; try discriminate. intros H. by apply String.eqb_eq in H as ->.
Qed.

Lemma dict_get_copy_select S np up p k :
  dict_get k (NotionSync.copy_select S np up p) =
  match dict_get p np with
  | Some v => if NotionSync.schema_is S p "select" && String.eqb p k
              then Some v else dict_get k up
  | None => dict_get k up
  end.
Proof.
  unfold NotionSync.copy_select. destruct (dict_get p np) as [v|]; [|done].
  destruct (NotionSync.schema_is S p "select"); simpl; [|done].
  apply dict_get_set.
Qed.

(** Every entry of the update payload of the sweep is an allowed one. *)
Lemma update_payload_entries S np up k v :
  NotionSync.update_payload S np = Ok up →
  dict_get k up = Some v → update_entry_allowed S np k v.
Proof.
  unfold NotionSync.update_payload. intros H. cbv zeta in H.
  repeat inv_bind H. unfold Py.index in *.
  destruct (dict_get PROP_TITLE np) as [t'|] eqn:Et; [|discriminate].
  destruct (dict_get PROP_BODY np) as [b'|] eqn:Eb; [|discriminate].
  simplify_eq.
  match goal with
  | E : select_name _ _ _ = Ok ?a |- _ => rename a into n
  end.
  match type of Et with _ = Some ?a => rename a into t end.
  match type of Eb with _ = Some ?a => rename a into b end.
  set (base := dict_set (dict_set [] PROP_TITLE t) PROP_BODY b) in *.
  assert (Hbase : dict_get k base = Some v →
                  update_entry_allowed S np k v).
  { unfold base. rewrite !dict_get_set.
    change (dict_get k ([] : list (string * pyval))) with (@None pyval).
    destruct (String.eqb PROP_BODY k) eqn:Ekb.
    { apply String.eqb_eq in Ekb as <-. intros [= <-]. right. by left. }
    destruct (String.eqb PROP_TITLE k) eqn:Ekt; [|done].
    apply String.eqb_eq in Ekt as <-. intros [= <-]. by left. }
  assert (Hsel : ∀ p d,
             p ∈ [PROP_PROJECT; PROP_TYPE; PROP_PRIORITY; PROP_SPRINT] →
             (dict_get k d = Some v → update_entry_allowed S np k v) →
             dict_get k (NotionSync.copy_select S np d p) = Some v →
             update_entry_allowed S np k v).
  { intros p d Hp Hd. rewrite dict_get_copy_select.
    destruct (dict_get p np) as [w|] eqn:Ew; [|done].
    destruct (NotionSync.schema_is S p "select") eqn:Es; simpl; [|done].
    destruct (String.eqb p k) eqn:Ek; [|done].
    apply String.eqb_eq in Ek as <-. intros [= <-].
    right. right. left. by rewrite <- schema_is_true. }
  set (sel := NotionSync.copy_select S np
                (NotionSync.copy_select S np
                   (NotionSync.copy_select S np
                      (NotionSync.copy_select S np base PROP_PROJECT)
                      PROP_TYPE) PROP_PRIORITY) PROP_SPRINT) in *.
  assert (Hsel4 : dict_get k sel = Some v → update_entry_allowed S np k v).
  { unfold sel. repeat (apply Hsel; [set_solver|]). exact Hbase. }
  set (lab := if NotionSync.schema_is S PROP_LABELS "multi_select"
                 && dict_mem PROP_LABELS np
              then dict_set sel PROP_LABELS
                     (Py.get_or np PROP_LABELS (multi_select_value []))
              else sel) in *.
  assert (Hlab : dict_get k lab = Some v → update_entry_allowed S np k v).
  { unfold lab.
    destruct (NotionSync.schema_is S PROP_LABELS "multi_select") eqn:Es;
      simpl; [|done].
    destruct (dict_mem PROP_LABELS np) eqn:Em; [|done].
    rewrite dict_get_set.
    destruct (String.eqb PROP_LABELS k) eqn:Ek; [|done].
    apply String.eqb_eq in Ek as <-. intros [= <-].
    right. right. right. left. split; [done|].
    split; [by apply schema_is_true|].
    unfold dict_mem in Em. unfold Py.get_or.
    by destruct (dict_get PROP_LABELS np). }
  destruct (Py.eq n (PStr "Done")) eqn:Ed; simplify_eq; [|done].
  rewrite dict_get_set.
  destruct (String.eqb PROP_STATUS k) eqn:Ek; [|done].
  apply String.eqb_eq in Ek as <-. intros [= <-].
  apply py_eq_str in Ed as ->. right. right. right. right. done.
Qed.

Lemma sync_issue_update_sweep S P M existing it page_id up :
  NotionSync.sync_issue S P M existing it = Update page_id up →
  ∃ new_props, NotionSync.build_properties S P M it = Ok new_props ∧
               NotionSync.properties_differ S existing new_props = true ∧
               NotionSync.update_payload S new_props = Ok up.
Proof.
  unfold NotionSync.sync_issue. intros H.
  repeat case_match; simplify_eq. eauto.
Qed.

Lemma sync_issue_update_webhook S P M page issue repo_full page_id up :
  IssueToNotion.sync_issue S P M page issue repo_full = Update page_id up →
  ∃ new_props, IssueToNotion.build_properties S P M issue repo_full = Ok new_props ∧
               IssueToNotion.properties_differ S page new_props = true ∧
               NotionSync.update_payload S new_props = Ok up.
Proof.
  unfold IssueToNotion.sync_issue. intros H.
  repeat case_match; simplify_eq. eexists. split; [done|]. split; [done|].
  by rewrite <- update_payload_same.
Qed.

Lemma never_updated_not_allowed S np k v :
  k ∈ never_updated → ¬ update_entry_allowed S np k v.
Proof.
  unfold never_updated, update_entry_allowed. intros Hk H.
  repeat (apply elem_of_cons in Hk as [->|Hk]);
    [.. | by apply elem_of_nil in Hk];
    destruct H as [[? _]|[[? _]|[[H _]|[[? _]|[? _]]]]]; try discriminate;
    repeat (apply elem_of_cons in H as [H|H]; [discriminate|]);
    by apply elem_of_nil in H.
Qed.

(** C6: whenever a pass decides on an update, every entry of the payload it
    sends is the title or the notes of the newly built payload, one of
    [Project], [Type], [Priority], [Sprint] of it when the schema kind of
    that field is single-choice, its [Labels] when the schema kind is
    multi-choice, or [Status] set to ["Done"] when the new status is
    ["Done"]; the assignee, the timestamps, the link, the external id and
    the repository name are not in it. *)
Theorem update_carries_only_allowed_fields
    (S P : gmap string string) (M : list (string * string))
    (existing : pyval) (it : list (string * pyval)) (repo_full : string)
    (page_id : pyval) (up : list (string * pyval)) :
  NotionSync.sync_issue S P M existing it = Update page_id up ∨
  IssueToNotion.sync_issue S P M existing it repo_full = Update page_id up →
  ∃ new_props,
    (NotionSync.build_properties S P M it = Ok new_props ∨
     IssueToNotion.build_properties S P M it repo_full = Ok new_props) ∧
    (∀ k v, dict_get k up = Some v → update_entry_allowed S new_props k v) ∧
    (∀ k, k ∈ never_updated → dict_get k up = None).
Proof.
  intros H.
  assert (∃ np, (NotionSync.build_properties S P M it = Ok np ∨
                 IssueToNotion.build_properties S P M it repo_full = Ok np) ∧
                NotionSync.update_payload S np = Ok up) as (np & Hb & Hu).
  { destruct H as [H|H].
    - apply sync_issue_update_sweep in H as (np & ? & _ & ?). eauto.
    - apply sync_issue_update_webhook in H as (np & ? & _ & ?). eauto. }
  exists np. split; [done|]. split.
  - intros k v. by apply update_payload_entries.
  - intros k Hk. destruct (dict_get k up) as [v|] eqn:E; [|done].
    exfalso. eapply never_updated_not_allowed; [done|].
    by eapply update_payload_entries.
Qed.

Lemma update_carries_only_allowed_fields_witness :
  let S : gmap string string :=
    {[ PROP_STATUS := "select"; PROP_TYPE := "select"; PROP_LABELS := "multi_select" ]} in
  let existing :=
    PDict [("id", PStr "page-1");
           ("properties",
            PDict [(PROP_TITLE, title_value (PStr "Fix crash"));
                   (PROP_STATUS, select_value (PStr "Backlog"))])] in
  let it :=
    [("id", PInt 101); ("title", PStr "Fix crash");
     ("labels", PList [PDict [("name", PStr "type:feature")]]);
     ("assignee", PDict [("login", PStr "octocat")]);
     ("state", PStr "closed")] in
  ∃ up, NotionSync.sync_issue S ∅ [] existing it = Update (PStr "page-1") up ∧
        dict_keys up = [PROP_TITLE; PROP_BODY; PROP_TYPE; PROP_LABELS; PROP_STATUS] ∧
        ∀ k, k ∈ never_updated → dict_get k up = None.
Proof.
  intros S existing it. eexists. split; [vm_compute; reflexivity|].
  split; [reflexivity|].
  refine (let '(ex_intro _ np (conj _ (conj _ Hn))) :=
            update_carries_only_allowed_fields S ∅ [] existing it "o/r"
              (PStr "page-1") _ (or_introl _) in Hn).
  vm_compute. reflexivity.
Defined.

(** ** Status *)

Lemma status_entry_allowed S np v :
  update_entry_allowed S np PROP_STATUS v →
  v = select_value (PStr "Done") ∧
  select_name (PDict np) PROP_STATUS PNone = Ok (PStr "Done").
Proof.
  intros [[? _]|[[? _]|[[H _]|[[? _]|[_ ?]]]]]; try discriminate; [|done].
  repeat (apply elem_of_cons in H as [H|H]; [discriminate|]).
  by apply elem_of_nil in H.
Qed.

(** The status comparison of the diff answers "differs" only for a move to
    ["Done"]. *)
Lemma status_differs_only_towards_done props np :
  status_differs props np = Ok true →
  select_name np PROP_STATUS (PStr "") = Ok (PStr "Done") ∧
  select_name props PROP_STATUS (PStr "") ≠ Ok (PStr "Done").
Proof.
  unfold status_differs. intros H. repeat inv_bind H.
  injection H as H. apply andb_prop in H as [Hn He].
  apply py_eq_str in Hn as ->. split; [done|].
  intros Hd. rewrite Hd in E. injection E as <-. discriminate.
Qed.

Section StatusMonotone.
(** The destination's update call, with what the argument needs of it: a
    payload without [Status] leaves the status of the page as it is, and a
    payload with [Status] makes it the status of the page. *)
Variable write : pyval → list (string * pyval) → pyval.
Hypothesis write_keeps : ∀ page up,
  dict_get PROP_STATUS up = None → status_of (write page up) = status_of page.
Hypothesis write_sets : ∀ page up v s,
  status_of page = Ok s →
  dict_get PROP_STATUS up = Some v →
  status_of (write page up) =
  select_name (PDict [(PROP_STATUS, v)]) PROP_STATUS (PStr "").

Lemma sync_step_keeps_done S P M page it written :
  status_of page = Ok (PStr "Done") →
  status_of (sync_step write S P M page it written) = Ok (PStr "Done").
Proof.
  intros Hd. unfold sync_step.
  destruct (NotionSync.sync_issue S P M page it) as [| pid up | | |] eqn:E;
    try done.
  destruct written; [|done].
  apply sync_issue_update_sweep in E as (np & _ & _ & Hu).
  destruct (dict_get PROP_STATUS up) as [v|] eqn:Ev.
  - pose proof (update_payload_entries _ _ _ _ _ Hu Ev) as Hv.
    apply status_entry_allowed in Hv as [-> _].
    by rewrite (write_sets _ _ _ _ Hd Ev).
  - by rewrite write_keeps.
Qed.

(** C4: once the status of a destination page reads ["Done"], it reads
    ["Done"] after any number of further passes of the sweep over any
    versions of the source issue, reopened ones included, whether or not
    the update calls go through.  For the diff counts the status as
    different only when the new status is ["Done"] and the existing one is
    not, and an update payload holds [Status] only when the new status is
    ["Done"], and then as ["Done"]. *)
Theorem status_done_is_never_reverted
    (S P : gmap string string) (M : list (string * string)) (page : pyval)
    (passes : list (list (string * pyval) * bool)) :
  status_of page = Ok (PStr "Done") →
  status_of (run_syncs write S P M page passes) = Ok (PStr "Done") ∧
  (∀ props np,
     status_differs props np = Ok true →
     select_name np PROP_STATUS (PStr "") = Ok (PStr "Done") ∧
     select_name props PROP_STATUS (PStr "") ≠ Ok (PStr "Done")) ∧
  (∀ np up v,
     NotionSync.update_payload S np = Ok up →
     dict_get PROP_STATUS up = Some v →
     v = select_value (PStr "Done") ∧
     select_name (PDict np) PROP_STATUS PNone = Ok (PStr "Done")).
Proof.
  intros Hd. split; [|split].
  - revert page Hd. induction passes as [|[it written] r IH]; intros page Hd.
    + exact Hd.
    + simpl. apply IH. by apply sync_step_keeps_done.
  - apply status_differs_only_towards_done.
  - intros np up v Hu Hv. eapply status_entry_allowed.
    by eapply update_payload_entries.
Qed.
End StatusMonotone.

(** The storing destination meets what the argument needs. *)
Lemma dict_get_app {V} k (a b : list (string * V)) :
  dict_get k (a ++ b) =
  match dict_get k a with Some v => Some v | None => dict_get k b end.
Proof.
  induction a as [|[k' v'] a IH]; simpl; [done|].
  by destruct (String.eqb k' k).
Qed.

Lemma dict_get_filter_absent k (old new : list (string * pyval)) :
  dict_get k old = None →
  dict_get k (List.filter (λ kv, negb (dict_mem kv.1 old)) new) = dict_get k new.
Proof.
  intros Eo. induction new as [|[k' v'] new IH]; simpl; [done|].
  destruct (String.eqb k' k) eqn:E.
  - apply String.eqb_eq in E. subst k'. unfold dict_mem. rewrite Eo.
    simpl. by rewrite String.eqb_refl.
  - destruct (negb (dict_mem k' old)); simpl; [by rewrite E|done].
Qed.

Lemma merge_properties_lookup k old new :
  dict_get k (merge_properties old new) =
  match dict_get k new with Some v => Some v | None => dict_get k old end.
Proof.
  unfold merge_properties. rewrite dict_get_app.
  assert (Hm : dict_get k
                 (map (λ kv, (kv.1, default kv.2 (dict_get kv.1 new))) old) =
               (λ v, default v (dict_get k new)) <$> dict_get k old).
  { induction old as [|[k' v'] old IH]; simpl; [done|].
    destruct (String.eqb k' k) eqn:E; [|done].
    apply String.eqb_eq in E. by subst. }
  rewrite Hm. destruct (dict_get k old) as [v|] eqn:Eo; simpl.
  - by destruct (dict_get k new).
  - rewrite (dict_get_filter_absent _ _ _ Eo). by destruct (dict_get k new).
Qed.

Lemma select_name_dict ps prop dflt :
  select_name (PDict ps) prop dflt =
  Py.vget (default (PDict []) (dict_get prop ps)) "select" (PDict [])
    ≫= λ s, Py.vget s "name" dflt.
Proof. reflexivity. Qed.

Lemma status_of_patched d ps up :
  status_of (PDict (dict_set d "properties" (PDict (merge_properties ps up)))) =
  select_name (PDict (merge_properties ps up)) PROP_STATUS (PStr "").
Proof.
  unfold status_of. simpl. unfold Py.get_or. by rewrite dict_get_set_eq.
Qed.

Lemma status_of_dict d ps :
  Py.get_or d "properties" (PDict []) = PDict ps →
  status_of (PDict d) = select_name (PDict ps) PROP_STATUS (PStr "").
Proof. intros H. unfold status_of. simpl. by rewrite H. Qed.

Lemma notion_patch_keeps page up :
  dict_get PROP_STATUS up = None →
  status_of (notion_patch page up) = status_of page.
Proof.
  intros Hu. destruct page as [| | | | |d]; try done.
  unfold notion_patch.
  destruct (Py.get_or d "properties" (PDict [])) as [| | | | |ps] eqn:Ep;
    try done.
  rewrite status_of_patched, (status_of_dict _ _ Ep), !select_name_dict.
  by rewrite merge_properties_lookup, Hu.
Qed.

Lemma notion_patch_sets page up v s :
  status_of page = Ok s →
  dict_get PROP_STATUS up = Some v →
  status_of (notion_patch page up) =
  select_name (PDict [(PROP_STATUS, v)]) PROP_STATUS (PStr "").
Proof.
  intros Hs Hu. destruct page as [| | | | |d]; try discriminate.
  unfold notion_patch.
  destruct (Py.get_or d "properties" (PDict [])) as [| | | | |ps] eqn:Ep;
    try (unfold status_of in Hs; simpl in Hs; rewrite Ep in Hs; discriminate).
  rewrite status_of_patched, !select_name_dict.
  by rewrite merge_properties_lookup, Hu.
Qed.

Lemma status_done_is_never_reverted_witness :
  let S : gmap string string := {[ PROP_STATUS := "select" ]} in
  let page :=
    PDict [("id", PStr "page-1");
           ("properties",
            PDict [(PROP_TITLE, title_value (PStr "Fix crash"));
                   (PROP_STATUS, select_value (PStr "Done"))])] in
  let reopened :=
    [("id", PInt 101); ("title", PStr "Fix crash (again)"); ("state", PStr "open")] in
  let closed :=
    [("id", PInt 101); ("title", PStr "Fix crash, really"); ("state", PStr "closed")] in
  status_of page = Ok (PStr "Done") ∧
  status_of (run_syncs notion_patch S ∅ [] page
               [(reopened, true); (closed, false); (reopened, true)])
    = Ok (PStr "Done").
Proof.
  intros S page reopened closed. split; [reflexivity|].
  refine (proj1 (status_done_is_never_reverted notion_patch
                   notion_patch_keeps notion_patch_sets S ∅ [] page _ _)).
  reflexivity.
Defined.

(** ** The two scripts side by side *)

Lemma except_true_first_difference cs :
  except_true (first_difference cs) = existsb differs_or_raises cs.
Proof.
  induction cs as [|c r IH]; [done|].
  destruct c as [[]|e]; simpl; [done | exact IH | done].
Qed.

(** The comparisons of the two diff functions, for a schema. *)
Lemma sweep_properties_differ S existing np props :
  Py.vget existing "properties" (PDict []) = Ok props →
  NotionSync.properties_differ S existing np =
  except_true (first_difference
    [ text_differs props (PDict np) PROP_TITLE "title";
      (if NotionSync.schema_is S PROP_PROJECT "select"
       then select_differs props (PDict np) PROP_PROJECT else Ok false);
      (if NotionSync.schema_is S PROP_TYPE "select"
       then select_differs props (PDict np) PROP_TYPE else Ok false);
      (if NotionSync.schema_is S PROP_PRIORITY "select"
       then select_differs props (PDict np) PROP_PRIORITY else Ok false);
      (if NotionSync.schema_is S PROP_SPRINT "select"
       then select_differs props (PDict np) PROP_SPRINT else Ok false);
      (if NotionSync.schema_is S PROP_LABELS "multi_select"
       then labels_differ props (PDict np) else Ok false);
      text_differs props (PDict np) PROP_BODY "rich_text";
      status_differs props (PDict np) ]).
Proof. intros H. unfold NotionSync.properties_differ. by rewrite H. Qed.

Lemma first_difference_app cs ds :
  first_difference (cs ++ ds) =
  d ← first_difference cs; if d : bool then Ok true else first_difference ds.
Proof.
  induction cs as [|c r IH]; simpl; [done|].
  destruct c as [[]|e]; simpl; [done | exact IH | done].
Qed.

Lemma webhook_selects_differ S props np names :
  IssueToNotion.selects_differ S props np names =
  first_difference
    (map (λ prop, if NotionSync.schema_is S prop "select"
                  then select_differs props np prop else Ok false) names).
Proof. induction names as [|p r IH]; simpl; [done|]. by rewrite IH. Qed.

Lemma webhook_properties_differ S existing np props :
  Py.vget existing "properties" (PDict []) = Ok props →
  IssueToNotion.properties_differ S existing np =
  except_true (first_difference
    ([ text_differs props (PDict np) PROP_TITLE "title";
       status_differs props (PDict np);
       text_differs props (PDict np) PROP_BODY "rich_text" ]
     ++ map (λ prop, if NotionSync.schema_is S prop "select"
                     then select_differs props (PDict np) prop else Ok false)
          [PROP_PROJECT; PROP_TYPE; PROP_PRIORITY; PROP_SPRINT]
     ++ [ if NotionSync.schema_is S PROP_LABELS "multi_select"
          then labels_differ props (PDict np) else Ok false ])).
Proof.
  intros H. unfold IssueToNotion.properties_differ. rewrite H.
  match goal with
  | |- context [Ok props ≫= ?f] => change (Ok props ≫= f) with (f props)
  end.
  cbv beta zeta. rewrite webhook_selects_differ. f_equal.
  rewrite !first_difference_app. simpl.
  destruct (text_differs props (PDict np) PROP_TITLE "title") as [[]|];
    simpl; try done.
  destruct (status_differs props (PDict np)) as [[]|]; simpl; try done.
  destruct (text_differs props (PDict np) PROP_BODY "rich_text") as [[]|];
    simpl; try done.
Qed.

(** The diff functions of the two scripts decide alike, on every page and
    every payload. *)
Lemma properties_differ_same S existing np :
  IssueToNotion.properties_differ S existing np =
  NotionSync.properties_differ S existing np.
Proof.
  destruct (Py.vget existing "properties" (PDict [])) as [props|e] eqn:E.
  - rewrite (sweep_properties_differ _ _ _ _ E),
      (webhook_properties_differ _ _ _ _ E), !except_true_first_difference.
    simpl. repeat match goal with
           | |- context [differs_or_raises ?c] =>
               generalize (differs_or_raises c); intros ?
           end.
    repeat match goal with b : bool |- _ => destruct b end; reflexivity.
  - unfold IssueToNotion.properties_differ, NotionSync.properties_differ.
    by rewrite E.
Qed.

Lemma people_map_find_same P v :
  IssueToNotion.people_map_find P v = NotionSync.people_map_get P v.
Proof. reflexivity. Qed.

Lemma people_payload_agree S P prop gh_login :
  people_ids_non_empty P →
  IssueToNotion.people_payload S P prop gh_login =
  NotionSync.people_payload S P prop gh_login.
Proof.
  intros HP. unfold IssueToNotion.people_payload, NotionSync.people_payload.
  rewrite schema_is_same, people_map_find_same.
  destruct (NotionSync.schema_is S prop "people"); [|done].
  destruct (Py.truthy gh_login); [|done].
  destruct gh_login as [| | |s| |]; simpl; try done.
  destruct (P !! s) as [i|] eqn:E; [|done].
  destruct (String.eqb i "") eqn:Ei; [|done].
  apply String.eqb_eq in Ei. by destruct (HP _ _ E).
Qed.

Lemma sweep_sprint_label_truthy labels v :
  NotionSync.sprint_from_labels labels = Ok (Some v) → Py.truthy (PStr v) = true.
Proof.
  induction labels as [|l r IH]; simpl; [done|].
  destruct l as [| | |s| |]; simpl; try done.
  destruct (String.prefix "sprint:" (PyStr.lower s)); [|exact IH].
  destruct (Py.nth_str (PyStr.split1 ":" s) 1) as [w|]; simpl; [|done].
  destruct (String.eqb (PyStr.strip w) ""); simpl; [exact IH|].
  by intros [= <-].
Qed.

Lemma sprint_from_milestone_agree issue :
  milestone_title_ok (Py.get issue "milestone") = true →
  IssueToNotion.sprint_from_milestone issue =
  NotionSync.sprint_from_milestone (Py.get issue "milestone").
Proof.
  unfold IssueToNotion.sprint_from_milestone, NotionSync.sprint_from_milestone,
    Py.index, Py.get.
  destruct (dict_get "milestone" issue) as [m|]; simpl; [|done].
  destruct (Py.truthy m) eqn:Hm; [|done].
  destruct m as [| | | | |d]; simpl; try done.
  unfold Py.get_or. destruct (dict_get "title" d) as [t|]; simpl; [|done].
  destruct t as [| |z|s|l|e]; simpl; try done.
  - by intros ->.
  - by intros ->.
  - destruct (String.eqb s "") eqn:Es; simpl.
    + apply String.eqb_eq in Es. by subst s.
    + intros _. destruct (String.eqb (PyStr.strip s) ""); simpl; [done|].
      by destruct (String.prefix "sprint" (PyStr.lower (PyStr.strip s))).
  - by intros ->.
  - by intros ->.
Qed.

Lemma bind_cong {A B : Type} (m m' : result A) (f g : A → result B) :
  m = m' → (∀ a, m = Ok a → f a = g a) → m ≫= f = m' ≫= g.
Proof. intros <- H. destruct m as [a|e]; simpl; [by apply H | done]. Qed.

(** Runs the binds whose first part has returned. *)
Ltac red_ok :=
  repeat match goal with
    | |- context [Ok ?a ≫= ?f] => change (Ok a ≫= f) with (f a); cbv beta iota
    end.

Lemma unmapped_agree S P gh_assignee :
  (if IssueToNotion.schema_is S PROP_ASSIGNEE "people" && Py.truthy gh_assignee
   then found ← IssueToNotion.people_map_find P gh_assignee;
        Ok (match found with Some _ => false | None => true end)
   else Ok false) =
  (if NotionSync.schema_is S PROP_ASSIGNEE "people" && Py.truthy gh_assignee
   then o ← NotionSync.people_map_get P gh_assignee;
        Ok (negb (NotionSync.is_Some_bool o))
   else Ok false).
Proof.
  rewrite schema_is_same, people_map_find_same.
  destruct (NotionSync.schema_is S PROP_ASSIGNEE "people" && Py.truthy gh_assignee);
    [|done].
  by destruct (NotionSync.people_map_get P gh_assignee) as [[?|]|].
Qed.

(** The builders of the two scripts return the same result, payload or
    exception, on the records on which their sprint and assignee rules do
    not part. *)
Lemma build_properties_agree S P M issue repo_full r :
  NotionSync.repo_full_of_issue issue = Ok r →
  short_name r = short_name repo_full →
  (∀ labels, label_names issue = Ok labels → no_blank_sprint labels = true) →
  milestone_title_ok (Py.get issue "milestone") = true →
  people_ids_non_empty P →
  IssueToNotion.build_properties S P M issue repo_full =
  NotionSync.build_properties S P M issue.
Proof.
  intros Hr Hs Hl Hm HP.
  unfold IssueToNotion.build_properties, NotionSync.build_properties.
  rewrite Hr. cbv zeta. red_ok. rewrite Hs.
  apply bind_cong; [done|intros title _].
  apply bind_cong; [done|intros labels Hlab].
  apply bind_cong; [done|intros label_map _].
  apply bind_cong; [done|intros gh_assignee _].
  rewrite (webhook_sprint_from_labels _ (Hl _ Hlab)).
  unfold NotionSync.resolve_sprint_from_issue.
  destruct (NotionSync.sprint_from_labels labels) as [[v|]|e] eqn:Esp;
    [| |reflexivity].
  - red_ok. rewrite (sweep_sprint_label_truthy _ _ Esp). red_ok.
    apply bind_cong; [exact (people_payload_agree _ _ _ _ HP) | intros ap _].
    apply bind_cong;
      [by rewrite resolve_project_same, multi_select_payload_same
      | intros props _].
    apply bind_cong; [apply unmapped_agree | done].
  - red_ok. rewrite (sprint_from_milestone_agree _ Hm).
    apply bind_cong; [done | intros sprint_val _].
    apply bind_cong; [exact (people_payload_agree _ _ _ _ HP) | intros ap _].
    apply bind_cong;
      [by rewrite resolve_project_same, multi_select_payload_same
      | intros props _].
    apply bind_cong; [apply unmapped_agree | done].
Qed.

(** C9 (as stated, refuted): on an issue with the label ["sprint:"] and the
    milestone ["M1"] the sweep builds [Sprint = "M1"] and the webhook tool
    [Sprint = "Sprint "]; on an issue assigned to a login that the people
    map sends to the empty id, the sweep builds an empty people list and
    the webhook tool a reference to the empty id. *)
Lemma builders_differ :
  let repo := ("repository_url", PStr "https://api.github.com/repos/o/r") in
  let sprint_issue :=
    [("id", PInt 101); ("title", PStr "Fix crash"); repo;
     ("labels", PList [PDict [("name", PStr "sprint:")]]);
     ("milestone", PDict [("title", PStr "M1")])] in
  let assigned_issue :=
    [("id", PInt 101); ("title", PStr "Fix crash"); repo;
     ("assignee", PDict [("login", PStr "octocat")])] in
  (∃ a b,
     NotionSync.build_properties {[ PROP_SPRINT := "select" ]} ∅ [] sprint_issue = Ok a ∧
     IssueToNotion.build_properties {[ PROP_SPRINT := "select" ]} ∅ [] sprint_issue "o/r" = Ok b ∧
     dict_get PROP_SPRINT a = Some (select_value (PStr "M1")) ∧
     dict_get PROP_SPRINT b = Some (select_value (PStr "Sprint ")) ∧
     a ≠ b) ∧
  (∃ a b,
     NotionSync.build_properties {[ PROP_ASSIGNEE := "people" ]}
       {[ "octocat" := "" ]} [] assigned_issue = Ok a ∧
     IssueToNotion.build_properties {[ PROP_ASSIGNEE := "people" ]}
       {[ "octocat" := "" ]} [] assigned_issue "o/r" = Ok b ∧
     dict_get PROP_ASSIGNEE a = Some (people_value []) ∧
     dict_get PROP_ASSIGNEE b = Some (people_value [PStr ""]) ∧
     a ≠ b).
Proof.
  split.
  - eexists _, _. split; [vm_compute; reflexivity|].
    split; [vm_compute; reflexivity|].
    split; [reflexivity|]. split; [reflexivity|]. discriminate.
  - eexists _, _. split; [vm_compute; reflexivity|].
    split; [vm_compute; reflexivity|].
    split; [reflexivity|]. split; [reflexivity|]. discriminate.
Qed.

(** C9 (amended): for every schema, every page and every payload, the diff
    functions of the two scripts decide alike and their update payloads are
    the same; their builders return the same result for every issue record
    and configuration in which the repository name handed to the webhook
    tool has the short form of the one the sweep reads from the issue, no
    sprint label has a blank value, the milestone title is a string when
    there is one, and no login is mapped to the empty id. *)
Theorem variants_agree
    (S P : gmap string string) (M : list (string * string))
    (issue : list (string * pyval)) (repo_full r : string) :
  NotionSync.repo_full_of_issue issue = Ok r →
  short_name r = short_name repo_full →
  (∀ labels, label_names issue = Ok labels → no_blank_sprint labels = true) →
  milestone_title_ok (Py.get issue "milestone") = true →
  people_ids_non_empty P →
  IssueToNotion.build_properties S P M issue repo_full =
    NotionSync.build_properties S P M issue ∧
  (∀ existing new_props,
     IssueToNotion.properties_differ S existing new_props =
     NotionSync.properties_differ S existing new_props) ∧
  (∀ new_props,
     IssueToNotion.update_payload S new_props =
     NotionSync.update_payload S new_props).
Proof.
  intros Hr Hs Hl Hm HP. split; [|split].
  - by eapply build_properties_agree.
  - intros. apply properties_differ_same.
  - intros. apply update_payload_same.
Qed.

Lemma variants_agree_witness :
  let S : gmap string string :=
    {[ PROP_SPRINT := "select"; PROP_ASSIGNEE := "people" ]} in
  let P : gmap string string := {[ "octocat" := "user-1" ]} in
  let issue :=
    [("id", PInt 101); ("title", PStr "Fix crash");
     ("repository_url", PStr "https://api.github.com/repos/o/r");
     ("labels", PList [PDict [("name", PStr "sprint:3")]]);
     ("assignee", PDict [("login", PStr "octocat")]);
     ("milestone", PDict [("title", PStr "M1")])] in
  IssueToNotion.build_properties S P [] issue "o/r" =
  NotionSync.build_properties S P [] issue.
Proof.
  intros S P issue.
  refine (proj1 (variants_agree S P [] issue "o/r" "o/r" _ _ _ _ _)).
  - reflexivity.
  - reflexivity.
  - intros labels H. vm_compute in H. injection H as <-. reflexivity.
  - reflexivity.
  - intros login id H. apply lookup_singleton_Some in H as [_ <-]. discriminate.
Defined.

Lemma repo_full_ok issue :
  str_or_null (dict_get "repository_url" issue) = true →
  ∃ r, NotionSync.repo_full_of_issue issue = Ok r.
Proof.
  unfold NotionSync.repo_full_of_issue, Py.get_or.
  destruct (dict_get "repository_url" issue) as [[| | |s| |]|];
    try discriminate; intros _; cbn -[Nat.leb PyStr.split rev]; eauto.
  destruct (negb (String.eqb s "")); [|eauto].
  set (parts := PyStr.split "/" (PyStr.rstrip_char "/" s)).
  destruct (2 <=? length parts)%nat eqn:E; [|eauto].
  apply Nat.leb_le in E.
  destruct (rev parts) as [|l [|b t]] eqn:Er; [| |eauto].
  - apply (f_equal length) in Er. rewrite length_rev in Er. simpl in Er. lia.
  - apply (f_equal length) in Er. rewrite length_rev in Er. simpl in Er. lia.
Qed.

Lemma label_names_ok issue :
  match dict_get "labels" issue with
  | None | Some PNone => true
  | Some (PList ls) => forallb label_shaped ls
  | _ => false
  end = true →
  ∃ names, label_names issue = Ok (map PStr names).
Proof.
  unfold label_names, Py.get, Py.get_or.
  destruct (dict_get "labels" issue) as [[| | | |ls|]|]; simpl;
    try discriminate; try (intros _; by exists []).
  intros H.
  assert (∃ names, mapR (λ l, Py.vget l "name" PNone) ls = Ok (map PStr names))
    as [names Hn].
  { induction ls as [|l r IH]; [by exists []|].
    simpl in H. apply andb_prop in H as [Hl Hr].
    destruct (IH Hr) as [names Hn].
    destruct l as [| | | | |d]; try discriminate. simpl in Hl.
    destruct (dict_get "name" d) as [[| | |n| |]|] eqn:En; try discriminate.
    exists (n :: names). simpl. unfold Py.get_or. rewrite En. simpl.
    by rewrite Hn. }
  destruct ls; [by exists []|]. simpl in *. eauto.
Qed.

Lemma assignee_login_ok issue :
  match dict_get "assignee" issue with
  | None | Some PNone => true
  | Some (PDict d) => str_or_null (dict_get "login" d)
  | _ => false
  end = true →
  ∃ v, assignee_login issue = Ok v ∧ scalar_login v.
Proof.
  unfold assignee_login, Py.get, Py.get_or, scalar_login.
  destruct (dict_get "assignee" issue) as [[| | | | |d]|]; simpl;
    try discriminate; try (intros _; by eauto).
  intros H. destruct d as [|kv d']; [by eauto|].
  simpl. unfold Py.get_or.
  destruct (dict_get "login" (kv :: d')) as [[| | |s| |]|];
    simpl in *; try discriminate; eauto.
Qed.

Lemma sweep_milestone_ok issue :
  match dict_get "milestone" issue with
  | None | Some PNone => true
  | Some (PDict d) => str_or_missing (dict_get "title" d)
  | _ => false
  end = true →
  ∃ r, NotionSync.sprint_from_milestone (Py.get issue "milestone") = Ok r.
Proof.
  unfold NotionSync.sprint_from_milestone, Py.get.
  destruct (dict_get "milestone" issue) as [[| | | | |d]|]; simpl;
    try discriminate; try (intros _; by eauto).
  intros H. destruct d as [|kv d']; [by eauto|].
  unfold Py.vget, Py.get_or.
  destruct (dict_get "title" (kv :: d')) as [[| | |s| |]|];
    simpl in *; try discriminate; [|by eauto].
  destruct (negb (String.eqb s "")); simpl; [|by eauto].
  destruct (negb (String.eqb (PyStr.strip s) "")); simpl; [|by eauto].
  by destruct (String.prefix "sprint" (PyStr.lower (PyStr.strip s))); eauto.
Qed.

Lemma webhook_milestone_ok issue :
  match dict_get "milestone" issue with
  | None | Some PNone => true
  | Some (PDict d) => str_or_missing (dict_get "title" d)
  | _ => false
  end = true →
  ∃ r, IssueToNotion.sprint_from_milestone issue = Ok r.
Proof.
  unfold IssueToNotion.sprint_from_milestone, Py.get, Py.index.
  destruct (dict_get "milestone" issue) as [[| | | | |d]|]; simpl;
    try discriminate; try (intros _; by eauto).
  intros H. destruct d as [|kv d']; [by eauto|].
  unfold Py.vget, Py.get_or.
  destruct (dict_get "title" (kv :: d')) as [[| | |s| |]|];
    simpl in *; try discriminate.
  - destruct (negb (String.eqb (PyStr.strip s) "")); simpl; by eauto.
  - by eauto.
Qed.

Lemma webhook_sprint_from_labels_ok (names : list string) :
  ∃ r, IssueToNotion.sprint_from_labels (map PStr names) = Ok r.
Proof.
  induction names as [|l r IH]; simpl; [by eauto|].
  destruct (String.prefix "sprint:" (PyStr.lower l)) eqn:Hp; [|exact IH].
  destruct (sprint_prefix_split _ Hp) as (k & v & Hs).
  unfold PyStr.split1. rewrite Hs. simpl. eauto.
Qed.

Lemma people_payload_ok S P prop v :
  scalar_login v →
  (∃ d, NotionSync.people_payload S P prop v = Ok d) ∧
  (∃ d, IssueToNotion.people_payload S P prop v = Ok d).
Proof.
  unfold NotionSync.people_payload, IssueToNotion.people_payload.
  change (IssueToNotion.schema_is S prop "people")
    with (NotionSync.schema_is S prop "people").
  intros [->|[s ->]]; destruct (NotionSync.schema_is S prop "people"); simpl;
    eauto.
  destruct (negb (String.eqb s "")); simpl; [|by eauto].
  destruct (P !! s) as [i|]; simpl; [|by eauto].
  destruct (negb (String.eqb i "")); eauto.
Qed.

Lemma notes_content_lookup p b :
  dict_get PROP_BODY p = Some (rich_text b) → notes_content p = Ok b.
Proof. intros H. unfold notes_content, Py.index. by rewrite H. Qed.

Lemma mapR_str_operand names : mapR Py.str_operand (map PStr names) = Ok names.
Proof. induction names as [|n r IH]; simpl; [done|]. by rewrite IH. Qed.

Lemma whenR_ok {D} (Q : D → Prop) c (f : D → result D) p0 :
  (∀ p, Q p → ∃ p', f p = Ok p' ∧ Q p') →
  Q p0 → ∃ p', whenR c f p0 = Ok p' ∧ Q p'.
Proof. intros Hf H0. destruct c; simpl; eauto. Qed.

Lemma title_ok issue :
  str_or_missing (dict_get "title" issue) = true →
  ∃ t, Py.slice_to 200 (Py.get_or issue "title" (PStr "")) = Ok t.
Proof.
  unfold Py.get_or.
  destruct (dict_get "title" issue) as [[| | |s| |]|]; simpl;
    try discriminate; eauto.
Qed.

Lemma body_ok issue :
  str_or_null (dict_get "body" issue) = true →
  ∃ b, Py.or_else (Py.get issue "body") (PStr "") = PStr b.
Proof.
  unfold Py.get, Py.or_else.
  destruct (dict_get "body" issue) as [[| | |s| |]|]; simpl;
    try discriminate; eauto.
  destruct (negb (String.eqb s "")); eauto.
Qed.

Lemma unmapped_ok S P v :
  scalar_login v →
  ∃ u, (if NotionSync.schema_is S PROP_ASSIGNEE "people" && Py.truthy v
        then o ← NotionSync.people_map_get P v;
             Ok (negb (NotionSync.is_Some_bool o))
        else Ok false) = Ok u.
Proof.
  intros [->|[s ->]];
    destruct (NotionSync.schema_is S PROP_ASSIGNEE "people" && _); simpl; eauto.
Qed.

Lemma format_ok v : scalar_login v → ∃ a, Py.format v = Ok a.
Proof. intros [->|[s ->]]; simpl; eauto. Qed.

Lemma sweep_resolve_ok names issue :
  match dict_get "milestone" issue with
  | None | Some PNone => true
  | Some (PDict d) => str_or_missing (dict_get "title" d)
  | _ => false
  end = true →
  ∃ r, NotionSync.resolve_sprint_from_issue (map PStr names)
         (Py.get issue "milestone") = Ok r.
Proof.
  intros H. unfold NotionSync.resolve_sprint_from_issue.
  rewrite sweep_sprint_from_labels. red_ok.
  destruct (first_some non_blank_sprint_label names); simpl; [by eauto|].
  by apply sweep_milestone_ok.
Qed.

Lemma sweep_builder_returns S P M issue :
  source_shaped issue = true →
  ∃ props, NotionSync.build_properties S P M issue = Ok props.
Proof.
  intros H. unfold source_shaped in H.
  repeat (apply andb_prop in H as [H ?]).
  destruct (repo_full_ok issue) as [r Hr]; [done|].
  destruct (title_ok issue) as [t Ht]; [done|].
  destruct (body_ok issue) as [b Hb]; [done|].
  destruct (label_names_ok issue) as [names Hn]; [done|].
  destruct (assignee_login_ok issue) as (v & Hv & Hsc); [done|].
  destruct (sweep_resolve_ok names issue) as [sv Hsv]; [done|].
  destruct (parse_label_map_last_wins_aux names) as (m & Hm & _).
  destruct (people_payload_ok S P PROP_ASSIGNEE v Hsc) as [[ap Hap] _].
  destruct (unmapped_ok S P v Hsc) as [u Hu].
  destruct (format_ok v Hsc) as [a Ha].
  unfold NotionSync.build_properties. cbv zeta.
  rewrite Hr. red_ok. rewrite Ht. red_ok. rewrite Hn. red_ok.
  rewrite Hm. red_ok. rewrite Hv. red_ok. rewrite Hsv. red_ok.
  rewrite Hap. red_ok. rewrite Hb.
  match goal with
  | |- ∃ props, whenR ?c ?f ?p0 ≫= _ = Ok props =>
      destruct (whenR_ok has_notes c f p0) as (p1 & Hp1 & Hq1)
  end.
  { intros p [b' Hb']. rewrite (notes_content_lookup _ _ Hb'). red_ok.
    simpl Py.str_operand. red_ok. rewrite mapR_str_operand. red_ok.
    eexists. split; [reflexivity|]. eexists. apply dict_get_set_eq. }
  { exists b. frame.  apply dict_get_set_eq. }
  rewrite Hp1. red_ok. rewrite Hu. red_ok.
  match goal with
  | |- ∃ props, whenR ?c ?f ?p0 = Ok props =>
      destruct (whenR_ok has_notes c f p0) as (p2 & Hp2 & _)
  end.
  { intros p [b' Hb']. rewrite (notes_content_lookup _ _ Hb'). red_ok.
    simpl Py.str_operand. red_ok. rewrite Ha. red_ok.
    eexists. split; [reflexivity|]. eexists. apply dict_get_set_eq. }
  { done. }
  eauto.
Qed.

Lemma webhook_unmapped_ok S P v :
  scalar_login v →
  ∃ u, (if IssueToNotion.schema_is S PROP_ASSIGNEE "people" && Py.truthy v
        then found ← IssueToNotion.people_map_find P v;
             Ok (match found with Some _ => false | None => true end)
        else Ok false) = Ok u.
Proof.
  intros [->|[s ->]];
    destruct (IssueToNotion.schema_is S PROP_ASSIGNEE "people" && _); simpl; eauto.
Qed.

Lemma webhook_builder_returns S P M issue repo_full :
  source_shaped issue = true →
  ∃ props, IssueToNotion.build_properties S P M issue repo_full = Ok props.
Proof.
  intros H. unfold source_shaped in H.
  repeat (apply andb_prop in H as [H ?]).
  destruct (title_ok issue) as [t Ht]; [done|].
  destruct (body_ok issue) as [b Hb]; [done|].
  destruct (label_names_ok issue) as [names Hn]; [done|].
  destruct (assignee_login_ok issue) as (v & Hv & Hsc); [done|].
  destruct (webhook_sprint_from_labels_ok names) as [fl Hfl].
  destruct (webhook_milestone_ok issue) as [ms Hms]; [done|].
  destruct (parse_label_map_last_wins_aux names) as (m & Hm & _).
  destruct (people_payload_ok S P PROP_ASSIGNEE v Hsc) as [_ [ap Hap]].
  destruct (webhook_unmapped_ok S P v Hsc) as [u Hu].
  destruct (format_ok v Hsc) as [a Ha].
  unfold IssueToNotion.build_properties. cbv zeta.
  rewrite Ht. red_ok. rewrite Hn. red_ok.
  rewrite parse_label_map_same, Hm. red_ok. rewrite Hv. red_ok.
  rewrite Hfl. red_ok.
  assert (∃ sv, match fl with
                | Some v0 => if Py.truthy (PStr v0) then Ok (Some v0)
                             else IssueToNotion.sprint_from_milestone issue
                | None => IssueToNotion.sprint_from_milestone issue
                end = Ok sv) as [sv Hsv].
  { rewrite Hms. destruct fl as [v0|]; [|by eauto].
    destruct (Py.truthy (PStr v0)); eauto. }
  rewrite Hsv. red_ok. rewrite Hap. red_ok. rewrite Hb.
  match goal with
  | |- ∃ props, whenR ?c ?f ?p0 ≫= _ = Ok props =>
      destruct (whenR_ok has_notes c f p0) as (p1 & Hp1 & Hq1)
  end.
  { intros p [b' Hb']. rewrite (notes_content_lookup _ _ Hb'). red_ok.
    simpl Py.str_operand. red_ok. rewrite mapR_str_operand. red_ok.
    eexists. split; [reflexivity|]. eexists. apply dict_get_set_eq. }
  { exists b. frame. apply dict_get_set_eq. }
  rewrite Hp1. red_ok. rewrite Hu. red_ok.
  match goal with
  | |- ∃ props, whenR ?c ?f ?p0 = Ok props =>
      destruct (whenR_ok has_notes c f p0) as (p2 & Hp2 & _)
  end.
  { intros p [b' Hb']. rewrite (notes_content_lookup _ _ Hb'). red_ok.
    simpl Py.str_operand. red_ok. rewrite Ha. red_ok.
    eexists. split; [reflexivity|]. eexists. apply dict_get_set_eq. }
  { done. }
  eauto.
Qed.

(** C3 (as stated, refuted): a record whose title is [null] makes both
    builders raise [TypeError], and so does a label entry without a name;
    the per-issue step of the sweep then reports a failure instead of a
    payload. *)
Lemma build_properties_raises_on_null_title :
  let null_title := [("id", PInt 101); ("title", PNone); ("body", PStr "text")] in
  let nameless_label :=
    [("id", PInt 101); ("title", PStr "Fix crash");
     ("labels", PList [PDict [("color", PStr "ededed")]])] in
  NotionSync.build_properties ∅ ∅ [] null_title = Raise TypeError ∧
  IssueToNotion.build_properties ∅ ∅ [] null_title "o/r" = Raise TypeError ∧
  NotionSync.build_properties ∅ ∅ [] nameless_label = Raise TypeError ∧
  IssueToNotion.build_properties ∅ ∅ [] nameless_label "o/r" = Raise TypeError ∧
  NotionSync.sync_issue ∅ ∅ [] PNone null_title = Failed TypeError.
Proof. repeat split. Qed.

(** C3 (amended): for every issue record whose fields, where it has them,
    are of the types the source gives them -- a string title, a string or
    [null] repository url and body, [null] or a list of named entries for
    the labels, [null] or an object with a string or [null] login for the
    assignee, [null] or an object with a string title for the milestone --
    and so also for a record that lacks any of them, both builders end and
    return a payload, whatever the schema and the configured maps. *)
Theorem builders_return_on_source_shaped
    (S P : gmap string string) (M : list (string * string))
    (issue : list (string * pyval)) (repo_full : string) :
  source_shaped issue = true →
  (∃ props, NotionSync.build_properties S P M issue = Ok props) ∧
  (∃ props, IssueToNotion.build_properties S P M issue repo_full = Ok props).
Proof.
  intros H. split.
  - by apply sweep_builder_returns.
  - by apply webhook_builder_returns.
Qed.

Lemma builders_return_on_source_shaped_witness :
  let partial :=
    [("id", PInt 101); ("body", PNone); ("labels", PNone);
     ("assignee", PNone); ("milestone", PNone)] in
  source_shaped partial = true ∧
  source_shaped [] = true ∧
  (∃ props, NotionSync.build_properties ∅ ∅ [] partial = Ok props) ∧
  (∃ props, IssueToNotion.build_properties ∅ ∅ [] [] "o/r" = Ok props).
Proof.
  intros partial. split; [reflexivity|]. split; [reflexivity|]. split.
  - exact (proj1 (builders_return_on_source_shaped ∅ ∅ [] partial "o/r" eq_refl)).
  - exact (proj2 (builders_return_on_source_shaped ∅ ∅ [] [] "o/r" eq_refl)).
Defined.

(** * Further properties of the scripts *)

(** ** Strings, continued *)

Lemma contains_app c s t :
  PyStr.contains c (s +:+ t) = PyStr.contains c s || PyStr.contains c t.
Proof.
  induction s as [|a r IH]; simpl; [done|].
  by destruct (Ascii.eqb a c).
Qed.

Lemma lstrip_fixed s :
  match s with
  | EmptyString => True
  | String a _ => PyStr.is_space a = false
  end → PyStr.lstrip s = s.
Proof. destruct s as [|a r]; simpl; [done|]. by intros ->. Qed.

Lemma lstrip_head s :
  match PyStr.lstrip s with
  | EmptyString => True
  | String a _ => PyStr.is_space a = false
  end.
Proof.
  induction s as [|a r IH]; simpl; [done|].
  destruct (PyStr.is_space a) eqn:E; [exact IH | done].
Qed.

Lemma rstrip_by_idem p s :
  PyStr.rstrip_by p (PyStr.rstrip_by p s) = PyStr.rstrip_by p s.
Proof.
  induction s as [|a r IH]; simpl; [done|].
  destruct (PyStr.rstrip_by p r) as [|b r'] eqn:E.
  - destruct (p a) eqn:Ea; simpl; [done|]. by rewrite Ea.
  - simpl in IH |- *. by rewrite IH.
Qed.

Lemma rstrip_by_head p s :
  match s with
  | EmptyString => True
  | String a _ => p a = false
  end →
  match PyStr.rstrip_by p s with
  | EmptyString => s = EmptyString
  | String a _ => p a = false
  end.
Proof.
  destruct s as [|a r]; simpl; [done|]. intros Ha.
  destruct (PyStr.rstrip_by p r); [by rewrite Ha | done].
Qed.

(** [strip] leaves a stripped string as it is. *)
Lemma strip_idem s : PyStr.strip (PyStr.strip s) = PyStr.strip s.
Proof.
  unfold PyStr.strip, PyStr.rstrip.
  pose proof (rstrip_by_head PyStr.is_space _ (lstrip_head s)) as H.
  rewrite lstrip_fixed.
  - apply rstrip_by_idem.
  - destruct (PyStr.rstrip_by PyStr.is_space (PyStr.lstrip s)); done.
Qed.

Lemma lstrip_contains c s :
  PyStr.contains c s = false → PyStr.contains c (PyStr.lstrip s) = false.
Proof.
  induction s as [|a r IH]; simpl; [done|].
  destruct (Ascii.eqb a c) eqn:E; [done|]. intros H.
  destruct (PyStr.is_space a); [by apply IH|]. simpl. by rewrite E.
Qed.

Lemma rstrip_by_contains p c s :
  PyStr.contains c s = false → PyStr.contains c (PyStr.rstrip_by p s) = false.
Proof.
  induction s as [|a r IH]; simpl; [done|].
  destruct (Ascii.eqb a c) eqn:E; [done|]. intros H. specialize (IH H).
  destruct (PyStr.rstrip_by p r) as [|b r'].
  - destruct (p a); simpl; [done|]. by rewrite E.
  - simpl in IH |- *. by rewrite E.
Qed.

Lemma strip_contains c s :
  PyStr.contains c s = false → PyStr.contains c (PyStr.strip s) = false.
Proof. intros H. by apply rstrip_by_contains, lstrip_contains. Qed.

Lemma replace_char_removes a b s :
  a ≠ b → PyStr.contains a (replace_char a b s) = false.
Proof.
  intros Hab. induction s as [|c r IH]; simpl; [done|].
  destruct (Ascii.eqb c a) eqn:E.
  - destruct (Ascii.eqb b a) eqn:Eb; [|done].
    apply Ascii.eqb_eq in Eb. congruence.
  - by rewrite E.
Qed.

Lemma replace_char_absent a b s :
  PyStr.contains a s = false → replace_char a b s = s.
Proof.
  induction s as [|c r IH]; simpl; [done|].
  destruct (Ascii.eqb c a); [done|]. intros H. by rewrite IH.
Qed.

(** The parts of a split are free of the separator, and of every character
    the string is free of. *)
Lemma split_parts_free c s p :
  In p (PyStr.split c s) → PyStr.contains c p = false.
Proof.
  revert p. induction s as [|a r IH]; simpl; intros p.
  - intros [<-|[]]. done.
  - destruct (Ascii.eqb a c) eqn:E.
    + intros [<-|H]; [done | by apply IH].
    + destruct (PyStr.split c r) as [|q qs] eqn:Es.
      * intros [<-|[]]. simpl. by rewrite E.
      * intros [<-|H].
        -- simpl. rewrite E. apply IH. by left.
        -- apply IH. by right.
Qed.

Lemma split_parts_absent c d s p :
  PyStr.contains d s = false →
  In p (PyStr.split c s) → PyStr.contains d p = false.
Proof.
  revert p. induction s as [|a r IH]; simpl; intros p.
  - intros _ [<-|[]]. done.
  - destruct (Ascii.eqb a d) eqn:Ed; [done|]. intros Hd.
    destruct (Ascii.eqb a c) eqn:E.
    + intros [<-|H]; [done | by apply IH].
    + destruct (PyStr.split c r) as [|q qs] eqn:Es.
      * intros [<-|[]]. simpl. by rewrite Ed.
      * intros [<-|H].
        -- simpl. rewrite Ed. apply IH; [done | by left].
        -- apply IH; [done | by right].
Qed.

Lemma split_absent c s : PyStr.contains c s = false → PyStr.split c s = [s].
Proof.
  induction s as [|a r IH]; simpl; [done|].
  destruct (Ascii.eqb a c); [done|]. intros H. by rewrite IH.
Qed.

Lemma split_app_sep c p t :
  PyStr.contains c p = false →
  PyStr.split c (p +:+ String c t) = p :: PyStr.split c t.
Proof.
  induction p as [|a r IH]; simpl.
  - by rewrite Ascii.eqb_refl.
  - destruct (Ascii.eqb a c); [done|]. intros H. by rewrite IH.
Qed.

Lemma split_join c parts :
  parts ≠ [] →
  Forall (λ p, PyStr.contains c p = false) parts →
  PyStr.split c (PyStr.join (String c EmptyString) parts) = parts.
Proof.
  intros Hne Hall. induction Hall as [|p ps Hp Hps IH]; [done|].
  destruct ps as [|q qs].
  - simpl. by apply split_absent.
  - change (PyStr.join (String c "") (p :: q :: qs))
      with (p +:+ String c (PyStr.join (String c "") (q :: qs))).
    rewrite split_app_sep by done. by rewrite IH.
Qed.

Lemma join_contains d sep parts :
  PyStr.contains d sep = false →
  Forall (λ p, PyStr.contains d p = false) parts →
  PyStr.contains d (PyStr.join sep parts) = false.
Proof.
  intros Hs Hall. induction Hall as [|p ps Hp Hps IH]; [done|].
  destruct ps as [|q qs]; [done|].
  change (PyStr.join sep (p :: q :: qs))
    with (p +:+ sep +:+ PyStr.join sep (q :: qs)).
  by rewrite !contains_app, Hp, Hs, IH.
Qed.

(** ** The repository list *)

Lemma split_once_inv c s k v :
  PyStr.split_once c s = Some (k, v) →
  s = k +:+ String c v ∧ PyStr.contains c k = false.
Proof.
  revert k. induction s as [|a r IH]; simpl; intros k; [done|].
  destruct (Ascii.eqb a c) eqn:E.
  - intros [= <- <-]. apply Ascii.eqb_eq in E. by subst.
  - destruct (PyStr.split_once c r) as [[k' v']|]; [|done].
    intros [= <- <-]. destruct (IH k' eq_refl) as [-> Hk].
    simpl. by rewrite E.
Qed.

Lemma normalize_repo_list_In raw r :
  In r (normalize_repo_list raw) →
  r ≠ "" ∧ PyStr.contains "/" r = true ∧
  ∃ p, r = PyStr.strip p ∧
       In p (PyStr.split "," (replace_char "010" "," raw)).
Proof.
  unfold normalize_repo_list. intros H.
  apply filter_In in H as [H Hc]. apply andb_true_iff in Hc as [Hne Hs].
  apply in_map_iff in H as (p & <- & Hp).
  split; [|split; [done | by exists p]].
  intros Hr. by rewrite Hr in Hne.
Qed.

(** X1: every entry that [normalize_repo_list] returns is non-empty, holds
    a slash, has no white space around it, and holds neither a comma nor a
    line break. *)
Theorem normalize_repo_list_entries (raw r : string) :
  In r (normalize_repo_list raw) →
  r ≠ "" ∧ PyStr.contains "/" r = true ∧ PyStr.strip r = r ∧
  PyStr.contains "," r = false ∧ PyStr.contains "010" r = false.
Proof.
  intros H. apply normalize_repo_list_In in H as (Hne & Hs & p & -> & Hp).
  repeat split; [done | done | apply strip_idem | |].
  - by eapply strip_contains, split_parts_free.
  - eapply strip_contains, split_parts_absent; [|exact Hp].
    by apply replace_char_removes.
Qed.

Lemma normalize_repo_list_entries_witness :
  PyStr.strip "octo/api" = "octo/api" ∧ PyStr.contains "," "octo/api" = false.
Proof.
  refine (let H := normalize_repo_list_entries
                     (" octo/api ," +:+ nl +:+ "docs, octo/web") "octo/api" _ in
          conj (proj1 (proj2 (proj2 H))) (proj1 (proj2 (proj2 (proj2 H))))).
  vm_compute. by left.
Defined.

Lemma normalize_repo_list_fixed (rs : list string) :
  Forall (λ r, r ≠ "" ∧ PyStr.contains "/" r = true ∧ PyStr.strip r = r ∧
               PyStr.contains "," r = false ∧ PyStr.contains "010" r = false) rs →
  normalize_repo_list (PyStr.join "," rs) = rs.
Proof.
  intros Hall. destruct rs as [|r0 rs0]; [done|].
  set (rs := r0 :: rs0) in *. unfold normalize_repo_list.
  rewrite replace_char_absent.
  2:{ apply join_contains; [done|].
      eapply Forall_impl; [exact Hall|]. by intros r (_ & _ & _ & _ & H). }
  rewrite split_join; [|done|].
  2:{ eapply Forall_impl; [exact Hall|]. by intros r (_ & _ & _ & H & _). }
  clearbody rs. induction Hall as [|r rs' (Hne & Hs & Hst & _) _ IH]; [done|].
  simpl. rewrite Hst, Hs, IH.
  destruct (String.eqb r "") eqn:E; [|done].
  apply String.eqb_eq in E. done.
Qed.

(** X2: writing the result of [normalize_repo_list] back as a
    comma-separated list and normalising that gives the same list: the
    result is in normal form. *)
Theorem normalize_repo_list_idempotent (raw : string) :
  normalize_repo_list (PyStr.join "," (normalize_repo_list raw)) =
  normalize_repo_list raw.
Proof.
  apply normalize_repo_list_fixed, Forall_forall.
  intros r Hr. apply list_elem_of_In in Hr.
  apply normalize_repo_list_In in Hr as (Hne & Hs & p & -> & Hp).
  repeat split; [done | done | apply strip_idem | |].
  - by eapply strip_contains, split_parts_free.
  - eapply strip_contains, split_parts_absent; [|exact Hp].
    by apply replace_char_removes.
Qed.

(** X3: [sync_repo] can unpack every entry of the normalised list into an
    owner and a repository name: the unpacking never raises, the owner is
    the text before the first slash and the name all the text after it. *)
Theorem normalized_entry_unpacks (raw r : string) :
  In r (normalize_repo_list raw) →
  ∃ owner repo, owner_and_repo r = Ok (owner, repo) ∧
                r = owner +:+ "/" +:+ repo ∧
                PyStr.contains "/" owner = false.
Proof.
  intros H. apply normalize_repo_list_In in H as (_ & Hs & _).
  rewrite contains_split_once in Hs. unfold owner_and_repo, PyStr.split1.
  destruct (PyStr.split_once "/" r) as [[owner repo]|] eqn:E; [|done].
  exists owner, repo. split; [done|]. by apply split_once_inv.
Qed.

Lemma normalized_entry_unpacks_witness :
  ∃ owner repo, owner_and_repo "octo/api" = Ok (owner, repo) ∧
                "octo/api" = owner +:+ "/" +:+ repo ∧
                PyStr.contains "/" owner = false.
Proof.
  apply (normalized_entry_unpacks (" octo/api ," +:+ nl +:+ "docs")).
  vm_compute. by left.
Defined.

(** ** The issue listing *)

(** X4: [gh_get_issues] returns only records of the pages it was sent,
    none of which is a pull request. *)
Theorem gh_get_issues_no_pull_request
    (pages : list (list (list (string * pyval)))) (it : list (string * pyval)) :
  In it (gh_get_issues pages) →
  dict_mem "pull_request" it = false ∧ ∃ batch, In batch pages ∧ In it batch.
Proof.
  induction pages as [|batch rest IH]; simpl; [done|].
  destruct batch as [|b0 bs]; [done|].
  set (batch := b0 :: bs). intros H. apply in_app_or in H as [H|H].
  - apply filter_In in H as [H Hc]. split.
    + by destruct (dict_mem "pull_request" it).
    + exists batch. split; [by left | done].
  - destruct (length batch <? 100)%nat; [done|].
    destruct (IH H) as (Hp & b & Hb & Hit).
    split; [done|]. exists b. split; [by right | done].
Qed.

Lemma gh_get_issues_no_pull_request_witness :
  dict_mem "pull_request" [("id", PInt 1)] = false.
Proof.
  refine (proj1 (gh_get_issues_no_pull_request
            [[ [("id", PInt 1)]; [("id", PInt 2); ("pull_request", PDict [])] ]]
            [("id", PInt 1)] _)).
  vm_compute. by left.
Defined.

(** X5: when every page before a short one is full, [gh_get_issues]
    returns the records of those pages and of the short one, in order and
    without the pull requests; whatever the source would answer for later
    pages plays no part. *)
Theorem gh_get_issues_stops_at_short_page
    (full : list (list (list (string * pyval))))
    (last : list (list (string * pyval)))
    (more : list (list (list (string * pyval)))) :
  Forall (λ batch, (100 ≤ length batch)%nat) full →
  (length last < 100)%nat →
  gh_get_issues (full ++ last :: more) =
  List.filter (λ it, negb (dict_mem "pull_request" it)) (concat (full ++ [last])).
Proof.
  intros Hfull Hlast. induction Hfull as [|batch full' Hb _ IH].
  - simpl. rewrite app_nil_r. destruct last as [|l0 ls]; [done|].
    apply Nat.ltb_lt in Hlast. rewrite Hlast. by rewrite app_nil_r.
  - change (gh_get_issues ((batch :: full') ++ last :: more))
      with (gh_get_issues (batch :: (full' ++ last :: more))).
    destruct batch as [|b0 bs]; [simpl in Hb; lia|].
    set (batch := b0 :: bs) in *.
    change (gh_get_issues (batch :: (full' ++ last :: more)))
      with (List.filter (λ it, negb (dict_mem "pull_request" it)) batch
            ++ (if (length batch <? 100)%nat then []
                else gh_get_issues (full' ++ last :: more))).
    assert (Hlt : (length batch <? 100)%nat = false) by (apply Nat.ltb_ge; lia).
    rewrite Hlt, IH.
    change (concat ((batch :: full') ++ [last]))
      with (batch ++ concat (full' ++ [last])).
    by rewrite List.filter_app.
Qed.

Lemma gh_get_issues_stops_at_short_page_witness :
  gh_get_issues ([] ++ [ [("id", PInt 1)]; [("pull_request", PDict [])] ]
                 :: [[ [("id", PInt 7)] ]]) =
  [ [("id", PInt 1)] ].
Proof.
  refine (gh_get_issues_stops_at_short_page []
            [ [("id", PInt 1)]; [("pull_request", PDict [])] ]
            [[ [("id", PInt 7)] ]] _ _).
  - constructor.
  - simpl. lia.
Defined.

(** ** The repository of an issue to import *)

(** X6: [build_repo_full] returns a name that holds a slash, or raises
    [ValueError]; it raises exactly when the field without its surrounding
    white space has no slash and no default owner is configured. *)
Theorem build_repo_full_result (repo_field : string) (default_owner : option string) :
  match GithubIssueImporter.build_repo_full repo_field default_owner with
  | Ok r =>
      PyStr.contains "/" r = true ∧
      (r = PyStr.strip repo_field ∨
       ∃ o, default_owner = Some o ∧ o ≠ "" ∧
            PyStr.contains "/" (PyStr.strip repo_field) = false ∧
            r = o +:+ "/" +:+ PyStr.strip repo_field)
  | Raise e =>
      e = ValueError ∧ PyStr.contains "/" (PyStr.strip repo_field) = false ∧
      (default_owner = None ∨ default_owner = Some "")
  end.
Proof.
  unfold GithubIssueImporter.build_repo_full.
  destruct (PyStr.contains "/" (PyStr.strip repo_field)) eqn:E; [by auto|].
  destruct default_owner as [o|]; [|by auto].
  rewrite truthy_str, negb_involutive.
  destruct (String.eqb o "") eqn:Eo.
  - apply String.eqb_eq in Eo. subst. by auto.
  - split.
    + rewrite contains_app. simpl. by rewrite orb_true_r.
    + right. exists o. repeat split; try done.
      intros ->. done.
Qed.

(** ** The payload, field by field *)

Lemma take_length n s : String.length (PyStr.take n s) = Nat.min n (String.length s).
Proof.
  revert s. induction n as [|n IH]; intros [|a r]; simpl; try done.
  by rewrite IH.
Qed.

Lemma take_prefix n s : String.prefix (PyStr.take n s) s = true.
Proof.
  revert s. induction n as [|n IH]; intros [|a r]; simpl; try done.
  destruct (ascii_dec a a); [apply IH | done].
Qed.

Lemma take_all n s : (String.length s ≤ n)%nat → PyStr.take n s = s.
Proof.
  revert s. induction n as [|n IH]; intros [|a r]; simpl; try done; [lia|].
  intros H. rewrite IH; [done | lia].
Qed.

Lemma slice_title issue t :
  str_or_missing (dict_get "title" issue) = true →
  Py.slice_to 200 (Py.get_or issue "title" (PStr "")) = Ok t →
  t = PStr (PyStr.take 200 (source_title issue)).
Proof.
  unfold Py.get_or, source_title.
  destruct (dict_get "title" issue) as [[]|]; simpl; try done; by intros _ [= <-].
Qed.

Lemma title_lookup S P M issue repo_full props :
  str_or_missing (dict_get "title" issue) = true →
  NotionSync.build_properties S P M issue = Ok props ∨
  IssueToNotion.build_properties S P M issue repo_full = Ok props →
  dict_get PROP_TITLE props =
  Some (title_value (PStr (PyStr.take 200 (source_title issue)))).
Proof.
  intros Ht [H|H]; build_steps H;
    match goal with
    | E : Py.slice_to _ _ = Ok _ |- _ => apply (slice_title _ _ Ht) in E; subst
    end;
    build_lookup PROP_TITLE; frame; apply dict_get_set_eq.
Qed.

Lemma py_eq_closed issue :
  Py.eq (Py.get_or issue "state" (PStr "open")) (PStr "closed") = is_closed issue.
Proof.
  unfold Py.get_or, is_closed.
  by destruct (dict_get "state" issue) as [[]|].
Qed.

Lemma status_lookup S P M issue repo_full props :
  NotionSync.build_properties S P M issue = Ok props ∨
  IssueToNotion.build_properties S P M issue repo_full = Ok props →
  dict_get PROP_STATUS props =
  Some (encoded_select S PROP_STATUS (status_name issue)).
Proof.
  intros [H|H]; build_steps H; build_lookup PROP_STATUS; frame;
    rewrite dict_update_single, dict_get_set_eq, py_eq_closed; reflexivity.
Qed.

Lemma multi_select_payload_if S p vs :
  NotionSync.multi_select_payload S p vs =
  if NotionSync.schema_is S p "multi_select"
  then Some [(p, multi_select_value vs)] else None.
Proof. unfold NotionSync.multi_select_payload. by destruct vs. Qed.

Lemma labels_layer_lookup S labels base :
  dict_get PROP_LABELS base = None →
  dict_get PROP_LABELS
    (when_some (NotionSync.multi_select_payload S PROP_LABELS labels)
       (λ d, when (Py.truthy (PDict d)) (λ p, dict_update p d)) base) =
  if NotionSync.schema_is S PROP_LABELS "multi_select"
  then Some (multi_select_value labels) else None.
Proof.
  intros Hb. rewrite multi_select_payload_if.
  destruct (NotionSync.schema_is S PROP_LABELS "multi_select"); [|done].
  unfold when_some, when. simpl Py.truthy. cbv iota.
  by rewrite dict_update_single, dict_get_set_eq.
Qed.

Lemma labels_lookup S P M issue repo_full props labels :
  label_names issue = Ok labels →
  NotionSync.build_properties S P M issue = Ok props ∨
  IssueToNotion.build_properties S P M issue repo_full = Ok props →
  dict_get PROP_LABELS props =
  if NotionSync.schema_is S PROP_LABELS "multi_select"
  then Some (multi_select_value labels) else None.
Proof.
  intros Hn [H|H]; build_steps H;
    match goal with
    | E : label_names issue = Ok _ |- _ => rewrite Hn in E; injection E as <-
    end;
    build_lookup PROP_LABELS; frame; rewrite ?multi_select_payload_same;
    apply labels_layer_lookup; frame; reflexivity.
Qed.

Lemma select_layer_lookup S k (o : option string) base :
  dict_get k base = None →
  dict_get k
    (when_some o (λ v p, dict_update p (NotionSync.select_payload S k v)) base) =
  encoded_select S k <$> o.
Proof.
  intros Hb. destruct o as [v|]; [|done]. simpl.
  by rewrite select_payload_single, dict_update_single, dict_get_set_eq.
Qed.

Lemma type_priority_lookup S P M issue repo_full props names :
  label_names issue = Ok (map PStr names) →
  NotionSync.build_properties S P M issue = Ok props ∨
  IssueToNotion.build_properties S P M issue repo_full = Ok props →
  dict_get PROP_TYPE props =
    encoded_select S PROP_TYPE <$> last_label_value "type" names ∧
  dict_get PROP_PRIORITY props =
    encoded_select S PROP_PRIORITY <$> last_label_value "priority" names.
Proof.
  destruct (parse_label_map_last_wins_aux names) as (m & Hm & Hget).
  intros Hn [H|H]; build_steps H;
    match goal with
    | E : label_names issue = Ok _ |- _ => rewrite Hn in E; injection E as <-
    end;
    match goal with
    | E : _ (map PStr names) = Ok ?m' |- _ =>
        change (NotionSync.parse_label_map (map PStr names) = Ok m') in E;
        rewrite Hm in E; injection E as <-
    end.
  all: split.
  all: match goal with
       | |- dict_get ?k _ = _ => build_lookup k; frame; rewrite <- Hget;
                                 apply select_layer_lookup; frame; reflexivity
       end.
Qed.

Lemma people_payload_value S P v :
  scalar_login v →
  NotionSync.people_payload S P PROP_ASSIGNEE v =
  Ok [(PROP_ASSIGNEE, assignee_value S P v)].
Proof.
  unfold NotionSync.people_payload, assignee_value, assignee_ids, login_text.
  intros [->|[a ->]]; destruct (NotionSync.schema_is S PROP_ASSIGNEE "people");
    try reflexivity.
  - rewrite truthy_str. destruct (String.eqb a ""); [done|].
    simpl. destruct (P !! a) as [i|]; [|done].
    by destruct (String.eqb i "").
  - unfold Py.or_else. rewrite truthy_str.
    destruct (String.eqb a "") eqn:E; [|done].
    apply String.eqb_eq in E. by subst.
Qed.

Ltac build_steps_raw H :=
  unfold NotionSync.build_properties, IssueToNotion.build_properties in H;
  cbv zeta in H;
  repeat inv_bind H.

Lemma assignee_lookup S P M issue repo_full props v :
  assignee_login issue = Ok v →
  scalar_login v →
  NotionSync.build_properties S P M issue = Ok props ∨
  (people_ids_non_empty P ∧
   IssueToNotion.build_properties S P M issue repo_full = Ok props) →
  dict_get PROP_ASSIGNEE props = Some (assignee_value S P v).
Proof.
  intros Hv Hs [H|[HP H]]; build_steps_raw H;
    match goal with
    | E : assignee_login issue = Ok _ |- _ => rewrite Hv in E; injection E as <-
    end;
    match goal with
    | E : _ S P PROP_ASSIGNEE v = Ok _ |- _ =>
        rewrite ?(people_payload_agree _ _ _ _ HP) in E;
        rewrite (people_payload_value _ _ _ Hs) in E; injection E as <-
    end;
    build_lookup PROP_ASSIGNEE; frame;
    by rewrite dict_update_single, dict_get_set_eq.
Qed.

Lemma append_empty_r s : s +:+ "" = s.
Proof. induction s as [|a r IH]; [done | exact (f_equal (String a) IH)]. Qed.

Lemma append_assoc_str s t u : (s +:+ t) +:+ u = s +:+ t +:+ u.
Proof. induction s as [|a r IH]; [done | exact (f_equal (String a) IH)]. Qed.

Lemma truthy_names names :
  Py.truthy (PList (map PStr names)) = match names with [] => false | _ => true end.
Proof. by destruct names. Qed.

Lemma or_else_body issue :
  str_or_null (dict_get "body" issue) = true →
  Py.or_else (Py.get issue "body") (PStr "") = PStr (source_body issue).
Proof.
  unfold Py.or_else, Py.get, source_body.
  destruct (dict_get "body" issue) as [[]|]; simpl; try done.
  intros _. destruct (String.eqb s "") eqn:E; [|done].
  apply String.eqb_eq in E. by subst.
Qed.

(** The first append to the notes. *)
Lemma labels_note_step S names base b x :
  dict_get PROP_BODY base = Some (rich_text (PStr b)) →
  whenR (negb (NotionSync.schema_is S PROP_LABELS "multi_select")
         && Py.truthy (PList (map PStr names)))
    (λ p, existing ← notes_content p;
          e ← Py.str_operand existing;
          names' ← mapR Py.str_operand (map PStr names);
          Ok (dict_set p PROP_BODY
                (rich_text (PStr (e +:+ nl +:+ nl +:+ "Labels: "
                                  +:+ PyStr.join ", " names'))))) base = Ok x →
  dict_get PROP_BODY x = Some (rich_text (PStr (b +:+ labels_note S names))).
Proof.
  intros Hb. unfold labels_note. rewrite truthy_names.
  destruct (negb (NotionSync.schema_is S PROP_LABELS "multi_select")
            && match names with [] => false | _ => true end); simpl.
  - rewrite (notes_content_lookup _ _ Hb). red_ok. simpl Py.str_operand. red_ok.
    rewrite mapR_str_operand. red_ok. intros [= <-].
    by rewrite dict_get_set_eq.
  - intros [= <-]. by rewrite append_empty_r.
Qed.

(** Whether the second append is made. *)
Lemma unmapped_value S P v u :
  scalar_login v →
  (if NotionSync.schema_is S PROP_ASSIGNEE "people" && Py.truthy v
   then o ← NotionSync.people_map_get P v;
        Ok (negb (NotionSync.is_Some_bool o))
   else Ok false) = Ok u →
  (u = true → ∃ a, v = PStr a) ∧
  assignee_note S P v =
    if u then nl +:+ nl +:+ "GitHub assignee: " +:+ login_text v else "".
Proof.
  unfold assignee_note.
  intros [->|[a ->]].
  - rewrite andb_false_r. intros [= <-]. by split.
  - rewrite truthy_str.
    destruct (NotionSync.schema_is S PROP_ASSIGNEE "people"); simpl;
      [|intros [= <-]; by split].
    destruct (String.eqb a ""); simpl; [intros [= <-]; by split|].
    intros [= <-]. split; [by eauto|].
    by destruct (P !! a).
Qed.

(** The second append to the notes. *)
Lemma assignee_note_step v (u : bool) base b props :
  (u = true → ∃ a, v = PStr a) →
  dict_get PROP_BODY base = Some (rich_text (PStr b)) →
  whenR u
    (λ p, existing ← notes_content p;
          e ← Py.str_operand existing;
          a ← Py.format v;
          Ok (dict_set p PROP_BODY
                (rich_text (PStr (e +:+ nl +:+ nl +:+ "GitHub assignee: " +:+ a)))))
    base = Ok props →
  dict_get PROP_BODY props =
  Some (rich_text (PStr (b +:+ (if u then nl +:+ nl +:+ "GitHub assignee: "
                                          +:+ login_text v else "")))).
Proof.
  intros Hu Hb. destruct u; simpl.
  - destruct (Hu eq_refl) as [a ->].
    rewrite (notes_content_lookup _ _ Hb). red_ok. simpl Py.str_operand. red_ok.
    simpl Py.format. red_ok. intros [= <-].
    by rewrite dict_get_set_eq.
  - intros [= <-]. by rewrite append_empty_r.
Qed.

Lemma notes_lookup S P M issue repo_full props names v :
  str_or_null (dict_get "body" issue) = true →
  label_names issue = Ok (map PStr names) →
  assignee_login issue = Ok v →
  scalar_login v →
  NotionSync.build_properties S P M issue = Ok props ∨
  IssueToNotion.build_properties S P M issue repo_full = Ok props →
  dict_get PROP_BODY props =
  Some (rich_text (PStr (source_body issue +:+ labels_note S names
                         +:+ assignee_note S P v))).
Proof.
  intros Hbody Hn Hv Hs [H|H]; build_steps H;
    rewrite (or_else_body _ Hbody) in *;
    repeat match goal with
    | E : label_names issue = Ok _ |- _ => rewrite Hn in E; injection E as <-
    | E : assignee_login issue = Ok _ |- _ => rewrite Hv in E; injection E as <-
    end;
    match goal with
    | El : whenR (negb _ && _) _ ?base = Ok ?x,
      Eu : (if _ then _ else Ok false) = Ok ?u |- _ =>
        rewrite ?unmapped_agree in Eu;
        apply (unmapped_value _ _ _ _ Hs) in Eu as [Hu ->];
        apply (labels_note_step S names base (source_body issue)) in El;
        [ apply (assignee_note_step _ _ _ _ _ Hu El) in H;
          by rewrite H, append_assoc_str
        | frame; apply dict_get_set_eq ]
    end.
Qed.

(** *** The repository and the project *)

Lemma repo_project_lookup_sweep S P M issue props r :
  NotionSync.repo_full_of_issue issue = Ok r →
  NotionSync.build_properties S P M issue = Ok props →
  dict_get PROP_REPO props = Some (encoded_select S PROP_REPO (short_name r)) ∧
  dict_get PROP_PROJECT props =
    Some (encoded_select S PROP_PROJECT
            (NotionSync.resolve_project_name_from_repo M (short_name r))).
Proof.
  intros Hr H. build_steps H.
  match goal with
  | E : NotionSync.repo_full_of_issue issue = Ok _ |- _ =>
      rewrite Hr in E; injection E as <-
  end.
  split.
  - build_lookup PROP_REPO. frame. by rewrite dict_update_single, dict_get_set_eq.
  - build_lookup PROP_PROJECT. frame. by rewrite dict_update_single, dict_get_set_eq.
Qed.

Lemma repo_project_lookup_webhook S P M issue repo_full props :
  IssueToNotion.build_properties S P M issue repo_full = Ok props →
  dict_get PROP_REPO props =
    Some (encoded_select S PROP_REPO (short_name repo_full)) ∧
  dict_get PROP_PROJECT props =
    Some (encoded_select S PROP_PROJECT
            (NotionSync.resolve_project_name_from_repo M (short_name repo_full))).
Proof.
  intros H. build_steps H. split.
  - build_lookup PROP_REPO. frame. by rewrite dict_update_single, dict_get_set_eq.
  - build_lookup PROP_PROJECT. frame.
    by rewrite dict_update_single, dict_get_set_eq, resolve_project_same.
Qed.

Lemma split_not_nil c s : PyStr.split c s ≠ [].
Proof.
  destruct s as [|a r]; simpl; [done|].
  destruct (Ascii.eqb a c); [done|]. by destruct (PyStr.split c r).
Qed.

Lemma split_app_any c p t :
  PyStr.split c (p +:+ String c t) = PyStr.split c p ++ PyStr.split c t.
Proof.
  induction p as [|a r IH].
  - simpl. by rewrite Ascii.eqb_refl.
  - change (String a r +:+ String c t) with (String a (r +:+ String c t)).
    simpl. destruct (Ascii.eqb a c); rewrite IH; [done|].
    pose proof (split_not_nil c r). by destruct (PyStr.split c r).
Qed.

Lemma rstrip_by_cons p a r :
  PyStr.rstrip_by p (String a r) =
  match PyStr.rstrip_by p r with
  | EmptyString => if p a then EmptyString else String a EmptyString
  | r' => String a r'
  end.
Proof. reflexivity. Qed.

Lemma rstrip_slashes n : PyStr.rstrip_char "/" (slashes n) = "".
Proof.
  unfold PyStr.rstrip_char. induction n as [|n IH]; simpl; [done|].
  by rewrite IH.
Qed.

Lemma rstrip_char_name name n :
  PyStr.contains "/" name = false →
  PyStr.rstrip_char "/" (name +:+ slashes n) = name.
Proof.
  unfold PyStr.rstrip_char. induction name as [|a r IH]; intros H.
  - apply rstrip_slashes.
  - change (String a r +:+ slashes n) with (String a (r +:+ slashes n)).
    simpl in H. destruct (Ascii.eqb a "/") eqn:E; [done|].
    rewrite rstrip_by_cons, (IH H), eqb_sym, E. by destruct r.
Qed.

Lemma rstrip_char_url pre name n :
  name ≠ "" →
  PyStr.contains "/" name = false →
  PyStr.rstrip_char "/" (pre +:+ name +:+ slashes n) = pre +:+ name.
Proof.
  intros Hne Hs. induction pre as [|a r IH].
  - by apply rstrip_char_name.
  - change (String a r +:+ name +:+ slashes n)
      with (String a (r +:+ name +:+ slashes n)).
    unfold PyStr.rstrip_char in *. rewrite rstrip_by_cons, IH.
    change (String a r +:+ name) with (String a (r +:+ name)).
    destruct r; [by destruct name | done].
Qed.

Lemma short_name_owner owner name :
  PyStr.contains "/" owner = false →
  short_name (owner +:+ "/" +:+ name) = name.
Proof.
  intros H. unfold short_name, PyStr.split1.
  change ("/" +:+ name) with (String "/" name).
  rewrite contains_app, (split_once_app _ _ _ H). simpl.
  by rewrite orb_true_r.
Qed.

Lemma short_name_plain name : PyStr.contains "/" name = false → short_name name = name.
Proof. unfold short_name. by intros ->. Qed.

(** The repository of an issue whose [repository_url] ends in
    [/owner/name], whatever slashes follow. *)
Lemma repo_full_of_url issue base owner name n :
  dict_get "repository_url" issue =
    Some (PStr (base +:+ "/" +:+ owner +:+ "/" +:+ name +:+ slashes n)) →
  PyStr.contains "/" owner = false →
  PyStr.contains "/" name = false →
  name ≠ "" →
  NotionSync.repo_full_of_issue issue = Ok (owner +:+ "/" +:+ name).
Proof.
  intros Hu Ho Hn Hne. unfold NotionSync.repo_full_of_issue, Py.get_or.
  rewrite Hu. simpl default.
  assert (Hnz : Py.truthy (PStr (base +:+ "/" +:+ owner +:+ "/" +:+ name +:+ slashes n))
                = true) by (rewrite truthy_str; by destruct base).
  rewrite Hnz. simpl Py.as_str. red_ok.
  replace (base +:+ "/" +:+ owner +:+ "/" +:+ name +:+ slashes n)
    with ((base +:+ "/" +:+ owner +:+ "/") +:+ name +:+ slashes n)
    by (by rewrite !append_assoc_str).
  rewrite rstrip_char_url by done.
  rewrite !append_assoc_str.
  change ("/" +:+ owner +:+ "/" +:+ name) with (String "/" (owner +:+ String "/" name)).
  rewrite split_app_any, split_app_any, (split_absent _ _ Ho), (split_absent _ _ Hn).
  rewrite length_app, rev_app_distr. simpl rev. simpl length.
  replace (2 <=? length (PyStr.split "/" base) + 2)%nat with true
    by (symmetry; apply Nat.leb_le; lia).
  reflexivity.
Qed.

Lemma repo_full_unknown issue :
  match dict_get "repository_url" issue with
  | None | Some PNone => true
  | Some (PStr u) => negb (PyStr.contains "/" (PyStr.rstrip_char "/" u))
  | _ => false
  end = true →
  NotionSync.repo_full_of_issue issue = Ok "unknown/unknown".
Proof.
  unfold NotionSync.repo_full_of_issue, Py.get_or.
  destruct (dict_get "repository_url" issue) as [[| | |u| |]|]; simpl default;
    try done.
  intros H. apply negb_true_iff in H.
  destruct (Py.truthy (PStr u)); [|done]. simpl Py.as_str. red_ok.
  by rewrite (split_absent _ _ H).
Qed.

(** *** The keys of a payload *)

(** [frame] for a key that is none of the fourteen property names. *)
Ltac frame_other :=
  repeat first
    [ rewrite select_payload_same
    | rewrite select_payload_single
    | rewrite dict_get_set_ne by assumption
    | rewrite dict_get_update_single_ne by assumption
    | rewrite dict_get_when_frame by (intros; frame_other; reflexivity)
    | rewrite dict_get_when_some_frame
        by (intros; frame_opt; frame_other; reflexivity) ].

Ltac frame_notes_other k H :=
  apply (whenR_frame k) in H;
  [ | let p := fresh in let p' := fresh in let Hp := fresh in
      intros p p' Hp; repeat inv_bind Hp; injection Hp as <-;
      by rewrite dict_get_set_ne by assumption ].

Lemma payload_keys_within S P M issue repo_full props k :
  NotionSync.build_properties S P M issue = Ok props ∨
  IssueToNotion.build_properties S P M issue repo_full = Ok props →
  dict_get k props ≠ None → In k payload_properties.
Proof.
  intros H Hk.
  destruct (in_dec string_dec k payload_properties) as [|Hn]; [done|].
  exfalso. apply Hk. clear Hk.
  assert (k ≠ PROP_TITLE ∧ k ≠ PROP_GH_ID ∧ k ≠ PROP_REPO ∧ k ≠ PROP_PROJECT ∧
          k ≠ PROP_ISSUE_URL ∧ k ≠ PROP_STATUS ∧ k ≠ PROP_LABELS ∧ k ≠ PROP_TYPE ∧
          k ≠ PROP_PRIORITY ∧ k ≠ PROP_SPRINT ∧ k ≠ PROP_ASSIGNEE ∧ k ≠ PROP_BODY ∧
          k ≠ PROP_CREATED ∧ k ≠ PROP_UPDATED)
    as (?&?&?&?&?&?&?&?&?&?&?&?&?&?).
  { repeat split; intros ->; apply Hn; simpl; tauto. }
  clear Hn.
  destruct H as [H|H]; build_steps H;
    repeat match goal with
      | E : whenR _ _ _ = Ok _ |- _ => frame_notes_other k E
      end;
    repeat match goal with
      | E : dict_get k ?a = dict_get k _ |- context [dict_get k ?a] =>
          rewrite E; clear E
      end;
    frame_other; reflexivity.
Qed.

Lemma whenR_body c (f : list (string * pyval) → result (list (string * pyval))) p0 p1 :
  (∀ p p', f p = Ok p' → dict_get PROP_BODY p' ≠ None) →
  dict_get PROP_BODY p0 ≠ None →
  whenR c f p0 = Ok p1 → dict_get PROP_BODY p1 ≠ None.
Proof. intros Hf H0. destruct c; simpl; [apply Hf | by intros [= <-]]. Qed.

Ltac notes_present H :=
  apply whenR_body in H;
  [ exact H
  | let p := fresh in let p' := fresh in let Hp := fresh in
    intros p p' Hp; repeat inv_bind Hp; injection Hp as <-;
    by rewrite dict_get_set_eq
  | ].

Lemma payload_keys_fixed S P M issue repo_full props k :
  NotionSync.build_properties S P M issue = Ok props ∨
  IssueToNotion.build_properties S P M issue repo_full = Ok props →
  In k fixed_properties → dict_get k props ≠ None.
Proof.
  intros H Hk. unfold fixed_properties, In in Hk.
  destruct H as [H|H]; build_steps H;
    repeat destruct Hk as [<-|Hk]; try done;
    try match goal with
    | |- dict_get PROP_BODY _ ≠ None =>
        notes_present H;
        match goal with
        | E : whenR _ _ _ = Ok _ |- _ => notes_present E
        end;
        frame; by rewrite dict_get_set_eq
    end;
    match goal with
    | |- dict_get ?k _ ≠ None =>
        build_lookup k; frame;
        by rewrite ?dict_update_single, dict_get_set_eq
    end.
Qed.

(** *** The project of a repository *)

Lemma dict_get_In {V} k (d : list (string * V)) v : dict_get k d = Some v → In (k, v) d.
Proof.
  induction d as [|[k' v'] r IH]; simpl; [done|].
  destruct (String.eqb k' k) eqn:E.
  - intros [= ->]. apply String.eqb_eq in E. subst. by left.
  - intros H. right. by apply IH.
Qed.

Lemma project_scan_found short M v :
  NotionSync.project_scan short M = Some v →
  ∃ k, In (k, v) M ∧ PyStr.lower k = PyStr.lower short.
Proof.
  induction M as [|[k w] r IH]; simpl; [done|].
  destruct (String.eqb (PyStr.lower k) (PyStr.lower short)) eqn:E.
  - intros [= ->]. apply String.eqb_eq in E. exists k. split; [by left | done].
  - intros H. destruct (IH H) as (k' & Hin & Hl). exists k'. split; [by right | done].
Qed.

Lemma project_scan_none short M :
  NotionSync.project_scan short M = None →
  ∀ k v, In (k, v) M → PyStr.lower k ≠ PyStr.lower short.
Proof.
  induction M as [|[k w] r IH]; simpl; [done|].
  destruct (String.eqb (PyStr.lower k) (PyStr.lower short)) eqn:E; [done|].
  intros H k' v' [[= <- <-]|Hin].
  - intros Heq. rewrite Heq, String.eqb_refl in E. done.
  - by eapply IH.
Qed.

(** ** What a payload holds *)

(** X7: the project of a repository is the value [PROJECT_MAP] holds for
    the short name when it has that key exactly; otherwise the value of a
    key that equals the short name up to letter case; and ["All"] only when
    no key does.  The webhook tool resolves it to the same value. *)
Theorem project_is_mapped_or_default (M : list (string * string)) (repo_full : string) :
  IssueToNotion.resolve_project M repo_full =
    NotionSync.resolve_project_name_from_repo M repo_full ∧
  (∀ w, dict_get (short_name repo_full) M = Some w →
        NotionSync.resolve_project_name_from_repo M repo_full = w) ∧
  ((∃ k, In (k, NotionSync.resolve_project_name_from_repo M repo_full) M ∧
         PyStr.lower k = PyStr.lower (short_name repo_full)) ∨
   (NotionSync.resolve_project_name_from_repo M repo_full = "All" ∧
    ∀ k w, In (k, w) M → PyStr.lower k ≠ PyStr.lower (short_name repo_full))).
Proof.
  split; [apply resolve_project_same|].
  unfold NotionSync.resolve_project_name_from_repo.
  destruct (dict_get (short_name repo_full) M) as [w|] eqn:E.
  - split; [by intros ? [= <-]|]. left. exists (short_name repo_full).
    split; [by apply dict_get_In | done].
  - split; [done|].
    destruct (NotionSync.project_scan (short_name repo_full) M) as [v|] eqn:Es; simpl.
    + left. by apply project_scan_found.
    + right. split; [done|]. by apply project_scan_none.
Qed.

(** X8: when the title of the source record is a string or missing, the
    payload holds under [Task] its first 200 characters: a prefix of the
    title, of the length of the title or 200, whichever is smaller (the
    empty text when the record has no title); a title of at most 200
    characters is stored as it is. *)
Theorem title_is_first_200_characters
    (S P : gmap string string) (M : list (string * string))
    (issue : list (string * pyval)) (repo_full : string)
    (props : list (string * pyval)) :
  str_or_missing (dict_get "title" issue) = true →
  NotionSync.build_properties S P M issue = Ok props ∨
  IssueToNotion.build_properties S P M issue repo_full = Ok props →
  dict_get PROP_TITLE props =
    Some (title_value (PStr (PyStr.take 200 (source_title issue)))) ∧
  String.length (PyStr.take 200 (source_title issue)) =
    Nat.min 200 (String.length (source_title issue)) ∧
  String.prefix (PyStr.take 200 (source_title issue)) (source_title issue) = true ∧
  ((String.length (source_title issue) ≤ 200)%nat →
   PyStr.take 200 (source_title issue) = source_title issue).
Proof.
  intros Ht H. split; [by eapply title_lookup|].
  split; [apply take_length|]. split; [apply take_prefix | apply take_all].
Qed.

Lemma title_is_first_200_characters_witness :
  let issue := [("id", PInt 101); ("title", PStr "Fix crash")] in
  ∃ props, NotionSync.build_properties ∅ ∅ [] issue = Ok props ∧
           dict_get PROP_TITLE props = Some (title_value (PStr "Fix crash")).
Proof.
  intros issue. eexists. split; [vm_compute; reflexivity|].
  refine (proj1 (title_is_first_200_characters ∅ ∅ [] issue "o/r" _ _ _));
    [reflexivity | left; vm_compute; reflexivity].
Defined.

(** X9: the payload holds under [Status] the encoding of ["Done"] when the
    [state] of the source record is the string ["closed"], and of
    ["Backlog"] for any other state, a missing one included. *)
Theorem status_is_done_exactly_when_closed
    (S P : gmap string string) (M : list (string * string))
    (issue : list (string * pyval)) (repo_full : string)
    (props : list (string * pyval)) :
  NotionSync.build_properties S P M issue = Ok props ∨
  IssueToNotion.build_properties S P M issue repo_full = Ok props →
  dict_get PROP_STATUS props =
    Some (encoded_select S PROP_STATUS (status_name issue)) ∧
  (status_name issue = "Done" ↔ dict_get "state" issue = Some (PStr "closed")) ∧
  (status_name issue ≠ "Done" → status_name issue = "Backlog").
Proof.
  intros H. split; [by eapply status_lookup|].
  unfold status_name, is_closed.
  destruct (dict_get "state" issue) as [[| | |s| |]|];
    try (split; [split; discriminate | done]).
  destruct (String.eqb s "closed") eqn:E.
  - apply String.eqb_eq in E. subst. by split.
  - split; [|done]. split; [done|]. intros [= ->]. done.
Qed.

Lemma status_is_done_exactly_when_closed_witness :
  let S : gmap string string := {[ PROP_STATUS := "select" ]} in
  let issue := [("id", PInt 101); ("title", PStr "Fix crash");
                ("state", PStr "closed")] in
  ∃ props, IssueToNotion.build_properties S ∅ [] issue "o/r" = Ok props ∧
           dict_get PROP_STATUS props = Some (select_value (PStr "Done")).
Proof.
  intros S issue. eexists. split; [vm_compute; reflexivity|].
  refine (proj1 (status_is_done_exactly_when_closed S ∅ [] issue "o/r" _ _)).
  right. vm_compute. reflexivity.
Defined.

(** X10: when the label names of the source record are strings, the
    payload holds under [Type] and under [Priority] the encoding of the
    value of the last label whose lowercased text before its first colon
    is ["type"], respectively ["priority"], and it holds no such key when
    no label has that form. *)
Theorem type_and_priority_follow_last_label
    (S P : gmap string string) (M : list (string * string))
    (issue : list (string * pyval)) (repo_full : string)
    (props : list (string * pyval)) (names : list string) :
  label_names issue = Ok (map PStr names) →
  NotionSync.build_properties S P M issue = Ok props ∨
  IssueToNotion.build_properties S P M issue repo_full = Ok props →
  dict_get PROP_TYPE props =
    encoded_select S PROP_TYPE <$> last_label_value "type" names ∧
  dict_get PROP_PRIORITY props =
    encoded_select S PROP_PRIORITY <$> last_label_value "priority" names.
Proof. apply type_priority_lookup. Qed.

Lemma type_and_priority_follow_last_label_witness :
  let S : gmap string string := {[ PROP_TYPE := "select" ]} in
  let issue :=
    [("id", PInt 101); ("title", PStr "Fix crash");
     ("labels", PList [PDict [("name", PStr "type:bug")];
                       PDict [("name", PStr "Type:feature")]])] in
  ∃ props, NotionSync.build_properties S ∅ [] issue = Ok props ∧
           dict_get PROP_TYPE props = Some (select_value (PStr "feature")) ∧
           dict_get PROP_PRIORITY props = None.
Proof.
  intros S issue. eexists. split; [vm_compute; reflexivity|].
  refine (type_and_priority_follow_last_label S ∅ [] issue "o/r" _
            ["type:bug"; "Type:feature"] _ _);
    [reflexivity | left; vm_compute; reflexivity].
Defined.

(** X11: the payload holds the labels of the source record under [Labels],
    all of them and in the order of the source, when the destination
    declares [Labels] as a multi-valued choice; under any other kind it
    holds no [Labels] key at all. *)
Theorem labels_are_stored_only_as_multi_select
    (S P : gmap string string) (M : list (string * string))
    (issue : list (string * pyval)) (repo_full : string)
    (props : list (string * pyval)) (labels : list pyval) :
  label_names issue = Ok labels →
  NotionSync.build_properties S P M issue = Ok props ∨
  IssueToNotion.build_properties S P M issue repo_full = Ok props →
  dict_get PROP_LABELS props =
  if NotionSync.schema_is S PROP_LABELS "multi_select"
  then Some (multi_select_value labels) else None.
Proof. apply labels_lookup. Qed.

Lemma labels_are_stored_only_as_multi_select_witness :
  let S : gmap string string := {[ PROP_LABELS := "select" ]} in
  let issue :=
    [("id", PInt 101); ("title", PStr "Fix crash");
     ("labels", PList [PDict [("name", PStr "bug")]; PDict [("name", PStr "ui")]])] in
  ∃ props, IssueToNotion.build_properties S ∅ [] issue "o/r" = Ok props ∧
           dict_get PROP_LABELS props = None.
Proof.
  intros S issue. eexists. split; [vm_compute; reflexivity|].
  refine (labels_are_stored_only_as_multi_select S ∅ [] issue "o/r" _
            [PStr "bug"; PStr "ui"] _ _);
    [reflexivity | right; vm_compute; reflexivity].
Defined.

(** X12: for an assignee login that is [None] or a string, the payload
    holds under [Assigned To]: when the destination declares the property
    as people, the list of the one user the people map gives for a
    non-empty login, and the empty list when the login is empty or has no
    user with a non-empty id; under any other kind, the login as text.  The
    webhook tool does so when no login is mapped to an empty id. *)
Theorem assignee_is_stored_by_kind
    (S P : gmap string string) (M : list (string * string))
    (issue : list (string * pyval)) (repo_full : string)
    (props : list (string * pyval)) (gh_assignee : pyval) :
  assignee_login issue = Ok gh_assignee →
  scalar_login gh_assignee →
  NotionSync.build_properties S P M issue = Ok props ∨
  (people_ids_non_empty P ∧
   IssueToNotion.build_properties S P M issue repo_full = Ok props) →
  dict_get PROP_ASSIGNEE props = Some (assignee_value S P gh_assignee).
Proof. apply assignee_lookup. Qed.

Lemma assignee_is_stored_by_kind_witness :
  let S : gmap string string := {[ PROP_ASSIGNEE := "people" ]} in
  let P : gmap string string := {[ "octocat" := "user-1" ]} in
  let issue :=
    [("id", PInt 101); ("title", PStr "Fix crash");
     ("assignee", PDict [("login", PStr "octocat")])] in
  ∃ props, NotionSync.build_properties S P [] issue = Ok props ∧
           dict_get PROP_ASSIGNEE props = Some (people_value [PStr "user-1"]).
Proof.
  intros S P issue. eexists. split; [vm_compute; reflexivity|].
  refine (assignee_is_stored_by_kind S P [] issue "o/r" _ (PStr "octocat") _ _ _);
    [reflexivity | right; by eexists | left; vm_compute; reflexivity].
Defined.

(** X13: for a source record whose body is a string or [None], whose label
    names are strings and whose assignee login is [None] or a string, the
    payload holds under [Notes] one text: the body, then a line listing the
    labels when there are labels and the destination does not declare
    [Labels] as a multi-valued choice, then a line naming the assignee when
    the destination declares [Assigned To] as people and the non-empty
    login is not in the people map. *)
Theorem notes_hold_body_and_unstored_fields
    (S P : gmap string string) (M : list (string * string))
    (issue : list (string * pyval)) (repo_full : string)
    (props : list (string * pyval)) (names : list string) (gh_assignee : pyval) :
  str_or_null (dict_get "body" issue) = true →
  label_names issue = Ok (map PStr names) →
  assignee_login issue = Ok gh_assignee →
  scalar_login gh_assignee →
  NotionSync.build_properties S P M issue = Ok props ∨
  IssueToNotion.build_properties S P M issue repo_full = Ok props →
  dict_get PROP_BODY props =
  Some (rich_text (PStr (source_body issue +:+ labels_note S names
                         +:+ assignee_note S P gh_assignee))).
Proof. apply notes_lookup. Qed.

Lemma notes_hold_body_and_unstored_fields_witness :
  let S : gmap string string := {[ PROP_ASSIGNEE := "people" ]} in
  let issue :=
    [("id", PInt 101); ("title", PStr "Fix crash"); ("body", PStr "Steps")
     ; ("labels", PList [PDict [("name", PStr "bug")]; PDict [("name", PStr "ui")]])
     ; ("assignee", PDict [("login", PStr "octocat")])] in
  ∃ props, NotionSync.build_properties S ∅ [] issue = Ok props ∧
           dict_get PROP_BODY props =
           Some (rich_text (PStr ("Steps" +:+ nl +:+ nl +:+ "Labels: bug, ui"
                                  +:+ nl +:+ nl +:+ "GitHub assignee: octocat"))).
Proof.
  intros S issue. eexists. split; [vm_compute; reflexivity|].
  refine (notes_hold_body_and_unstored_fields S ∅ [] issue "o/r" _
            ["bug"; "ui"] (PStr "octocat") _ _ _ _ _);
    [reflexivity | reflexivity | reflexivity | right; by eexists
    | left; vm_compute; reflexivity].
Defined.

(** X14: when the [repository_url] of the source record ends in
    [/owner/name], followed by any number of slashes, the sweep stores
    [name] under [Repo] and the project resolved from [name] under
    [Project]. *)
Theorem repo_is_last_segment_of_url
    (S P : gmap string string) (M : list (string * string))
    (issue props : list (string * pyval)) (base owner name : string) (n : nat) :
  dict_get "repository_url" issue =
    Some (PStr (base +:+ "/" +:+ owner +:+ "/" +:+ name +:+ slashes n)) →
  PyStr.contains "/" owner = false →
  PyStr.contains "/" name = false →
  name ≠ "" →
  NotionSync.build_properties S P M issue = Ok props →
  dict_get PROP_REPO props = Some (encoded_select S PROP_REPO name) ∧
  dict_get PROP_PROJECT props =
    Some (encoded_select S PROP_PROJECT
            (NotionSync.resolve_project_name_from_repo M name)).
Proof.
  intros Hu Ho Hn Hne H.
  pose proof (repo_full_of_url _ _ _ _ _ Hu Ho Hn Hne) as Hr.
  destruct (repo_project_lookup_sweep _ _ _ _ _ _ Hr H) as [H1 H2].
  by rewrite (short_name_owner _ _ Ho) in H1, H2.
Qed.

Lemma repo_is_last_segment_of_url_witness :
  let S : gmap string string := {[ PROP_REPO := "select" ]} in
  let issue :=
    [("id", PInt 101); ("title", PStr "Fix crash");
     ("repository_url",
      PStr ("https://api.github.com/repos" +:+ "/" +:+ "octo" +:+ "/" +:+ "api"
            +:+ slashes 1))] in
  ∃ props, NotionSync.build_properties S ∅ [("API", "Platform")] issue = Ok props ∧
           dict_get PROP_REPO props = Some (select_value (PStr "api")) ∧
           dict_get PROP_PROJECT props = Some (rich_text (PStr "Platform")).
Proof.
  intros S issue. eexists. split; [vm_compute; reflexivity|].
  refine (repo_is_last_segment_of_url S ∅ [("API", "Platform")] issue _
            "https://api.github.com/repos" "octo" "api" 1 _ _ _ _ _);
    [reflexivity | reflexivity | reflexivity | discriminate
    | vm_compute; reflexivity].
Defined.

(** X15: when the source record has no [repository_url], a [None] one, or
    one without a slash once its trailing slashes are removed, the sweep
    stores ["unknown"] under [Repo] and resolves the project from
    ["unknown"]. *)
Theorem repo_is_unknown_without_url
    (S P : gmap string string) (M : list (string * string))
    (issue props : list (string * pyval)) :
  match dict_get "repository_url" issue with
  | None | Some PNone => true
  | Some (PStr u) => negb (PyStr.contains "/" (PyStr.rstrip_char "/" u))
  | _ => false
  end = true →
  NotionSync.build_properties S P M issue = Ok props →
  dict_get PROP_REPO props = Some (encoded_select S PROP_REPO "unknown") ∧
  dict_get PROP_PROJECT props =
    Some (encoded_select S PROP_PROJECT
            (NotionSync.resolve_project_name_from_repo M "unknown")).
Proof.
  intros Hu H.
  exact (repo_project_lookup_sweep _ _ _ _ _ _ (repo_full_unknown _ Hu) H).
Qed.

Lemma repo_is_unknown_without_url_witness :
  let issue := [("id", PInt 101); ("title", PStr "Fix crash");
                ("repository_url", PStr "octo//")] in
  ∃ props, NotionSync.build_properties ∅ ∅ [] issue = Ok props ∧
           dict_get PROP_REPO props = Some (rich_text (PStr "unknown")) ∧
           dict_get PROP_PROJECT props = Some (rich_text (PStr "All")).
Proof.
  intros issue. eexists. split; [vm_compute; reflexivity|].
  refine (repo_is_unknown_without_url ∅ ∅ [] issue _ _ _);
    [reflexivity | vm_compute; reflexivity].
Defined.

(** X16: the webhook tool stores under [Repo] the repository it was
    started for without its owner: all the text after the first slash of
    [owner/name], or the whole argument when it holds no slash; the project
    is resolved from that text. *)
Theorem webhook_repo_is_argument_without_owner
    (S P : gmap string string) (M : list (string * string))
    (issue props : list (string * pyval)) (repo_full owner name : string) :
  (repo_full = owner +:+ "/" +:+ name ∧ PyStr.contains "/" owner = false) ∨
  (repo_full = name ∧ PyStr.contains "/" name = false) →
  IssueToNotion.build_properties S P M issue repo_full = Ok props →
  dict_get PROP_REPO props = Some (encoded_select S PROP_REPO name) ∧
  dict_get PROP_PROJECT props =
    Some (encoded_select S PROP_PROJECT
            (NotionSync.resolve_project_name_from_repo M name)).
Proof.
  intros Hr H. apply repo_project_lookup_webhook in H.
  destruct Hr as [[-> Ho]|[-> Hn]].
  - by rewrite (short_name_owner _ _ Ho) in H.
  - by rewrite (short_name_plain _ Hn) in H.
Qed.

Lemma webhook_repo_is_argument_without_owner_witness :
  let issue := [("id", PInt 101); ("title", PStr "Fix crash")] in
  ∃ props, IssueToNotion.build_properties ∅ ∅ [] issue ("octo" +:+ "/" +:+ "api")
             = Ok props ∧
           dict_get PROP_REPO props = Some (rich_text (PStr "api")).
Proof.
  intros issue. eexists. split; [vm_compute; reflexivity|].
  refine (proj1 (webhook_repo_is_argument_without_owner ∅ ∅ [] issue _
                   ("octo" +:+ "/" +:+ "api") "octo" "api" _ _));
    [left; by split | vm_compute; reflexivity].
Defined.

(** X17: a payload holds no key besides the fourteen property names, and
    it always holds [Task], [GitHub ID], [Repo], [Project], [GitHub Link],
    [Status], [Assigned To] and [Notes]. *)
Theorem payload_keys_are_the_declared_properties
    (S P : gmap string string) (M : list (string * string))
    (issue : list (string * pyval)) (repo_full : string)
    (props : list (string * pyval)) :
  NotionSync.build_properties S P M issue = Ok props ∨
  IssueToNotion.build_properties S P M issue repo_full = Ok props →
  (∀ k, dict_get k props ≠ None → In k payload_properties) ∧
  (∀ k, In k fixed_properties → dict_get k props ≠ None).
Proof.
  intros H. split; intros k.
  - by eapply payload_keys_within.
  - by eapply payload_keys_fixed.
Qed.

Lemma payload_keys_are_the_declared_properties_witness :
  let issue := [("id", PInt 101); ("title", PStr "Fix crash");
                ("extra", PStr "ignored")] in
  ∃ props, NotionSync.build_properties ∅ ∅ [] issue = Ok props ∧
           (∀ k, dict_get k props ≠ None → In k payload_properties) ∧
           (∀ k, In k fixed_properties → dict_get k props ≠ None).
Proof.
  intros issue. eexists. split; [vm_compute; reflexivity|].
  apply (payload_keys_are_the_declared_properties ∅ ∅ [] issue "o/r").
  left. vm_compute. reflexivity.
Defined.

(** ** Reading a payload back *)

Lemma vget_dict d k dflt :
  Py.vget (PDict d) k dflt = Ok (default dflt (dict_get k d)).
Proof. reflexivity. Qed.

Lemma select_name_lookup np p dflt :
  select_name (PDict np) p dflt =
  match dict_get p np with
  | Some a => s ← Py.vget a "select" (PDict []); Py.vget s "name" dflt
  | None => Ok dflt
  end.
Proof.
  unfold select_name. rewrite vget_dict.
  by destruct (dict_get p np).
Qed.

Lemma select_name_encoded S np p v dflt :
  dict_get p np = Some (encoded_select S p v) →
  select_name (PDict np) p dflt =
  Ok (if NotionSync.schema_is S p "select" then PStr v else dflt).
Proof.
  intros H. rewrite select_name_lookup, H. unfold encoded_select.
  destruct (NotionSync.schema_is S p "select"); [done|].
  by destruct (NotionSync.schema_is S p "multi_select").
Qed.

Lemma select_name_encoded_opt S np p (o : option string) :
  dict_get p np = encoded_select S p <$> o →
  ∃ e, select_name (PDict np) p (PStr "") = Ok (PStr e).
Proof.
  destruct o as [v|]; simpl; intros H.
  - rewrite (select_name_encoded _ _ _ _ _ H).
    destruct (NotionSync.schema_is S p "select"); by eauto.
  - rewrite select_name_lookup, H. by eauto.
Qed.

Lemma mapR_names (names : list pyval) :
  mapR (λ m, Py.vget m "name" PNone) (map (λ v, PDict [("name", v)]) names)
  = Ok names.
Proof.
  induction names as [|n r IH]; simpl; [done|].
  rewrite IH. reflexivity.
Qed.

Lemma label_set_lookup np p names :
  dict_get p np = Some (multi_select_value names) →
  label_set (PDict np) p = Py.to_set names.
Proof.
  intros H. unfold label_set. rewrite vget_dict, H. simpl default. red_ok.
  unfold multi_select_value. rewrite vget_dict. simpl default. red_ok.
  simpl Py.iter. red_ok. by rewrite mapR_names.
Qed.

Lemma hashable_strings names : forallb Py.hashable (map PStr names) = true.
Proof. by induction names. Qed.

Lemma joined_text_title np p s :
  dict_get p np = Some (title_value (PStr s)) →
  joined_text (PDict np) p "title" = Ok s.
Proof. intros H. unfold joined_text. by rewrite vget_dict, H. Qed.

Lemma joined_text_rich np p s :
  dict_get p np = Some (rich_text (PStr s)) →
  joined_text (PDict np) p "rich_text" = Ok s.
Proof. intros H. unfold joined_text. by rewrite vget_dict, H. Qed.

(** ** The comparisons of the diff functions *)

Lemma joined_text_agree np np' p field :
  dict_get p np = dict_get p np' →
  joined_text (PDict np) p field = joined_text (PDict np') p field.
Proof. intros H. unfold joined_text. by rewrite !vget_dict, H. Qed.

Lemma select_name_agree np np' p dflt :
  dict_get p np = dict_get p np' →
  select_name (PDict np) p dflt = select_name (PDict np') p dflt.
Proof. intros H. by rewrite !select_name_lookup, H. Qed.

Lemma label_set_agree np np' p :
  dict_get p np = dict_get p np' →
  label_set (PDict np) p = label_set (PDict np') p.
Proof. intros H. unfold label_set. by rewrite !vget_dict, H. Qed.

Lemma text_differs_agree props np np' p field :
  dict_get p np = dict_get p np' →
  text_differs props (PDict np) p field = text_differs props (PDict np') p field.
Proof. intros H. unfold text_differs. by rewrite (joined_text_agree _ _ _ _ H). Qed.

Lemma select_differs_agree props np np' p :
  dict_get p np = dict_get p np' →
  select_differs props (PDict np) p = select_differs props (PDict np') p.
Proof. intros H. unfold select_differs. by rewrite (select_name_agree _ _ _ _ H). Qed.

Lemma labels_differ_agree props np np' :
  dict_get PROP_LABELS np = dict_get PROP_LABELS np' →
  labels_differ props (PDict np) = labels_differ props (PDict np').
Proof. intros H. unfold labels_differ. by rewrite (label_set_agree _ _ _ H). Qed.

Lemma status_differs_agree props np np' :
  dict_get PROP_STATUS np = dict_get PROP_STATUS np' →
  status_differs props (PDict np) = status_differs props (PDict np').
Proof. intros H. unfold status_differs. by rewrite (select_name_agree _ _ _ _ H). Qed.

Lemma properties_differ_agree S existing np np' :
  (∀ k, In k compared_properties → dict_get k np = dict_get k np') →
  NotionSync.properties_differ S existing np =
  NotionSync.properties_differ S existing np'.
Proof.
  intros H.
  destruct (Py.vget existing "properties" (PDict [])) as [props|e] eqn:E.
  - rewrite !(sweep_properties_differ _ _ _ _ E).
    rewrite (text_differs_agree _ np np' PROP_TITLE), (text_differs_agree _ np np' PROP_BODY),
      (select_differs_agree _ np np' PROP_PROJECT), (select_differs_agree _ np np' PROP_TYPE),
      (select_differs_agree _ np np' PROP_PRIORITY), (select_differs_agree _ np np' PROP_SPRINT),
      (labels_differ_agree _ np np'), (status_differs_agree _ np np');
      try (apply H; unfold compared_properties, In; tauto).
    reflexivity.
  - unfold NotionSync.properties_differ. by rewrite E.
Qed.

(** *** A payload against itself *)

Lemma text_differs_refl p prop field e :
  joined_text p prop field = Ok e → text_differs p p prop field = Ok false.
Proof.
  intros H. unfold text_differs. rewrite H. red_ok.
  by rewrite String.eqb_refl.
Qed.

Lemma select_differs_refl p prop e :
  select_name p prop (PStr "") = Ok (PStr e) → select_differs p p prop = Ok false.
Proof.
  intros H. unfold select_differs. rewrite H. red_ok.
  simpl Py.eq. by rewrite String.eqb_refl.
Qed.

Lemma status_differs_refl p e :
  select_name p PROP_STATUS (PStr "") = Ok e → status_differs p p = Ok false.
Proof.
  intros H. unfold status_differs. rewrite H. red_ok.
  by rewrite andb_negb_r.
Qed.

Lemma set_incl_strings es ns :
  Py.set_incl (map PStr es) (map PStr ns) = true ↔ ∀ x, In x es → In x ns.
Proof.
  unfold Py.set_incl. rewrite forallb_forall. split.
  - intros H x Hx. specialize (H (PStr x) (in_map PStr _ _ Hx)).
    apply existsb_exists in H as (y & Hy & Heq).
    apply in_map_iff in Hy as (y' & <- & Hy'). simpl in Heq.
    apply String.eqb_eq in Heq. by subst.
  - intros H x Hx. apply in_map_iff in Hx as (x' & <- & Hx').
    apply existsb_exists. exists (PStr x'). split; [by apply in_map, H|].
    simpl. apply String.eqb_refl.
Qed.

Lemma set_ne_strings es ns :
  Py.set_ne (map PStr es) (map PStr ns) = false ↔ ∀ x, In x es ↔ In x ns.
Proof.
  unfold Py.set_ne. rewrite negb_false_iff, andb_true_iff, !set_incl_strings.
  split.
  - intros [H1 H2] x. split; [apply H1 | apply H2].
  - intros H. split; intros x; apply H.
Qed.

Lemma labels_differ_strings props np es ns :
  dict_get PROP_LABELS props = Some (multi_select_value (map PStr es)) →
  dict_get PROP_LABELS np = Some (multi_select_value (map PStr ns)) →
  labels_differ (PDict props) (PDict np) =
  Ok (Py.set_ne (map PStr es) (map PStr ns)).
Proof.
  intros He Hn. unfold labels_differ.
  rewrite (label_set_lookup _ _ _ He), (label_set_lookup _ _ _ Hn).
  unfold Py.to_set. by rewrite !hashable_strings.
Qed.

Lemma project_shape S P M issue repo_full props :
  NotionSync.build_properties S P M issue = Ok props ∨
  IssueToNotion.build_properties S P M issue repo_full = Ok props →
  ∃ v, dict_get PROP_PROJECT props = Some (encoded_select S PROP_PROJECT v).
Proof.
  intros [H|H]; build_steps H; build_lookup PROP_PROJECT; frame;
    rewrite dict_update_single, dict_get_set_eq; by eauto.
Qed.

Lemma sprint_layer_shape S (o : option string) base :
  dict_get PROP_SPRINT base = None →
  ∃ o', dict_get PROP_SPRINT
          (when_some o
             (λ v, when (Py.truthy (PStr v))
                     (λ p, dict_update p (NotionSync.select_payload S PROP_SPRINT v)))
             base) = encoded_select S PROP_SPRINT <$> o'.
Proof.
  intros Hb. destruct o as [v|]; [|by exists None].
  unfold when_some, when. destruct (Py.truthy (PStr v)); [|by exists None].
  exists (Some v). by rewrite select_payload_single, dict_update_single, dict_get_set_eq.
Qed.

Lemma sprint_shape S P M issue repo_full props :
  NotionSync.build_properties S P M issue = Ok props ∨
  IssueToNotion.build_properties S P M issue repo_full = Ok props →
  ∃ o, dict_get PROP_SPRINT props = encoded_select S PROP_SPRINT <$> o.
Proof.
  intros [H|H]; build_steps H; build_lookup PROP_SPRINT; frame;
    apply sprint_layer_shape; frame; reflexivity.
Qed.

Lemma guarded_select_refl S np p (o : option string) :
  dict_get p np = encoded_select S p <$> o →
  (if NotionSync.schema_is S p "select"
   then select_differs (PDict np) (PDict np) p else Ok false) = Ok false.
Proof.
  intros H. destruct (NotionSync.schema_is S p "select"); [|done].
  destruct (select_name_encoded_opt _ _ _ _ H) as [e He].
  by eapply select_differs_refl.
Qed.

(** Every comparison of a payload built from a well-shaped source record
    with a page that stores that payload answers "no difference". *)
Lemma built_payload_equals_itself S P M issue repo_full np :
  source_shaped issue = true →
  NotionSync.build_properties S P M issue = Ok np ∨
  IssueToNotion.build_properties S P M issue repo_full = Ok np →
  first_difference
    [ text_differs (PDict np) (PDict np) PROP_TITLE "title";
      (if NotionSync.schema_is S PROP_PROJECT "select"
       then select_differs (PDict np) (PDict np) PROP_PROJECT else Ok false);
      (if NotionSync.schema_is S PROP_TYPE "select"
       then select_differs (PDict np) (PDict np) PROP_TYPE else Ok false);
      (if NotionSync.schema_is S PROP_PRIORITY "select"
       then select_differs (PDict np) (PDict np) PROP_PRIORITY else Ok false);
      (if NotionSync.schema_is S PROP_SPRINT "select"
       then select_differs (PDict np) (PDict np) PROP_SPRINT else Ok false);
      (if NotionSync.schema_is S PROP_LABELS "multi_select"
       then labels_differ (PDict np) (PDict np) else Ok false);
      text_differs (PDict np) (PDict np) PROP_BODY "rich_text";
      status_differs (PDict np) (PDict np) ] = Ok false.
Proof.
  intros Hs H. unfold source_shaped in Hs.
  repeat (apply andb_prop in Hs as [Hs ?]).
  destruct (label_names_ok issue) as [names Hn]; [done|].
  destruct (assignee_login_ok issue) as (v & Hv & Hsc); [done|].
  pose proof (title_lookup S P M issue repo_full np ltac:(done) H) as Ht.
  destruct (project_shape S P M issue repo_full np H) as [pv Hp].
  destruct (type_priority_lookup S P M issue repo_full np names Hn H) as [Hty Hpr].
  destruct (sprint_shape S P M issue repo_full np H) as [so Hsp].
  pose proof (labels_lookup S P M issue repo_full np _ Hn H) as Hl.
  pose proof (notes_lookup S P M issue repo_full np names v ltac:(done) Hn Hv Hsc H)
    as Hb.
  pose proof (status_lookup S P M issue repo_full np H) as Hst.
  rewrite (text_differs_refl _ _ _ _ (joined_text_title _ _ _ Ht)).
  rewrite (guarded_select_refl S np PROP_PROJECT (Some pv) Hp).
  rewrite (guarded_select_refl S np PROP_TYPE _ Hty).
  rewrite (guarded_select_refl S np PROP_PRIORITY _ Hpr).
  rewrite (guarded_select_refl S np PROP_SPRINT _ Hsp).
  rewrite (text_differs_refl _ _ _ _ (joined_text_rich _ _ _ Hb)).
  rewrite (status_differs_refl _ _ (select_name_encoded _ _ _ _ _ Hst)).
  destruct (NotionSync.schema_is S PROP_LABELS "multi_select"); [|done].
  rewrite (labels_differ_strings _ _ _ _ Hl Hl).
  by rewrite (proj2 (set_ne_strings names names)).
Qed.

(** *** A page with an unset choice *)

Lemma select_name_unset props p sd dflt :
  dict_get p props = Some (PDict sd) →
  dict_get "select" sd = Some PNone →
  select_name (PDict props) p dflt = Raise AttributeError.
Proof. intros H1 H2. by rewrite select_name_lookup, H1, vget_dict, H2. Qed.

Lemma differs_or_raises_In S props np c :
  In c [ text_differs props (PDict np) PROP_TITLE "title";
         (if NotionSync.schema_is S PROP_PROJECT "select"
          then select_differs props (PDict np) PROP_PROJECT else Ok false);
         (if NotionSync.schema_is S PROP_TYPE "select"
          then select_differs props (PDict np) PROP_TYPE else Ok false);
         (if NotionSync.schema_is S PROP_PRIORITY "select"
          then select_differs props (PDict np) PROP_PRIORITY else Ok false);
         (if NotionSync.schema_is S PROP_SPRINT "select"
          then select_differs props (PDict np) PROP_SPRINT else Ok false);
         (if NotionSync.schema_is S PROP_LABELS "multi_select"
          then labels_differ props (PDict np) else Ok false);
         text_differs props (PDict np) PROP_BODY "rich_text";
         status_differs props (PDict np) ] →
  differs_or_raises c = true →
  ∀ existing, Py.vget existing "properties" (PDict []) = Ok props →
  NotionSync.properties_differ S existing np = true.
Proof.
  intros Hin Hc existing E.
  rewrite (sweep_properties_differ _ _ _ _ E), except_true_first_difference.
  apply existsb_exists. by exists c.
Qed.

Lemma unset_select_differs S existing props np p sd :
  Py.vget existing "properties" (PDict []) = Ok (PDict props) →
  p = PROP_STATUS ∨
  (In p [PROP_PROJECT; PROP_TYPE; PROP_PRIORITY; PROP_SPRINT] ∧
   NotionSync.schema_is S p "select" = true) →
  dict_get p props = Some (PDict sd) →
  dict_get "select" sd = Some PNone →
  NotionSync.properties_differ S existing np = true.
Proof.
  intros E Hp H1 H2.
  pose proof (select_name_unset _ _ _ (PStr "") H1 H2) as Hr.
  apply (differs_or_raises_In S (PDict props) np (Raise AttributeError));
    [|done|done].
  destruct Hp as [->|[Hin Hs]].
  - unfold status_differs. rewrite Hr. simpl. tauto.
  - unfold In in Hin.
    destruct Hin as [<-|[<-|[<-|[<-|[]]]]]; rewrite Hs; unfold select_differs;
      rewrite Hr; simpl; tauto.
Qed.

(** *** The update payload of a built payload *)

Lemma dict_get_copy_select_ne S np up p k :
  p ≠ k → dict_get k (NotionSync.copy_select S np up p) = dict_get k up.
Proof.
  intros Hne. rewrite dict_get_copy_select.
  destruct (dict_get p np); [|done].
  destruct (String.eqb p k) eqn:E; [|by rewrite andb_false_r].
  by apply String.eqb_eq in E.
Qed.

Lemma update_payload_built S P M issue repo_full np :
  NotionSync.build_properties S P M issue = Ok np ∨
  IssueToNotion.build_properties S P M issue repo_full = Ok np →
  ∃ up, NotionSync.update_payload S np = Ok up ∧
        dict_get PROP_TITLE up = dict_get PROP_TITLE np ∧
        dict_get PROP_BODY up = dict_get PROP_BODY np ∧
        dict_get PROP_STATUS up =
          if NotionSync.schema_is S PROP_STATUS "select" && is_closed issue
          then Some (select_value (PStr "Done")) else None.
Proof.
  intros H.
  pose proof (payload_keys_fixed S P M issue repo_full np PROP_TITLE H) as Ht.
  pose proof (payload_keys_fixed S P M issue repo_full np PROP_BODY H) as Hb.
  pose proof (status_lookup S P M issue repo_full np H) as Hst.
  apply (select_name_encoded _ _ _ _ PNone) in Hst.
  destruct (dict_get PROP_TITLE np) as [t|] eqn:Et;
    [|exfalso; apply Ht; [unfold fixed_properties, In; tauto | done]].
  destruct (dict_get PROP_BODY np) as [b|] eqn:Eb;
    [|exfalso; apply Hb; [unfold fixed_properties, In; tauto | done]].
  unfold NotionSync.update_payload. cbv zeta. unfold Py.index.
  rewrite Et, Eb. red_ok. rewrite Hst. red_ok.
  assert (Hd : Py.eq (if NotionSync.schema_is S PROP_STATUS "select"
                      then PStr (status_name issue) else PNone) (PStr "Done")
               = NotionSync.schema_is S PROP_STATUS "select" && is_closed issue).
  { destruct (NotionSync.schema_is S PROP_STATUS "select"); [|done].
    unfold status_name. by destruct (is_closed issue). }
  rewrite Hd.
  destruct (NotionSync.schema_is S PROP_STATUS "select" && is_closed issue);
    (eexists; split; [reflexivity|]);
    rewrite ?(dict_get_set_ne _ PROP_TITLE PROP_STATUS) by discriminate;
    rewrite ?(dict_get_set_ne _ PROP_BODY PROP_STATUS) by discriminate;
    rewrite ?dict_get_set_eq;
    destruct (NotionSync.schema_is S PROP_LABELS "multi_select"
              && dict_mem PROP_LABELS np);
    rewrite ?dict_get_set_ne by discriminate;
    rewrite !dict_get_copy_select_ne by discriminate;
    rewrite ?dict_get_set_ne by discriminate;
    by rewrite ?dict_get_set_eq.
Qed.

(** ** What the diff reads *)

(** X18: what an encoder writes, the diff functions read back: the name
    of a value written by [select_payload] is the value itself when the
    property is declared as a single choice and the default of the reader
    under any other kind; the text of a title and of a rich text written
    with one piece is that piece. *)
Theorem written_values_read_back
    (S : gmap string string) (p v s : string) (dflt : pyval) :
  select_name (PDict (NotionSync.select_payload S p v)) p dflt =
    Ok (if NotionSync.schema_is S p "select" then PStr v else dflt) ∧
  select_name (PDict (IssueToNotion.select_payload S p v)) p dflt =
    Ok (if NotionSync.schema_is S p "select" then PStr v else dflt) ∧
  joined_text (PDict [(p, title_value (PStr s))]) p "title" = Ok s ∧
  joined_text (PDict [(p, rich_text (PStr s))]) p "rich_text" = Ok s.
Proof.
  assert (Hl : ∀ x : pyval, dict_get p [(p, x)] = Some x).
  { intros x. simpl. by rewrite String.eqb_refl. }
  change (IssueToNotion.select_payload S p v) with (NotionSync.select_payload S p v).
  rewrite select_payload_single.
  repeat split.
  - apply select_name_encoded, Hl.
  - apply select_name_encoded, Hl.
  - apply joined_text_title, Hl.
  - apply joined_text_rich, Hl.
Qed.

(** X19: the names of a value written by [multi_select_payload] are read
    back by the diff functions as they were written, when each of them can
    be a member of a set. *)
Theorem written_labels_read_back
    (S : gmap string string) (p : string) (names : list pyval)
    (d : list (string * pyval)) :
  NotionSync.multi_select_payload S p names = Some d ∨
  IssueToNotion.multi_select_payload S p names = Some d →
  forallb Py.hashable names = true →
  label_set (PDict d) p = Ok names.
Proof.
  intros H Hh.
  assert (H' : NotionSync.multi_select_payload S p names = Some d).
  { destruct H as [H|H]; [done | by rewrite multi_select_payload_same in H]. }
  apply multi_select_payload_single in H' as [-> _].
  rewrite (label_set_lookup _ _ names).
  - unfold Py.to_set. by rewrite Hh.
  - simpl. by rewrite String.eqb_refl.
Qed.

Lemma written_labels_read_back_witness :
  let S : gmap string string := {[ PROP_LABELS := "multi_select" ]} in
  label_set (PDict [(PROP_LABELS, multi_select_value [PStr "bug"; PStr "ui"])])
    PROP_LABELS = Ok [PStr "bug"; PStr "ui"].
Proof.
  intros S.
  refine (written_labels_read_back S PROP_LABELS [PStr "bug"; PStr "ui"] _ _ _);
    [left; vm_compute; reflexivity | reflexivity].
Defined.

(** X20: the diff functions read a payload only through [Task],
    [Project], [Type], [Priority], [Sprint], [Labels], [Notes] and
    [Status]: two payloads that agree on these get the same answer against
    every page, whatever they hold for the assignee, the repository, the
    external id, the link and the timestamps. *)
Theorem diff_reads_only_compared_properties
    (S : gmap string string) (existing : pyval)
    (np np' : list (string * pyval)) :
  (∀ k, In k compared_properties → dict_get k np = dict_get k np') →
  NotionSync.properties_differ S existing np =
    NotionSync.properties_differ S existing np' ∧
  IssueToNotion.properties_differ S existing np =
    IssueToNotion.properties_differ S existing np'.
Proof.
  intros H. rewrite !properties_differ_same.
  split; by apply properties_differ_agree.
Qed.

Lemma diff_reads_only_compared_properties_witness :
  let page := PDict [("properties", PDict [(PROP_TITLE, title_value (PStr "Fix crash"))])] in
  let np := [(PROP_TITLE, title_value (PStr "Fix crash"));
             (PROP_ASSIGNEE, rich_text (PStr "octocat"))] in
  let np' := [(PROP_TITLE, title_value (PStr "Fix crash"));
              (PROP_ASSIGNEE, rich_text (PStr "hubot"));
              (PROP_UPDATED, date_value (PStr "2024-02-02T00:00:00Z"))] in
  NotionSync.properties_differ ∅ page np = NotionSync.properties_differ ∅ page np'.
Proof.
  intros page np np'.
  refine (proj1 (diff_reads_only_compared_properties ∅ page np np' _)).
  intros k Hk. unfold compared_properties, In in Hk.
  repeat destruct Hk as [<-|Hk]; try reflexivity. destruct Hk.
Defined.

(** X21: on a page and a payload whose labels are strings, the labels
    comparison answers "no difference" exactly when the two lists have the
    same members: neither the order nor a repetition counts. *)
Theorem labels_compare_as_sets
    (props np : list (string * pyval)) (es ns : list string) :
  dict_get PROP_LABELS props = Some (multi_select_value (map PStr es)) →
  dict_get PROP_LABELS np = Some (multi_select_value (map PStr ns)) →
  ∃ d, labels_differ (PDict props) (PDict np) = Ok d ∧
       (d = false ↔ ∀ x, In x es ↔ In x ns).
Proof.
  intros He Hn. eexists. split; [by apply labels_differ_strings|].
  apply set_ne_strings.
Qed.

Lemma labels_compare_as_sets_witness :
  labels_differ
    (PDict [(PROP_LABELS, multi_select_value (map PStr ["bug"; "ui"; "bug"]))])
    (PDict [(PROP_LABELS, multi_select_value (map PStr ["ui"; "bug"]))])
  = Ok false.
Proof.
  destruct (labels_compare_as_sets
              [(PROP_LABELS, multi_select_value (map PStr ["bug"; "ui"; "bug"]))]
              [(PROP_LABELS, multi_select_value (map PStr ["ui"; "bug"]))]
              ["bug"; "ui"; "bug"] ["ui"; "bug"] eq_refl eq_refl) as (d & Hd & Hiff).
  rewrite Hd. f_equal. apply Hiff. intros x. simpl. tauto.
Defined.

(** X22: a page on which [Status], or a property among [Project], [Type],
    [Priority] and [Sprint] that the destination declares as a single
    choice, holds an unset choice ([select] is [None]) is reported as
    different from every payload by both diff functions: reading the name
    of the choice raises, and a raise counts as a difference. *)
Theorem unset_choice_always_differs
    (S : gmap string string) (existing : pyval)
    (props np sd : list (string * pyval)) (p : string) :
  Py.vget existing "properties" (PDict []) = Ok (PDict props) →
  p = PROP_STATUS ∨
  (In p [PROP_PROJECT; PROP_TYPE; PROP_PRIORITY; PROP_SPRINT] ∧
   NotionSync.schema_is S p "select" = true) →
  dict_get p props = Some (PDict sd) →
  dict_get "select" sd = Some PNone →
  NotionSync.properties_differ S existing np = true ∧
  IssueToNotion.properties_differ S existing np = true.
Proof.
  intros E Hp H1 H2. rewrite properties_differ_same.
  split; by eapply unset_select_differs.
Qed.

Lemma unset_choice_always_differs_witness :
  let S : gmap string string := {[ PROP_TYPE := "select" ]} in
  let props := [(PROP_TITLE, title_value (PStr "Fix crash"));
                (PROP_TYPE, PDict [("select", PNone)])] in
  let np := [(PROP_TITLE, title_value (PStr "Fix crash"))] in
  NotionSync.properties_differ S (PDict [("properties", PDict props)]) np = true.
Proof.
  intros S props np.
  refine (proj1 (unset_choice_always_differs S _ props np [("select", PNone)]
                   PROP_TYPE _ _ _ _));
    [reflexivity | right; split; [simpl; tauto | vm_compute; reflexivity]
    | reflexivity | reflexivity].
Defined.

(** X23: a pass that follows a create asks nothing.  For a well-shaped
    source record with an id, a pass that finds no page asks for a create
    with the built payload; against a page whose property table is exactly
    that payload (what the create leaves when the destination stores the
    payload as sent), both diff functions answer "no difference" and a
    further pass over the same record asks nothing of the destination.
    Nothing is said here of a page left by an update. *)
Theorem pass_after_create_asks_nothing
    (S P : gmap string string) (M : list (string * string))
    (issue : list (string * pyval)) (repo_full : string) :
  source_shaped issue = true →
  Py.truthy (Py.get issue "id") = true →
  (∃ np, NotionSync.sync_issue S P M PNone issue = Create np ∧
         ∀ page, dict_get "properties" page = Some (PDict np) →
                 NotionSync.properties_differ S (PDict page) np = false ∧
                 NotionSync.sync_issue S P M (PDict page) issue = NoOp) ∧
  (∃ np, IssueToNotion.sync_issue S P M PNone issue repo_full = Create np ∧
         ∀ page, dict_get "properties" page = Some (PDict np) →
                 IssueToNotion.properties_differ S (PDict page) np = false ∧
                 IssueToNotion.sync_issue S P M (PDict page) issue repo_full = NoOp).
Proof.
  intros Hs Hid.
  assert (Hne : Py.truthy (PDict issue) = true) by (by destruct issue).
  split.
  - destruct (sweep_builder_returns S P M issue Hs) as [np Hb].
    exists np. split.
    { unfold NotionSync.sync_issue. by rewrite Hid, Hb. }
    intros page Hp.
    assert (E : Py.vget (PDict page) "properties" (PDict []) = Ok (PDict np))
      by (by rewrite vget_dict, Hp).
    assert (Ht : Py.truthy (PDict page) = true) by (by destruct page).
    assert (Hd : NotionSync.properties_differ S (PDict page) np = false).
    { rewrite (sweep_properties_differ _ _ _ _ E).
      by rewrite (built_payload_equals_itself S P M issue repo_full np Hs
                    (or_introl Hb)). }
    split; [done|].
    unfold NotionSync.sync_issue. by rewrite Hid, Hb, Ht, Hd.
  - destruct (webhook_builder_returns S P M issue repo_full Hs) as [np Hb].
    exists np. split.
    { unfold IssueToNotion.sync_issue. by rewrite Hne, Hb. }
    intros page Hp.
    assert (E : Py.vget (PDict page) "properties" (PDict []) = Ok (PDict np))
      by (by rewrite vget_dict, Hp).
    assert (Ht : Py.truthy (PDict page) = true) by (by destruct page).
    assert (Hd : IssueToNotion.properties_differ S (PDict page) np = false).
    { rewrite properties_differ_same, (sweep_properties_differ _ _ _ _ E).
      by rewrite (built_payload_equals_itself S P M issue repo_full np Hs
                    (or_intror Hb)). }
    split; [done|].
    unfold IssueToNotion.sync_issue. by rewrite Hne, Hb, Ht, Hd.
Qed.

Lemma pass_after_create_asks_nothing_witness :
  let S : gmap string string :=
    {[ PROP_STATUS := "select"; PROP_TYPE := "select"; PROP_LABELS := "multi_select" ]} in
  let issue :=
    [("id", PInt 101); ("title", PStr "Fix crash"); ("body", PStr "Steps");
     ("labels", PList [PDict [("name", PStr "type:bug")]]);
     ("state", PStr "closed")] in
  ∃ np, NotionSync.sync_issue S ∅ [] PNone issue = Create np ∧
        NotionSync.sync_issue S ∅ []
          (PDict [("id", PStr "page-1"); ("properties", PDict np)]) issue = NoOp.
Proof.
  intros S issue.
  destruct (pass_after_create_asks_nothing S ∅ [] issue "o/r" eq_refl eq_refl)
    as [(np & Hc & Hn) _].
  exists np. split; [exact Hc|].
  apply (Hn [("id", PStr "page-1"); ("properties", PDict np)]). reflexivity.
Defined.

(** ** What an update carries *)

(** X24: from every payload a builder returns, the update payload can be
    cut without a raise; it carries the title and the notes of the payload,
    and it carries a status, which is then ["Done"], exactly when the
    destination declares [Status] as a single choice and the source record
    is closed. *)
Theorem update_payload_of_built_payload
    (S P : gmap string string) (M : list (string * string))
    (issue : list (string * pyval)) (repo_full : string)
    (np : list (string * pyval)) :
  NotionSync.build_properties S P M issue = Ok np ∨
  IssueToNotion.build_properties S P M issue repo_full = Ok np →
  ∃ up, NotionSync.update_payload S np = Ok up ∧
        IssueToNotion.update_payload S np = Ok up ∧
        dict_get PROP_TITLE up = dict_get PROP_TITLE np ∧
        dict_get PROP_BODY up = dict_get PROP_BODY np ∧
        dict_get PROP_STATUS up =
          if NotionSync.schema_is S PROP_STATUS "select" && is_closed issue
          then Some (select_value (PStr "Done")) else None.
Proof.
  intros H.
  destruct (update_payload_built S P M issue repo_full np H) as (up & Hu & Hrest).
  exists up. split; [done|]. split; [by rewrite update_payload_same | done].
Qed.

Lemma update_payload_of_built_payload_witness :
  let S : gmap string string := {[ PROP_STATUS := "rich_text" ]} in
  let issue := [("id", PInt 101); ("title", PStr "Fix crash");
                ("state", PStr "closed")] in
  ∃ np up, NotionSync.build_properties S ∅ [] issue = Ok np ∧
           NotionSync.update_payload S np = Ok up ∧
           dict_get PROP_STATUS up = None.
Proof.
  intros S issue. eexists.
  destruct (update_payload_of_built_payload S ∅ [] issue "o/r" _
              (or_introl eq_refl)) as (up & Hu & _ & _ & _ & Hst).
  exists up. split; [reflexivity|]. split; [exact Hu | exact Hst].
Defined.

(** X25: when the destination declares [Status] as a single choice, a
    pass over a closed, well-shaped source record whose page reads a
    status other than ["Done"] asks for an update of that page, and the
    update sets the status to ["Done"]. *)
Theorem closed_issue_marks_page_done
    (S P : gmap string string) (M : list (string * string))
    (issue page : list (string * pyval)) (repo_full : string)
    (props e : pyval) :
  source_shaped issue = true →
  NotionSync.schema_is S PROP_STATUS "select" = true →
  is_closed issue = true →
  dict_get "properties" page = Some props →
  select_name props PROP_STATUS (PStr "") = Ok e →
  Py.eq e (PStr "Done") = false →
  (Py.truthy (Py.get issue "id") = true →
   ∃ up, NotionSync.sync_issue S P M (PDict page) issue
           = Update (Py.get page "id") up ∧
         dict_get PROP_STATUS up = Some (select_value (PStr "Done"))) ∧
  (∃ up, IssueToNotion.sync_issue S P M (PDict page) issue repo_full
           = Update (Py.get page "id") up ∧
         dict_get PROP_STATUS up = Some (select_value (PStr "Done"))).
Proof.
  intros Hs Hsel Hc Hp He Hne.
  assert (E : Py.vget (PDict page) "properties" (PDict []) = Ok props)
    by (by rewrite vget_dict, Hp).
  assert (Ht : Py.truthy (PDict page) = true) by (by destruct page).
  assert (Hiss : Py.truthy (PDict issue) = true) by (by destruct issue).
  assert (Hdiff : ∀ np,
            dict_get PROP_STATUS np =
              Some (encoded_select S PROP_STATUS (status_name issue)) →
            NotionSync.properties_differ S (PDict page) np = true).
  { intros np Hst.
    apply (differs_or_raises_In S props np (Ok true)); [|done|done].
    assert (Hd : status_differs props (PDict np) = Ok true).
    { unfold status_differs. rewrite He. red_ok.
      rewrite (select_name_encoded _ _ _ _ _ Hst), Hsel. red_ok.
      unfold status_name. by rewrite Hc, Hne. }
    rewrite Hd. simpl. tauto. }
  split.
  - intros Hid.
    destruct (sweep_builder_returns S P M issue Hs) as [np Hb].
    destruct (update_payload_built S P M issue repo_full np (or_introl Hb))
      as (up & Hu & _ & _ & Hst).
    exists up. rewrite Hsel, Hc in Hst. split; [|done].
    unfold NotionSync.sync_issue.
    rewrite Hid, Hb, Ht, (Hdiff np), Hu; [done|].
    exact (status_lookup S P M issue repo_full np (or_introl Hb)).
  - destruct (webhook_builder_returns S P M issue repo_full Hs) as [np Hb].
    destruct (update_payload_built S P M issue repo_full np (or_intror Hb))
      as (up & Hu & _ & _ & Hst).
    exists up. rewrite Hsel, Hc in Hst. split; [|done].
    unfold IssueToNotion.sync_issue.
    rewrite Hiss, Hb, Ht, properties_differ_same, (Hdiff np), update_payload_same, Hu;
      [done|].
    exact (status_lookup S P M issue repo_full np (or_intror Hb)).
Qed.

Lemma closed_issue_marks_page_done_witness :
  let S : gmap string string := {[ PROP_STATUS := "select" ]} in
  let issue := [("id", PInt 101); ("title", PStr "Fix crash");
                ("state", PStr "closed")] in
  let page := [("id", PStr "page-1");
               ("properties",
                PDict [(PROP_TITLE, title_value (PStr "Fix crash"));
                       (PROP_STATUS, select_value (PStr "Backlog"))])] in
  ∃ up, NotionSync.sync_issue S ∅ [] (PDict page) issue = Update (PStr "page-1") up ∧
        dict_get PROP_STATUS up = Some (select_value (PStr "Done")).
Proof.
  intros S issue page.
  refine (proj1 (closed_issue_marks_page_done S ∅ [] issue page "o/r" _
                   (PStr "Backlog") _ _ _ _ _ _) _);
    try reflexivity.
Defined.

(** ** Comparing texts *)

Lemma mapR_pieces ss :
  mapR (λ p, t ← Py.vget p "text" (PDict []); Py.vget t "content" (PStr ""))
    (map text_piece ss) = Ok (map PStr ss).
Proof.
  induction ss as [|s r IH]; [done|].
  change (map text_piece (s :: r)) with (text_piece s :: map text_piece r).
  cbn [mapR]. rewrite IH. reflexivity.
Qed.

Lemma joined_text_pieces props p field ss :
  dict_get p props = Some (PDict [(field, PList (map text_piece ss))]) →
  joined_text (PDict props) p field = Ok (String.concat "" ss).
Proof.
  intros H. unfold joined_text. rewrite vget_dict, H. simpl default. red_ok.
  rewrite vget_dict. cbn [dict_get]. rewrite String.eqb_refl. simpl default. red_ok.
  simpl Py.iter. red_ok. rewrite mapR_pieces. red_ok.
  rewrite mapR_str_operand. reflexivity.
Qed.

(** X26: the title and the notes are compared as texts without their
    surrounding white space: the pieces the page holds are joined, and the
    comparison answers "no difference" exactly when the joined text and the
    text of the payload are equal once both are stripped. *)
Theorem texts_compare_without_surrounding_space
    (props np : list (string * pyval)) (p field : string)
    (ss : list string) (n : string) :
  dict_get p props = Some (PDict [(field, PList (map text_piece ss))]) →
  dict_get p np = Some (PDict [(field, PList [text_piece n])]) →
  ∃ d, text_differs (PDict props) (PDict np) p field = Ok d ∧
       (d = false ↔ PyStr.strip (String.concat "" ss) = PyStr.strip n).
Proof.
  intros He Hn. unfold text_differs.
  rewrite (joined_text_pieces _ _ _ _ He), (joined_text_pieces _ _ _ [n] Hn).
  red_ok. eexists. split; [reflexivity|].
  rewrite negb_false_iff. apply String.eqb_eq.
Qed.

Lemma texts_compare_without_surrounding_space_witness :
  text_differs
    (PDict [(PROP_TITLE, PDict [("title", PList (map text_piece [" Fix "; "crash "]))])])
    (PDict [(PROP_TITLE, title_value (PStr "Fix crash"))])
    PROP_TITLE "title" = Ok false.
Proof.
  destruct (texts_compare_without_surrounding_space
              [(PROP_TITLE, PDict [("title", PList (map text_piece [" Fix "; "crash "]))])]
              [(PROP_TITLE, title_value (PStr "Fix crash"))]
              PROP_TITLE "title" [" Fix "; "crash "] "Fix crash" eq_refl eq_refl)
    as (d & Hd & Hiff).
  rewrite Hd. f_equal. apply Hiff. reflexivity.
Defined.

(** ** A choice that left the source *)

Lemma keeps_choice_patch page0 props0 p up pg :
  dict_get p up = None →
  keeps_choice page0 props0 p pg →
  keeps_choice page0 props0 p (notion_patch pg up).
Proof.
  intros Hup (d & ps & -> & Hd & Hp & Hid).
  unfold notion_patch, Py.get_or. rewrite Hd. simpl default.
  exists (dict_set d "properties" (PDict (merge_properties ps up))),
         (merge_properties ps up).
  split; [done|]. split; [apply dict_get_set_eq|]. split.
  - by rewrite merge_properties_lookup, Hup.
  - unfold Py.get. by rewrite dict_get_set_ne.
Qed.

Lemma keeps_choice_patched page0 props0 p up n :
  dict_get "properties" page0 = Some (PDict props0) →
  dict_get p up = None →
  keeps_choice page0 props0 p (patched n (PDict page0) up).
Proof.
  intros H0 Hup. induction n as [|n IH].
  - by exists page0, props0.
  - by apply keeps_choice_patch.
Qed.

Lemma kept_choice_differs S page0 props0 np p e pg :
  In p [PROP_TYPE; PROP_PRIORITY; PROP_SPRINT] →
  NotionSync.schema_is S p "select" = true →
  select_name (PDict props0) p (PStr "") = Ok e →
  Py.eq e (PStr "") = false →
  dict_get p np = None →
  keeps_choice page0 props0 p pg →
  NotionSync.properties_differ S pg np = true.
Proof.
  intros Hin Hs He Hne Hnp (d & ps & -> & Hd & Hp & _).
  assert (Hsel : select_differs (PDict ps) (PDict np) p = Ok true).
  { unfold select_differs.
    rewrite (select_name_agree ps props0 p (PStr "") Hp), He. red_ok.
    rewrite select_name_lookup, Hnp. red_ok. by rewrite Hne. }
  apply (differs_or_raises_In S (PDict ps) np (Ok true)); [|done|].
  - unfold In in Hin.
    destruct Hin as [<-|[<-|[<-|[]]]]; rewrite Hs, Hsel; simpl; tauto.
  - by rewrite vget_dict, Hd.
Qed.

Lemma update_payload_skips_absent S np up p :
  In p [PROP_TYPE; PROP_PRIORITY; PROP_SPRINT] →
  NotionSync.update_payload S np = Ok up →
  dict_get p np = None →
  dict_get p up = None.
Proof.
  intros Hin Hu Hnp.
  destruct (dict_get p up) as [v|] eqn:E; [|done].
  apply (update_payload_entries _ _ _ _ _ Hu) in E.
  unfold In in Hin.
  destruct E as [[-> _]|[[-> _]|[(_ & _ & E)|[[-> _]|[-> _]]]]];
    try (by destruct Hin as [|[|[|[]]]]).
  by rewrite Hnp in E.
Qed.

(** X27: an update never clears a choice that has left the source.  When
    a page reads a non-empty choice under [Type], [Priority] or [Sprint],
    the destination declares that property as a single choice, and the
    payload built from the source record has no such key, the update
    payload does not carry the property either; so after the update has
    been stored, any number of times, the diff still answers "differs" and
    every further pass over the same record asks for the same update
    again. *)
Theorem absent_choice_is_updated_on_every_pass
    (S P : gmap string string) (M : list (string * string))
    (issue page props np : list (string * pyval)) (repo_full p : string)
    (e : pyval) :
  NotionSync.build_properties S P M issue = Ok np ∨
  IssueToNotion.build_properties S P M issue repo_full = Ok np →
  Py.truthy (Py.get issue "id") = true →
  In p [PROP_TYPE; PROP_PRIORITY; PROP_SPRINT] →
  NotionSync.schema_is S p "select" = true →
  dict_get "properties" page = Some (PDict props) →
  select_name (PDict props) p (PStr "") = Ok e →
  Py.eq e (PStr "") = false →
  dict_get p np = None →
  ∃ up, NotionSync.update_payload S np = Ok up ∧
        dict_get p up = None ∧
        ∀ n,
          NotionSync.properties_differ S (patched n (PDict page) up) np = true ∧
          (NotionSync.build_properties S P M issue = Ok np →
           NotionSync.sync_issue S P M (patched n (PDict page) up) issue
             = Update (Py.get page "id") up) ∧
          (IssueToNotion.build_properties S P M issue repo_full = Ok np →
           IssueToNotion.sync_issue S P M (patched n (PDict page) up) issue repo_full
             = Update (Py.get page "id") up).
Proof.
  intros H Hid Hin Hs Hp He Hne Hnp.
  destruct (update_payload_built S P M issue repo_full np H) as (up & Hu & _).
  pose proof (update_payload_skips_absent _ _ _ _ Hin Hu Hnp) as Hup.
  assert (Hiss : Py.truthy (PDict issue) = true) by (by destruct issue).
  exists up. split; [done|]. split; [done|]. intros n.
  pose proof (keeps_choice_patched page props p up n Hp Hup) as Hk.
  pose proof (kept_choice_differs S page props np p e _ Hin Hs He Hne Hnp Hk) as Hd.
  split; [done|].
  destruct Hk as (d & ps & Hpg & Hdp & _ & Hpid).
  rewrite Hpg in Hd |- *.
  assert (Ht : Py.truthy (PDict d) = true) by (by destruct d).
  assert (Hv : Py.vget (PDict d) "id" PNone = Ok (Py.get page "id"))
    by (by rewrite vget_dict, <- Hpid).
  split; intros Hb.
  - unfold NotionSync.sync_issue. by rewrite Hid, Hb, Ht, Hd, Hu, Hv.
  - unfold IssueToNotion.sync_issue.
    by rewrite Hiss, Hb, Ht, properties_differ_same, Hd, update_payload_same, Hu, Hv.
Qed.

Lemma absent_choice_is_updated_on_every_pass_witness :
  let S : gmap string string := {[ PROP_TYPE := "select" ]} in
  let issue := [("id", PInt 101); ("title", PStr "Fix crash")] in
  let page :=
    [("id", PStr "page-1");
     ("properties",
      PDict [(PROP_TITLE, title_value (PStr "Fix crash"));
             (PROP_TYPE, select_value (PStr "bug"))])] in
  ∃ up, dict_get PROP_TYPE up = None ∧
        NotionSync.sync_issue S ∅ [] (patched 2 (PDict page) up) issue
          = Update (PStr "page-1") up.
Proof.
  intros S issue page.
  destruct (absent_choice_is_updated_on_every_pass S ∅ [] issue page _ _ "o/r"
              PROP_TYPE (PStr "bug") (or_introl eq_refl) eq_refl
              ltac:(simpl; tauto) eq_refl eq_refl eq_refl eq_refl eq_refl)
    as (up & _ & Hup & Hn).
  exists up. split; [exact Hup|].
  exact (proj1 (proj2 (Hn 2)) eq_refl).
Defined.
